(** * A shallow embedding of [models.py]

    [models.py] declares the JFnet layer graph with Lasagne, derives the
    Bayesian variant [BCNN] from it by truncating and re-heading the graph,
    samples stochastic forward passes ([Model.mc_samples]) and moves
    parameter arrays to and from [.npz] and [.pkl] files.  It is Python 2
    code ([cPickle], and [keys()] and [values()] that return lists).

    The embedding follows the Python text statement by statement.  What
    Python keeps in objects and files is kept here in explicit values:

    - an [OrderedDict] is an association list in insertion order;
    - a Lasagne layer is a value that contains its incoming layers, so the
      graph below a layer is the layer itself (two layers of the JFnet
      network are the same object exactly when they are equal as values,
      see [build_model_layers_distinct]);
    - the Theano shared variables holding the parameters live in a store
      indexed by the owning layer and the parameter name, so that layers
      which share a sub-graph share its parameters;
    - the file system maps file names to typed contents;
    - an exception is a result [Raise e].

    What the libraries do is modelled as far as the module depends on it:
    the order and the lookups of [OrderedDict], the shapes Lasagne infers,
    the order in which Lasagne collects parameters, the names [np.savez]
    gives to arrays, and the broadcasting of a numpy slice assignment.
    The checks Lasagne's constructors make on their arguments are [check];
    [JFnet.build_model] runs them on its 45 layers.  The three layers
    [BCNN.__init__] adds are taken to be accepted, as they are for every
    positive [n_classes] ([bcnn_head_accepted]).

    Two things are left out.  The compiled Theano functions are a
    parameter ([theano_call]): a forward pass is any function from the
    parameters, the inputs and the state of the random streams to an
    output array, a new state, or an exception.  And building the
    symbolic graph and compiling it ([theano.function]) is taken to
    succeed: what is stated about a first call of [predict] or
    [mc_samples] is about a model whose graph compiles.

    Numbers that Python holds as floats are never computed with by this
    module (they are stored literals and opaque array entries), so they are
    represented by rationals. *)

From Stdlib Require Import String Ascii List ZArith QArith Bool Lia Arith.
From Stdlib Require Import DecimalString DecimalNat.
Import ListNotations.

Set Warnings "-register-all".

Local Open Scope string_scope.
Local Open Scope list_scope.

(** ** Python values, exceptions and results *)

Module Py.

Definition float := Q.

(** The values that reach this module as keyword arguments. *)
Inductive pyval :=
| PInt (z : Z)
| PStr (s : string)
| PNone.

(** Where a [TypeError] comes from. *)
Inductive type_error :=
| UnexpectedKwargs (kwargs : list (string * pyval))
| NotAnInteger
| Unsized
| NotSubscriptable
| NotArrays
| BadOperand.

Inductive exn :=
| TypeError (why : type_error)
| NotImplementedError (msg : string)
| AssertionError (msg : string)
| KeyError (key : string)
| IndexError
| ValueError
| IOError (filename : string)
| AttributeError (attr : string)
| UnpicklingError
| NameError (name : string)
| Diverged.

Inductive result (A : Type) :=
| OK (a : A)
| Raise (e : exn).
Arguments OK {A} a.
Arguments Raise {A} e.

Definition rbind {A B} (r : result A) (k : A -> result B) : result B :=
  match r with
  | OK a => k a
  | Raise e => Raise e
  end.

(** [s.endswith(suffix)] *)
Definition endswith (s suffix : string) : bool :=
  (String.length suffix <=? String.length s)%nat
  && String.eqb
       (substring (String.length s - String.length suffix)
                  (String.length suffix) s)
       suffix.

(** [needle in hay] on strings *)
Definition contains (needle hay : string) : bool :=
  match index 0 needle hay with
  | Some _ => true
  | None => false
  end.

(** ['%d' % i] for a natural number *)
Definition str_of_nat (i : nat) : string :=
  NilEmpty.string_of_uint (Nat.to_uint i).

(** [k in l] on a list of strings *)
Definition mem (k : string) (l : list string) : bool :=
  existsb (String.eqb k) l.

(** [l[-1]] *)
Definition last_item {A} (l : list A) : result A :=
  match rev l with
  | [] => Raise IndexError
  | x :: _ => OK x
  end.

(** [l[i]] for a non-negative literal index *)
Definition item {A} (l : list A) (i : nat) : result A :=
  match nth_error l i with
  | Some x => OK x
  | None => Raise IndexError
  end.

End Py.
Import Py.

Declare Scope result_scope.
Delimit Scope result_scope with result.
Notation "x <- c ;; k" := (rbind c (fun x => k))
  (at level 61, c at next level, right associativity) : result_scope.

(** ** collections.OrderedDict *)

Module OD.

Section Dict.
Context {V : Type}.

Definition t := list (string * V).

Definition empty : t := [].

Definition keys (d : t) : list string := map fst d.
Definition values (d : t) : list V := map snd d.

(** [d[k]] *)
Fixpoint get (k : string) (d : t) : result V :=
  match d with
  | [] => Raise (KeyError k)
  | (k', v) :: d' => if String.eqb k k' then OK v else get k d'
  end.

(** [d[k] = v]: a present key keeps its place, a new key goes last. *)
Fixpoint set (k : string) (v : V) (d : t) : t :=
  match d with
  | [] => [(k, v)]
  | (k', v') :: d' =>
      if String.eqb k k' then (k, v) :: d' else (k', v') :: set k v d'
  end.

(** [d.popitem(last=True)], without the returned pair. *)
Definition popitem (d : t) : result t :=
  match d with
  | [] => Raise (KeyError "dictionary is empty")
  | _ => OK (removelast d)
  end.

(** [d.pop(k, default)]: the value, and the dict without the key. *)
Fixpoint pop (k : string) (default : V) (d : t) : V * t :=
  match d with
  | [] => (default, [])
  | (k', v) :: d' =>
      if String.eqb k k' then (v, d')
      else let '(r, d'') := pop k default d' in (r, (k', v) :: d'')
  end.

End Dict.
Arguments t V : clear implicits.

End OD.

(** ** numpy arrays *)

Module Np.

(** An array is its shape and its entries by index.  Entries outside the
    shape are never read. *)
Record ndarray := mk_ndarray {
  shape : list nat;
  at_ : list nat -> float
}.

(** [np.zeros(shape)] *)
Definition zeros (sh : list nat) : ndarray :=
  {| shape := sh; at_ := fun _ => 0%Q |}.

(** [len(a)] *)
Definition len (a : ndarray) : result nat :=
  match shape a with
  | [] => Raise (TypeError Unsized)
  | n :: _ => OK n
  end.

End Np.
Import Np.

(** ** Lasagne layers *)

Module Lasagne.

Inductive nonlinearity :=
| LeakyRectify (leakiness : float)
| softmax
| rectify
| linear.

Inductive initializer :=
| Orthogonal (gain : float)
| Constant (val : float)
| GlorotUniform.

Inductive pool_function := T_mean | T_max.

(** A dimension of a shape is [None] or an integer. *)
Definition dim := option Z.

(** The layer classes [models.py] instantiates, each with the arguments it
    is given there.  [ConcatLayer] takes the two layers of its list. *)
Inductive layer :=
| InputLayer (shape : list dim) (name : option string)
| ConvLayer (incoming : layer) (num_filters filter_size : Z)
    (stride : Z * Z) (pad : string) (untie_biases : bool)
    (nl : nonlinearity) (W b : initializer)
| DropoutLayer (incoming : layer) (p : float)
| MaxPool2DLayer (incoming : layer) (pool_size : Z) (stride : Z * Z)
    (name : option string)
| DenseLayer (incoming : layer) (num_units : Z) (nl : nonlinearity)
    (W b : initializer) (name : option string)
| FeaturePoolLayer (incoming : layer) (pool_size : Z)
| ConcatLayer (incoming1 incoming2 : layer) (axis : nat)
| ReshapeLayer (incoming : layer) (shape : list Z)
| NonlinearityLayer (incoming : layer) (nl : nonlinearity)
| GlobalPoolLayer (incoming : layer) (pool : pool_function).

(** [layer.input_layer] or [layer.input_layers], as a list. *)
Definition input_layers (l : layer) : list layer :=
  match l with
  | InputLayer _ _ => []
  | ConvLayer i _ _ _ _ _ _ _ _ => [i]
  | DropoutLayer i _ => [i]
  | MaxPool2DLayer i _ _ _ => [i]
  | DenseLayer i _ _ _ _ _ => [i]
  | FeaturePoolLayer i _ => [i]
  | ConcatLayer i1 i2 _ => [i1; i2]
  | ReshapeLayer i _ => [i]
  | NonlinearityLayer i _ => [i]
  | GlobalPoolLayer i _ => [i]
  end.

(** [lasagne.layers.conv.conv_output_length] *)
Definition conv_output_length (input_length : dim) (filter_size stride : Z)
  (pad : string) : dim :=
  match input_length with
  | None => None
  | Some n =>
      let output_length :=
        if String.eqb pad "valid" then n - filter_size + 1
        else if String.eqb pad "full" then n + filter_size - 1
        else n in
      Some ((output_length + stride - 1) / stride)
  end%Z.

(** [lasagne.layers.pool.pool_output_length] with [pad=0] and
    [ignore_border=True], the defaults of [MaxPool2DLayer]. *)
Definition pool_output_length (input_length : dim) (pool_size stride : Z)
  : dim :=
  match input_length with
  | None => None
  | Some n => Some ((n - pool_size + 1 + stride - 1) / stride)
  end%Z.

Definition dim_prod (sh : list dim) : dim :=
  fold_right (fun d acc =>
                match d, acc with
                | Some x, Some y => Some (x * y)%Z
                | _, _ => None
                end) (Some 1%Z) sh.

Definition dim_add (a b : dim) : dim :=
  match a, b with
  | Some x, Some y => Some (x + y)%Z
  | _, _ => None
  end.

Definition dim_or (a b : dim) : dim :=
  match a with
  | Some _ => a
  | None => b
  end.

(** Replace entry [i] of a list. *)
Fixpoint set_nth {A} (i : nat) (x : A) (l : list A) : list A :=
  match l, i with
  | [], _ => []
  | _ :: l', O => x :: l'
  | y :: l', S i' => y :: set_nth i' x l'
  end.

Fixpoint zip_with {A B C} (f : A -> B -> C) (l1 : list A) (l2 : list B)
  : list C :=
  match l1, l2 with
  | x :: l1', y :: l2' => f x y :: zip_with f l1' l2'
  | _, _ => []
  end.

(** [ReshapeLayer.get_output_shape_for] for a shape of integers, one of
    which may be [-1]. *)
Definition reshape_output_shape (input_shape : list dim) (spec : list Z)
  : list dim :=
  let known := filter (fun z => negb (z =? -1)%Z) spec in
  let rest := fold_right Z.mul 1%Z known in
  map (fun z =>
         if (z =? -1)%Z then
           match dim_prod input_shape with
           | Some input_size => Some (input_size / rest)%Z
           | None => None
           end
         else Some z) spec.

(** [layer.output_shape] *)
Fixpoint output_shape (l : layer) : list dim :=
  match l with
  | InputLayer sh _ => sh
  | ConvLayer i num_filters filter_size (s0, s1) pad _ _ _ _ =>
      let sh := output_shape i in
      [nth 0 sh None; Some num_filters;
       conv_output_length (nth 2 sh None) filter_size s0 pad;
       conv_output_length (nth 3 sh None) filter_size s1 pad]
  | DropoutLayer i _ => output_shape i
  | MaxPool2DLayer i pool_size (s0, s1) _ =>
      let sh := output_shape i in
      [nth 0 sh None; nth 1 sh None;
       pool_output_length (nth 2 sh None) pool_size s0;
       pool_output_length (nth 3 sh None) pool_size s1]
  | DenseLayer i num_units _ _ _ _ => [nth 0 (output_shape i) None; Some num_units]
  | FeaturePoolLayer i pool_size =>
      let sh := output_shape i in
      set_nth 1 (match nth 1 sh None with
                 | Some n => Some (n / pool_size)%Z
                 | None => None
                 end) sh
  | ConcatLayer i1 i2 axis =>
      let sh1 := output_shape i1 in
      let sh2 := output_shape i2 in
      set_nth axis (dim_add (nth axis sh1 None) (nth axis sh2 None))
        (zip_with dim_or sh1 sh2)
  | ReshapeLayer i spec => reshape_output_shape (output_shape i) spec
  | NonlinearityLayer i _ => output_shape i
  | GlobalPoolLayer i _ => firstn 2 (output_shape i)
  end.

(** Names of the parameters a layer owns, as [layer.get_params()] lists
    them. *)
Definition own_params (l : layer) : list string :=
  match l with
  | ConvLayer _ _ _ _ _ _ _ _ _ => ["W"; "b"]
  | DenseLayer _ _ _ _ _ _ => ["W"; "b"]
  | _ => []
  end.

(** *** What the constructors check

    A constructor raises when its arguments do not fit.  The checks below
    are those of the classes [models.py] instantiates, in the order in
    which a constructor makes them; they all raise [ValueError], but for
    the ['same'] padding of a convolution with an even filter size. *)

Definition guard (ok : bool) (e : exn) : result unit :=
  if ok then OK tt else Raise e.

(** [any(d is not None and d <= 0 for d in shape)]: the test of
    [InputLayer.__init__] on its shape and of [Layer.__init__] on the
    output shape of the incoming layer. *)
Definition non_positive (sh : list dim) : bool :=
  existsb (fun d => match d with
                    | Some z => (z <=? 0)%Z
                    | None => false
                    end) sh.

(** [lasagne.utils.create_param] refuses a shape with a dimension that is
    not positive ([any(d <= 0 for d in shape)], and [None <= 0] holds in
    Python 2). *)
Definition param_shape_ok (sh : list dim) : bool :=
  forallb (fun d => match d with
                    | Some z => (0 <? z)%Z
                    | None => false
                    end) sh.

(** [ReshapeLayer.__init__]: the integers of the specification are
    positive or [-1], and [-1] occurs at most once. *)
Definition reshape_spec_ok (spec : list Z) : bool :=
  forallb (fun s => negb ((s =? 0) || (s <? -1))%Z) spec
  && (length (filter (Z.eqb (-1)) spec) <=? 1)%nat.

(** The last test of [ReshapeLayer.get_output_shape_for], which the
    constructor calls once: when the size of the input is known, the
    size of the output has to be the same. *)
Definition reshape_size_ok (input_shape : list dim) (spec : list Z)
  : bool :=
  match dim_prod input_shape with
  | None => true
  | Some input_size =>
      let known := filter (fun z => negb (z =? -1)%Z) spec in
      let rest := fold_right Z.mul 1%Z known in
      if existsb (Z.eqb (-1)) spec
      then (rest * (input_size / rest) =? input_size)%Z
      else (rest =? input_size)%Z
  end.

(** [ConcatLayer.get_output_shape_for]: the shapes have the same length
    and agree on every axis but the one of the concatenation, where both
    are known. *)
Fixpoint shapes_match (i axis : nat) (sh1 sh2 : list dim) : bool :=
  match sh1, sh2 with
  | [], [] => true
  | d1 :: sh1', d2 :: sh2' =>
      ((i =? axis)%nat
       || match d1, d2 with
          | Some x, Some y => (x =? y)%Z
          | _, _ => true
          end)
      && shapes_match (S i) axis sh1' sh2'
  | _, _ => false
  end.

(** The checks of the constructor of [l].  A [ConcatLayer] compares the
    shapes of its inputs when its output shape is first asked for, which
    the statement after its construction does. *)
Definition check (l : layer) : result unit :=
  match l with
  | InputLayer sh _ => guard (negb (non_positive sh)) ValueError
  | ConvLayer i num_filters filter_size _ pad untie_biases _ _ _ =>
      let sh := output_shape i in
      (_ <- guard (negb (non_positive sh)) ValueError;;
       _ <- guard (length sh =? 4)%nat ValueError;;
       _ <- guard (negb (String.eqb pad "same" && Z.even filter_size))
              (NotImplementedError
                 "`same` padding requires odd filter size.");;
       _ <- guard (param_shape_ok
                     [Some num_filters; nth 1 sh None; Some filter_size;
                      Some filter_size]) ValueError;;
       guard (param_shape_ok
                (if untie_biases
                 then Some num_filters :: skipn 2 (output_shape l)
                 else [Some num_filters])) ValueError)%result
  | MaxPool2DLayer i _ _ _ =>
      let sh := output_shape i in
      (_ <- guard (negb (non_positive sh)) ValueError;;
       guard (length sh =? 4)%nat ValueError)%result
  | DenseLayer i num_units _ _ _ _ =>
      let sh := output_shape i in
      (_ <- guard (negb (non_positive sh)) ValueError;;
       match dim_prod (tl sh) with
       | None => Raise ValueError
       | Some num_inputs =>
           _ <- guard (param_shape_ok [Some num_inputs; Some num_units])
                  ValueError;;
           guard (param_shape_ok [Some num_units]) ValueError
       end)%result
  | FeaturePoolLayer i pool_size =>
      let sh := output_shape i in
      (_ <- guard (negb (non_positive sh)) ValueError;;
       match nth 1 sh None with
       | Some n => guard (n mod pool_size =? 0)%Z ValueError
       | None => Raise (TypeError BadOperand)
       end)%result
  | ConcatLayer i1 i2 axis =>
      guard (shapes_match 0 axis (output_shape i1) (output_shape i2))
        ValueError
  | ReshapeLayer i spec =>
      let sh := output_shape i in
      (_ <- guard (negb (non_positive sh)) ValueError;;
       _ <- guard (reshape_spec_ok spec) ValueError;;
       guard (reshape_size_ok sh spec) ValueError)%result
  | DropoutLayer i _ | NonlinearityLayer i _ | GlobalPoolLayer i _ =>
      guard (negb (non_positive (output_shape i))) ValueError
  end.

(** The checks of the constructors of a list of layers, in the order of
    their construction. *)
Fixpoint check_all (ls : list layer) : result unit :=
  match ls with
  | [] => OK tt
  | l :: ls' => (_ <- check l;; check_all ls')%result
  end.

End Lasagne.
Import Lasagne.

(** ** Deciding equality of layers

    Python compares layer objects by identity.  In this embedding a layer
    is its whole sub-graph, and the decision below stands for [is]. *)

Module LayerEq.

Definition float_eq_dec (x y : float) : {x = y} + {x <> y}.
Proof. unfold float. decide equality; [apply Pos.eq_dec | apply Z.eq_dec]. Defined.

Definition dim_eq_dec (x y : dim) : {x = y} + {x <> y}.
Proof. unfold dim. decide equality. apply Z.eq_dec. Defined.

Definition name_eq_dec (x y : option string) : {x = y} + {x <> y}.
Proof. decide equality. apply string_dec. Defined.

Definition stride_eq_dec (x y : Z * Z) : {x = y} + {x <> y}.
Proof. decide equality; apply Z.eq_dec. Defined.

Definition nonlinearity_eq_dec (x y : nonlinearity) : {x = y} + {x <> y}.
Proof. decide equality. apply float_eq_dec. Defined.

Definition initializer_eq_dec (x y : initializer) : {x = y} + {x <> y}.
Proof. decide equality; apply float_eq_dec. Defined.

Definition pool_function_eq_dec (x y : pool_function) : {x = y} + {x <> y}.
Proof. decide equality. Defined.

Definition layer_eq_dec (x y : layer) : {x = y} + {x <> y}.
Proof.
  decide equality;
    first [ apply float_eq_dec | apply name_eq_dec | apply stride_eq_dec
          | apply nonlinearity_eq_dec | apply initializer_eq_dec
          | apply pool_function_eq_dec | apply Z.eq_dec | apply string_dec
          | apply Bool.bool_dec | apply Nat.eq_dec
          | apply (list_eq_dec dim_eq_dec) | apply (list_eq_dec Z.eq_dec) ].
Defined.

(** A parameter is identified by the layer that owns it and its name. *)
Definition param := (layer * string)%type.

Definition param_eq_dec (x y : param) : {x = y} + {x <> y}.
Proof. decide equality; [apply string_dec | apply layer_eq_dec]. Defined.

End LayerEq.
Import LayerEq.

(** ** Collecting layers and parameters *)

Module Collect.

Section Unique.
Context {A : Type} (eq_dec : forall x y : A, {x = y} + {x <> y}).

(** [lasagne.utils.unique]: drop every element already seen, keeping the
    order of first occurrences. *)
Fixpoint unique_from (seen l : list A) : list A :=
  match l with
  | [] => []
  | x :: l' =>
      if in_dec eq_dec x seen then unique_from seen l'
      else x :: unique_from (x :: seen) l'
  end.

Definition unique (l : list A) : list A := unique_from [] l.

End Unique.

(** Depth-first order, every layer after the layers it reads from. *)
Fixpoint postorder (l : layer) : list layer :=
  match l with
  | InputLayer _ _ => [l]
  | ConvLayer i _ _ _ _ _ _ _ _ => postorder i ++ [l]
  | DropoutLayer i _ => postorder i ++ [l]
  | MaxPool2DLayer i _ _ _ => postorder i ++ [l]
  | DenseLayer i _ _ _ _ _ => postorder i ++ [l]
  | FeaturePoolLayer i _ => postorder i ++ [l]
  | ConcatLayer i1 i2 _ => postorder i1 ++ postorder i2 ++ [l]
  | ReshapeLayer i _ => postorder i ++ [l]
  | NonlinearityLayer i _ => postorder i ++ [l]
  | GlobalPoolLayer i _ => postorder i ++ [l]
  end.

(** [lasagne.layers.get_all_layers(layer)]: the layers feeding into
    [layer] in topological order, each once. *)
Definition get_all_layers (l : layer) : list layer :=
  unique layer_eq_dec (postorder l).

(** [lasagne.layers.get_all_params(layer)] *)
Definition get_all_params (l : layer) : list param :=
  unique param_eq_dec
    (flat_map (fun l' => map (pair l') (own_params l')) (get_all_layers l)).

End Collect.
Import Collect.

(** ** Models, pickles, files and the world *)

(** Symbolic Theano variables. *)
Inductive tvar :=
| tensor4 (name : string)
| ivector (name : string)
| input_var (l : layer).

(** What [theano.function(inputs, get_output(layer, deterministic=d))]
    was asked to compile. *)
Record compiled := mk_compiled {
  c_inputs : list tvar;
  c_output : layer;
  c_deterministic : bool
}.

Record Model := mk_Model {
  net : OD.t layer;
  inputs : OD.t tvar;
  targets : OD.t tvar;
  _predict : option compiled;
  _predict_stoch : option compiled
}.

(** The values of the shared variables, by parameter. *)
Definition pstore := param -> ndarray.

Definition pstore_set (sigma : pstore) (p : param) (v : ndarray) : pstore :=
  fun q => if param_eq_dec q p then v else sigma q.

(** What a pickle file can hold here: a list of arrays (the published
    JFnet weights), a dict, or a model together with its parameters. *)
Inductive pyobj :=
| PyArrays (arrays : list ndarray)
| PyDict (d : list (string * pyobj))
| PyModel (m : Model) (sigma : pstore)
| PyInt (z : Z).

Inductive file :=
| NpzFile (arrays : list (string * ndarray))
| PklFile (o : pyobj).

Record world := mk_world {
  files : string -> option file;
  params : pstore;
  stdout : list string
}.

Definition write_file (filename : string) (f : file) (w : world) : world :=
  {| files := fun n => if String.eqb n filename then Some f else files w n;
     params := params w;
     stdout := stdout w |}.

Definition set_params (sigma : pstore) (w : world) : world :=
  {| files := files w; params := sigma; stdout := stdout w |}.

(** [print(line)] *)
Definition print (line : string) (w : world) : world :=
  {| files := files w; params := params w; stdout := stdout w ++ [line] |}.

(** Statements that read or change the world, or raise. *)
Definition M (A : Type) := world -> result (A * world).

Definition ret {A} (a : A) : M A := fun w => OK (a, w).

Definition bind {A B} (m : M A) (k : A -> M B) : M B :=
  fun w =>
    match m w with
    | OK (a, w') => k a w'
    | Raise e => Raise e
    end.

Definition raise {A} (e : exn) : M A := fun _ => Raise e.

Definition lift {A} (r : result A) : M A :=
  fun w =>
    match r with
    | OK a => OK (a, w)
    | Raise e => Raise e
    end.

Declare Scope io_scope.
Delimit Scope io_scope with io.
Notation "x <- c ;; k" := (bind c (fun x => k))
  (at level 61, c at next level, right associativity) : io_scope.
Notation "c ;;; k" := (bind c (fun _ => k))
  (at level 61, right associativity) : io_scope.

(** ** JFnet *)

(** [JFnet.ORIGINAL_WEIGHTS] *)
Definition ORIGINAL_WEIGHTS : string :=
  "models/jeffrey_df/2015_07_17_123003_PARAMSDUMP.pkl".

(** [x * 2] for an entry of an output shape: [None * 2] is a [TypeError]. *)
Definition times2 (d : dim) : result Z :=
  match d with
  | Some z => OK (z * 2)%Z
  | None => Raise (TypeError BadOperand)
  end.

(** [JFnet.build_model], lines 126 to 238: the layers, one assignment
    [net[key] = Layer(net[previous], ...)] after the other.  Every
    [net[key]] on a right-hand side is a lookup and could raise
    [KeyError].  This is the graph the assignments declare; what the
    constructors check on their arguments is [check], which
    [build_model] runs on the layers. *)
Definition build_model_layers (width height n_classes : Z)
  (batch_size : option Z) (p_conv : float) : result (OD.t layer) :=
  (let net := OD.empty in
   let net := OD.set "0"
     (InputLayer [batch_size; Some 3; Some width; Some height] (Some "images")) net in
   l0 <- OD.get "0" net;;
   let net := OD.set "1"
     (ConvLayer l0 32 7 (2, 2) "same" true
      (LeakyRectify (1 # 2)%Q) (Orthogonal 1%Q) (Constant (1 # 10)%Q)) net in
   l1 <- OD.get "1" net;;
   let net := OD.set "1d"
     (DropoutLayer l1 p_conv) net in
   l1d <- OD.get "1d" net;;
   let net := OD.set "2"
     (MaxPool2DLayer l1d 3 (2, 2) None) net in
   l2 <- OD.get "2" net;;
   let net := OD.set "3"
     (ConvLayer l2 32 3 (1, 1) "same" true
      (LeakyRectify (1 # 2)%Q) (Orthogonal 1%Q) (Constant (1 # 10)%Q)) net in
   l3 <- OD.get "3" net;;
   let net := OD.set "3d"
     (DropoutLayer l3 p_conv) net in
   l3d <- OD.get "3d" net;;
   let net := OD.set "4"
     (ConvLayer l3d 32 3 (1, 1) "same" true
      (LeakyRectify (1 # 2)%Q) (Orthogonal 1%Q) (Constant (1 # 10)%Q)) net in
   l4 <- OD.get "4" net;;
   let net := OD.set "4d"
     (DropoutLayer l4 p_conv) net in
   l4d <- OD.get "4d" net;;
   let net := OD.set "5"
     (MaxPool2DLayer l4d 3 (2, 2) None) net in
   l5 <- OD.get "5" net;;
   let net := OD.set "6"
     (ConvLayer l5 64 3 (1, 1) "same" true
      (LeakyRectify (1 # 2)%Q) (Orthogonal 1%Q) (Constant (1 # 10)%Q)) net in
   l6 <- OD.get "6" net;;
   let net := OD.set "6d"
     (DropoutLayer l6 p_conv) net in
   l6d <- OD.get "6d" net;;
   let net := OD.set "7"
     (ConvLayer l6d 64 3 (1, 1) "same" true
      (LeakyRectify (1 # 2)%Q) (Orthogonal 1%Q) (Constant (1 # 10)%Q)) net in
   l7 <- OD.get "7" net;;
   let net := OD.set "7d"
     (DropoutLayer l7 p_conv) net in
   l7d <- OD.get "7d" net;;
   let net := OD.set "8"
     (MaxPool2DLayer l7d 3 (2, 2) None) net in
   l8 <- OD.get "8" net;;
   let net := OD.set "9"
     (ConvLayer l8 128 3 (1, 1) "same" true
      (LeakyRectify (1 # 2)%Q) (Orthogonal 1%Q) (Constant (1 # 10)%Q)) net in
   l9 <- OD.get "9" net;;
   let net := OD.set "9d"
     (DropoutLayer l9 p_conv) net in
   l9d <- OD.get "9d" net;;
   let net := OD.set "10"
     (ConvLayer l9d 128 3 (1, 1) "same" true
      (LeakyRectify (1 # 2)%Q) (Orthogonal 1%Q) (Constant (1 # 10)%Q)) net in
   l10 <- OD.get "10" net;;
   let net := OD.set "10d"
     (DropoutLayer l10 p_conv) net in
   l10d <- OD.get "10d" net;;
   let net := OD.set "11"
     (ConvLayer l10d 128 3 (1, 1) "same" true
      (LeakyRectify (1 # 2)%Q) (Orthogonal 1%Q) (Constant (1 # 10)%Q)) net in
   l11 <- OD.get "11" net;;
   let net := OD.set "11d"
     (DropoutLayer l11 p_conv) net in
   l11d <- OD.get "11d" net;;
   let net := OD.set "12"
     (ConvLayer l11d 128 3 (1, 1) "same" true
      (LeakyRectify (1 # 2)%Q) (Orthogonal 1%Q) (Constant (1 # 10)%Q)) net in
   l12 <- OD.get "12" net;;
   let net := OD.set "12d"
     (DropoutLayer l12 p_conv) net in
   l12d <- OD.get "12d" net;;
   let net := OD.set "13"
     (MaxPool2DLayer l12d 3 (2, 2) None) net in
   l13 <- OD.get "13" net;;
   let net := OD.set "14"
     (ConvLayer l13 256 3 (1, 1) "same" true
      (LeakyRectify (1 # 2)%Q) (Orthogonal 1%Q) (Constant (1 # 10)%Q)) net in
   l14 <- OD.get "14" net;;
   let net := OD.set "14d"
     (DropoutLayer l14 p_conv) net in
   l14d <- OD.get "14d" net;;
   let net := OD.set "15"
     (ConvLayer l14d 256 3 (1, 1) "same" true
      (LeakyRectify (1 # 2)%Q) (Orthogonal 1%Q) (Constant (1 # 10)%Q)) net in
   l15 <- OD.get "15" net;;
   let net := OD.set "15d"
     (DropoutLayer l15 p_conv) net in
   l15 <- OD.get "15" net;;
   let net := OD.set "16"
     (ConvLayer l15 256 3 (1, 1) "same" true
      (LeakyRectify (1 # 2)%Q) (Orthogonal 1%Q) (Constant (1 # 10)%Q)) net in
   l16 <- OD.get "16" net;;
   let net := OD.set "16d"
     (DropoutLayer l16 p_conv) net in
   l16d <- OD.get "16d" net;;
   let net := OD.set "17"
     (ConvLayer l16d 256 3 (1, 1) "same" true
      (LeakyRectify (1 # 2)%Q) (Orthogonal 1%Q) (Constant (1 # 10)%Q)) net in
   l17 <- OD.get "17" net;;
   let net := OD.set "17d"
     (DropoutLayer l17 p_conv) net in
   l17d <- OD.get "17d" net;;
   let net := OD.set "18"
     (MaxPool2DLayer l17d 3 (2, 2) (Some "coarse_last_pool")) net in
   l18 <- OD.get "18" net;;
   let net := OD.set "19"
     (DropoutLayer l18 (1 # 2)%Q) net in
   l19 <- OD.get "19" net;;
   let net := OD.set "20"
     (DenseLayer l19 1024 linear (Orthogonal 1%Q) (Constant (1 # 10)%Q)
      (Some "first_fc_0")) net in
   l20 <- OD.get "20" net;;
   let net := OD.set "21"
     (FeaturePoolLayer l20 2) net in
   let net := OD.set "22"
     (InputLayer [batch_size; Some 2] (Some "imgdim")) net in
   l21 <- OD.get "21" net;;
   l22 <- OD.get "22" net;;
   let net := OD.set "23"
     (ConcatLayer l21 l22 1) net in
   l23 <- OD.get "23" net;;
   l23' <- OD.get "23" net;;
   n23 <- item (output_shape l23') 1;;
   n24 <- times2 n23;;
   let net := OD.set "24" (ReshapeLayer l23 [-1; n24]) net in
   l24 <- OD.get "24" net;;
   let net := OD.set "25"
     (DropoutLayer l24 (1 # 2)%Q) net in
   l25 <- OD.get "25" net;;
   let net := OD.set "26"
     (DenseLayer l25 1024 linear (Orthogonal 1%Q) (Constant (1 # 10)%Q)
      (Some "combine_repr_fc")) net in
   l26 <- OD.get "26" net;;
   let net := OD.set "27"
     (FeaturePoolLayer l26 2) net in
   l27 <- OD.get "27" net;;
   let net := OD.set "28"
     (DropoutLayer l27 (1 # 2)%Q) net in
   l28 <- OD.get "28" net;;
   let net := OD.set "29"
     (DenseLayer l28 (n_classes * 2) linear (Orthogonal 1%Q)
      (Constant (1 # 10)%Q) None) net in
   l29 <- OD.get "29" net;;
   let net := OD.set "30"
     (ReshapeLayer l29 [-1; n_classes]) net in
   l30 <- OD.get "30" net;;
   let net := OD.set "31"
     (NonlinearityLayer l30 softmax) net in
   OK net)%result%Z.

(** ** Files *)

(** [open(filename)] followed by [pickle.load]. *)
Definition pickle_load (filename : string) : M pyobj :=
  fun w =>
    match files w filename with
    | Some (PklFile o) => OK (o, w)
    | Some (NpzFile _) => Raise UnpicklingError
    | None => Raise (IOError filename)
    end.

(** [open(filename, 'wb')] followed by [pickle.dump(o, h)]. *)
Definition pickle_dump (o : pyobj) (filename : string) : M unit :=
  fun w => OK (tt, write_file filename (PklFile o) w).

(** What [np.load] returns: for an [.npz] archive the [NpzFile] object,
    here its arrays by name in the order of [f.files]; for a file that is
    no archive and holds a pickle, the unpickled object. *)
Inductive loaded :=
| Archive (arrays : list (string * ndarray))
| Unpickled (o : pyobj).

(** [np.load(filename)].  It goes by the content of the file, not by its
    name, and a pickle is unpickled: this is numpy before 1.16.3, where
    [allow_pickle] is [True] when it is not given (from 1.16.3 on, the
    call raises [ValueError] for a pickle). *)
Definition np_load (filename : string) : M loaded :=
  fun w =>
    match files w filename with
    | Some (NpzFile arrays) => OK (Archive arrays, w)
    | Some (PklFile o) => OK (Unpickled o, w)
    | None => Raise (IOError filename)
    end.

(** [with o as f]: of the objects [np.load] returns only the archive is a
    context manager; for a list, a dict, a number or a model Python 2
    raises [AttributeError: __exit__]. *)
Definition enter (o : loaded) : result (list (string * ndarray)) :=
  match o with
  | Archive arrays => OK arrays
  | Unpickled _ => Raise (AttributeError "__exit__")
  end.

(** The names [np.savez] gives positional arrays: ['arr_%d' % i]. *)
Definition arr_name (i : nat) : string := ("arr_" ++ str_of_nat i)%string.

Fixpoint name_arrays (i : nat) (arrays : list ndarray)
  : list (string * ndarray) :=
  match arrays with
  | [] => []
  | a :: arrays' => (arr_name i, a) :: name_arrays (S i) arrays'
  end.

(** [np.savez_compressed(filename, *arrays)]; numpy appends [.npz] to a
    name that does not end with it. *)
Definition np_savez_compressed (filename : string) (arrays : list ndarray)
  : M unit :=
  fun w =>
    let file :=
      if endswith filename ".npz" then filename
      else (filename ++ ".npz")%string in
    OK (tt, write_file file (NpzFile (name_arrays 0 arrays)) w).

(** [[f(x) for x in l]], stopping at the first exception. *)
Fixpoint comprehension {A B} (f : A -> result B) (l : list A)
  : result (list B) :=
  match l with
  | [] => OK []
  | x :: l' =>
      (y <- f x;;
       ys <- comprehension f l';;
       OK (y :: ys))%result
  end.

(** [o[key]] for an unpickled object. *)
Definition getitem (o : pyobj) (key : string) : result pyobj :=
  match o with
  | PyDict d => OD.get key d
  | _ => Raise (TypeError NotSubscriptable)
  end.

(** The value handed to [set_all_param_values] has to be a list of
    arrays; anything else fails inside Lasagne, which is recorded here as
    a [TypeError]. *)
Definition as_arrays (o : pyobj) : result (list ndarray) :=
  match o with
  | PyArrays arrays => OK arrays
  | _ => Raise (TypeError NotArrays)
  end.

(** ** Parameter values *)

(** [lasagne.layers.get_all_param_values(layer)] *)
Definition get_all_param_values (l : layer) : M (list ndarray) :=
  fun w => OK (map (params w) (get_all_params l), w).

(** The loop of [set_all_param_values]: a value whose shape differs from
    the parameter's raises [ValueError]. *)
Fixpoint set_values (ps : list param) (vs : list ndarray) : M unit :=
  match ps, vs with
  | p :: ps', v :: vs' =>
      fun w =>
        if list_eq_dec Nat.eq_dec (shape (params w p)) (shape v)
        then set_values ps' vs' (set_params (pstore_set (params w) p v) w)
        else Raise ValueError
  | _, _ => ret tt
  end.

(** [lasagne.layers.set_all_param_values(layer, values)] *)
Definition set_all_param_values (l : layer) (values : list ndarray)
  : M unit :=
  let ps := get_all_params l in
  if Nat.eqb (length ps) (length values) then set_values ps values
  else raise ValueError.

(** ** load_weights, save_weights, load_model, save_model *)

Definition load_weights (l : layer) (filename : string) : M unit :=
  (if endswith filename ".npz" then
     f <- np_load filename;;
     f <- lift (enter f);;
     param_values <-
       lift (comprehension (fun i => OD.get (arr_name i) f)
                           (seq 0 (length (OD.keys f))));;
     set_all_param_values l param_values
   else if endswith filename ".pkl" then
     model <- pickle_load filename;;
     values <- lift (getitem model "param values");;
     values <- lift (as_arrays values);;
     set_all_param_values l values
   else
     raise (NotImplementedError
              ("Format of " ++ filename ++ " not known")%string))%io.

Definition save_weights (l : layer) (filename : string) : M unit :=
  (if endswith filename ".npz" then
     values <- get_all_param_values l;;
     np_savez_compressed filename values
   else
     raise (NotImplementedError
              ("Format indicated by ending of " ++ filename
               ++ " notimplemented")%string))%io.

Definition load_model (filename : string) : M pyobj :=
  pickle_load filename.

Definition save_model (model : Model) (filename : string) : M unit :=
  fun w => pickle_dump (PyModel model (params w)) filename w.

(** ** Model, JFnet and BCNN *)

(** [Model.__init__] *)
Definition Model_init (network : OD.t layer) : Model :=
  {| net := network;
     inputs := [("X", tensor4 "X")];
     targets := [("y", ivector "y")];
     _predict := None;
     _predict_stoch := None |}.

Definition set_input (key : string) (v : tvar) (self : Model) : Model :=
  {| net := net self;
     inputs := OD.set key v (inputs self);
     targets := targets self;
     _predict := _predict self;
     _predict_stoch := _predict_stoch self |}.

Definition set_net (network : OD.t layer) (self : Model) : Model :=
  {| net := network;
     inputs := inputs self;
     targets := targets self;
     _predict := _predict self;
     _predict_stoch := _predict_stoch self |}.

(** [JFnet.build_model]: the layers with the checks of their
    constructors, then the weights when a file name is given (lines 240
    to 245).  The checks are made in the order of the constructions;
    nothing but constructions happens before the weights are loaded, so
    the first check that fails ends the call with its exception, as the
    constructor does in Python. *)
Definition build_model (width height : Z) (filename : option string)
  (n_classes : Z) (batch_size : option Z) (p_conv : float)
  : M (OD.t layer) :=
  (net <- lift (build_model_layers width height n_classes batch_size p_conv);;
   lift (check_all (OD.values net));;;
   match filename with
   | Some filename =>
       weights <- pickle_load filename;;
       l31 <- lift (OD.get "31" net);;
       weights <- lift (as_arrays weights);;
       set_all_param_values l31 weights;;;
       ret net
   | None => ret net
   end)%io.

(** [JFnet.__init__] *)
Definition JFnet_init (width height : Z) : M Model :=
  (network <- build_model width height (Some ORIGINAL_WEIGHTS) 5 None 0%Q;;
   let self := Model_init network in
   l0 <- lift (OD.get "0" (net self));;
   let self := set_input "X" (input_var l0) self in
   l22 <- lift (OD.get "22" (net self));;
   let self := set_input "img_dim" (input_var l22) self in
   ret self)%io.

(** The loop [while not network.keys()[-1] == last_layer:
    network.popitem(last=True)].  Every round removes an entry, so
    [length network] rounds and one more test of the condition are
    enough ([remove_after_terminates]). *)
Fixpoint pop_until (fuel : nat) (network : OD.t layer) (last_layer : string)
  : result (OD.t layer) :=
  match fuel with
  | O => Raise Diverged
  | S fuel' =>
      (k <- last_item (OD.keys network);;
       if String.eqb k last_layer then OK network
       else
         network' <- OD.popitem network;;
         pop_until fuel' network' last_layer)%result
  end.

Definition remove_after (network : OD.t layer) (last_layer : string)
  : result (OD.t layer) :=
  pop_until (S (length network)) network last_layer.

(** [BCNN.__init__] *)
Definition BCNN_init (p_conv : float) (last_layer : string)
  (weights : option string) (n_classes : Z) : M Model :=
  (network <- build_model 512 512 (Some ORIGINAL_WEIGHTS) 5 None p_conv;;
   network <- lift (remove_after network last_layer);;
   l <- lift (OD.get last_layer network);;
   let mean_pooled := GlobalPoolLayer l T_mean in
   l <- lift (OD.get last_layer network);;
   let max_pooled := GlobalPoolLayer l T_max in
   let network :=
     OD.set "global_pool" (ConcatLayer mean_pooled max_pooled 1) network in
   gp <- lift (OD.get "global_pool" network);;
   let network :=
     OD.set "softmax_input"
       (DenseLayer gp n_classes linear GlorotUniform (Constant 0%Q) None)
       network in
   si <- lift (OD.get "softmax_input" network);;
   let network := OD.set "logreg" (NonlinearityLayer si softmax) network in
   match weights with
   | Some weights =>
       lr <- lift (OD.get "logreg" network);;
       load_weights lr weights
   | None => ret tt
   end;;;
   let self := Model_init network in
   l0 <- lift (OD.get "0" (net self));;
   ret (set_input "X" (input_var l0) self))%io.

(** ** weights2pickle *)

Definition weights2pickle (name output_layer : string) : M unit :=
  (if negb (mem name ["bcnn1"; "bcnn2"]) then
     raise (AssertionError "Model name is invalid.")
   else
     wo <- (if contains "bcnn1" name then
              ret ("models/weights_bcnn1_392bea6.npz",
                   ("bcnn1_392bea6_" ++ output_layer ++ ".pkl")%string)
            else if contains "bcnn2" name then
              ret ("models/weights_bcnn2_b69aadd.npz",
                   ("bcnn2_b69aadd_" ++ output_layer ++ ".pkl")%string)
            else raise (NameError "weights"));;
     let '(weights, outfile) := wo in
     model <- BCNN_init (1 # 5)%Q "17" (Some weights) 2;;
     if negb (mem output_layer (OD.keys (net model))) then
       raise (AssertionError ("Invalid output_layer " ++ output_layer)%string)
     else
       network <- lift (remove_after (net model) output_layer);;
       let model := set_net network model in
       k <- lift (last_item (OD.keys (net model)));;
       if negb (String.eqb k output_layer) then raise (AssertionError "")
       else
         save_model model outfile;;;
         fun w => OK (tt, print ("Saved model to " ++ outfile)%string w))%io.

(** ** numpy: allocation and slice assignment *)

Module NpAssign.

(** One entry of the shape tuple given to [np.zeros]. *)
Definition as_dim (v : pyval) : result nat :=
  match v with
  | PInt z => if (z <? 0)%Z then Raise ValueError else OK (Z.to_nat z)
  | _ => Raise (TypeError NotAnInteger)
  end.

(** [np.zeros((d0, d1, d2))] *)
Definition np_zeros (dims : list pyval) : result ndarray :=
  (sh <- comprehension as_dim dims;;
   OK (zeros sh))%result.

(** [range(T)] *)
Definition range (T : pyval) : result (list nat) :=
  match T with
  | PInt z => OK (seq 0 (Z.to_nat z))
  | _ => Raise (TypeError NotAnInteger)
  end.

(** numpy drops leading axes of length 1 from a value that has more axes
    than the target. *)
Fixpoint strip_leading (extra : nat) (sh : list nat) : option (list nat) :=
  match extra with
  | O => Some sh
  | S extra' =>
      match sh with
      | 1%nat :: sh' => strip_leading extra' sh'
      | _ => None
      end
  end.

Fixpoint forallb2 {A B} (f : A -> B -> bool) (l1 : list A) (l2 : list B)
  : bool :=
  match l1, l2 with
  | x :: l1', y :: l2' => f x y && forallb2 f l1' l2'
  | _, _ => true
  end.

(** Broadcasting [v] to the shape [target]: the entries of the result by
    target index, or [ValueError] when the shapes do not fit. *)
Definition broadcast_to (v : ndarray) (target : list nat)
  : result (list nat -> float) :=
  let extra := (length (shape v) - length target)%nat in
  match strip_leading extra (shape v) with
  | None => Raise ValueError
  | Some sh =>
      let lead := (length target - length sh)%nat in
      if forallb2 (fun d t => Nat.eqb d 1 || Nat.eqb d t) sh
                  (skipn lead target)
      then OK (fun idx =>
                 at_ v (repeat 0%nat extra
                        ++ zip_with (fun d i => if Nat.eqb d 1 then 0%nat else i)
                             sh (skipn lead idx)))
      else Raise ValueError
  end.

(** [a[:, :, t] = v]: the last axis is fixed at [t], the value is broadcast
    over the other axes. *)
Definition setitem_last (a : ndarray) (t : nat) (v : ndarray)
  : result ndarray :=
  (f <- broadcast_to v (removelast (shape a));;
   OK {| shape := shape a;
         at_ := fun idx =>
                  if Nat.eqb (length idx) (length (shape a))
                     && Nat.eqb (last idx 0%nat) t
                  then f (removelast idx)
                  else at_ a idx |})%result.

End NpAssign.
Import NpAssign.

(** ** Forward passes *)

Section Theano.

(** The state of Theano's random streams, and the call of a compiled
    function on arrays: it reads the parameters, draws the dropout masks
    from the random state and returns the output array, or raises. *)
Variable rng : Type.
Variable theano_call :
  compiled -> pstore -> list ndarray -> rng -> result (ndarray * rng).

Definition set_predict (c : compiled) (self : Model) : Model :=
  {| net := net self;
     inputs := inputs self;
     targets := targets self;
     _predict := Some c;
     _predict_stoch := _predict_stoch self |}.

Definition set_predict_stoch (c : compiled) (self : Model) : Model :=
  {| net := net self;
     inputs := inputs self;
     targets := targets self;
     _predict := _predict self;
     _predict_stoch := Some c |}.

(** [theano.function(self.inputs.values(),
      lasagne.layers.get_output(self.net.values()[-1], deterministic=d))]:
    what is to be compiled.  That Theano can build and compile the graph
    is taken for granted. *)
Definition theano_function (self : Model) (deterministic : bool)
  : result compiled :=
  (out <- last_item (OD.values (net self));;
   OK {| c_inputs := OD.values (inputs self);
         c_output := out;
         c_deterministic := deterministic |})%result.

(** [Model.predict] *)
Definition predict (self : Model) (xs : list ndarray) (sigma : pstore)
  (r : rng) : result (ndarray * Model * rng) :=
  (self <- match _predict self with
           | None =>
               c <- theano_function self true;;
               OK (set_predict c self)
           | Some _ => OK self
           end;;
   match _predict self with
   | None => Raise (TypeError NotSubscriptable)
   | Some c =>
       out <- theano_call c sigma xs r;;
       OK (fst out, self, snd out)
   end)%result.

(** The loop [for t in range(T)], which assigns the result of one call of
    [self._predict_stoch] on the inputs to [mc_samples[:, :, t]]. *)
Fixpoint mc_loop (c : compiled) (xs : list ndarray) (sigma : pstore)
  (ts : list nat) (mc_samples : ndarray) (r : rng)
  : result (ndarray * rng) :=
  match ts with
  | [] => OK (mc_samples, r)
  | t :: ts' =>
      (out <- theano_call c sigma xs r;;
       mc_samples <- setitem_last mc_samples t (fst out);;
       mc_loop c xs sigma ts' mc_samples (snd out))%result
  end.

(** [Model.mc_samples], called with the positional arguments [xs] and
    the keyword arguments [kwargs]. *)
Definition mc_samples (self : Model) (xs : list ndarray)
  (kwargs : OD.t pyval) (sigma : pstore) (r : rng)
  : result (ndarray * Model * rng) :=
  (let '(T, kwargs) := OD.pop "T" (PInt 100) kwargs in
   match kwargs with
   | _ :: _ => Raise (TypeError (UnexpectedKwargs kwargs))
   | [] =>
       self <- match _predict_stoch self with
               | None =>
                   c <- theano_function self false;;
                   OK (set_predict_stoch c self)
               | Some _ => OK self
               end;;
       x0 <- item xs 0;;
       n_samples <- len x0;;
       out <- last_item (OD.values (net self));;
       n_out <- item (output_shape out) 1;;
       mc <- np_zeros [PInt (Z.of_nat n_samples);
                       match n_out with Some z => PInt z | None => PNone end;
                       T];;
       ts <- range T;;
       match _predict_stoch self with
       | None => Raise (TypeError NotSubscriptable)
       | Some c =>
           res <- mc_loop c xs sigma ts mc r;;
           OK (fst res, self, snd res)
       end
   end)%result.

(** [Model.get_output_layer] *)
Definition get_output_layer (self : Model) : result layer :=
  last_item (OD.values (net self)).

End Theano.

(** * Vocabulary of the properties *)

(** ** The JFnet layer graph *)

(** The keys of the network, in the order of their declaration. *)
Definition jfnet_keys : list string :=
  ["0"; "1"; "1d"; "2"; "3"; "3d"; "4"; "4d"; "5"; "6"; "6d"; "7"; "7d";
   "8"; "9"; "9d"; "10"; "10d"; "11"; "11d"; "12"; "12d"; "13"; "14"; "14d";
   "15"; "15d"; "16"; "16d"; "17"; "17d"; "18"; "19"; "20"; "21"; "22"; "23";
   "24"; "25"; "26"; "27"; "28"; "29"; "30"; "31"].

(** The dict [build_model_layers] returns. *)
Definition jfnet_layers (width height n_classes : Z) (batch_size : option Z)
  (p_conv : float) : OD.t layer :=
  match build_model_layers width height n_classes batch_size p_conv with
  | OK network => network
  | Raise _ => []
  end.

(** The depth of a layer in the graph together with a number for its
    class; an input layer, of depth 0, gives the length of its shape
    instead, which tells the two inputs apart. *)
Fixpoint rank (l : layer) : nat * nat :=
  match l with
  | InputLayer sh _ => (O, length sh)
  | ConvLayer i _ _ _ _ _ _ _ _ => (S (fst (rank i)), 1)
  | DropoutLayer i _ => (S (fst (rank i)), 2)
  | MaxPool2DLayer i _ _ _ => (S (fst (rank i)), 3)
  | DenseLayer i _ _ _ _ _ => (S (fst (rank i)), 4)
  | FeaturePoolLayer i _ => (S (fst (rank i)), 5)
  | ConcatLayer i1 i2 _ => (S (Nat.max (fst (rank i1)) (fst (rank i2))), 6)
  | ReshapeLayer i _ => (S (fst (rank i)), 7)
  | NonlinearityLayer i _ => (S (fst (rank i)), 8)
  | GlobalPoolLayer i _ => (S (fst (rank i)), 9)
  end%nat.

(** [chained prev rest exceptions]: every layer of [rest] whose key is not
    an exception reads from the entry just before it, [prev] being the
    entry before the first. *)
Fixpoint chained (prev : layer) (rest : OD.t layer) (exceptions : list string)
  : Prop :=
  match rest with
  | [] => True
  | (k, l) :: rest' =>
      (mem k exceptions = false -> input_layers l = [prev])
      /\ chained l rest' exceptions
  end.

(** The three layers [BCNN.__init__] puts on top of the layer [l] it keeps
    as the last one. *)
Definition bcnn_global_pool (l : layer) : layer :=
  ConcatLayer (GlobalPoolLayer l T_mean) (GlobalPoolLayer l T_max) 1.

Definition bcnn_softmax_input (l : layer) (n_classes : Z) : layer :=
  DenseLayer (bcnn_global_pool l) n_classes linear GlorotUniform
    (Constant 0%Q) None.

Definition bcnn_logreg (l : layer) (n_classes : Z) : layer :=
  NonlinearityLayer (bcnn_softmax_input l n_classes) softmax.

Definition bcnn_head (l : layer) (n_classes : Z) : OD.t layer :=
  [("global_pool", bcnn_global_pool l);
   ("softmax_input", bcnn_softmax_input l n_classes);
   ("logreg", bcnn_logreg l n_classes)].

(** The commit hash in the file names of a model. *)
Definition bcnn_hash (name : string) : string :=
  if String.eqb name "bcnn1" then "392bea6" else "b69aadd".

Definition bcnn_weights_file (name : string) : string :=
  ("models/weights_" ++ name ++ "_" ++ bcnn_hash name ++ ".npz")%string.

Definition bcnn_outfile (name output_layer : string) : string :=
  (name ++ "_" ++ bcnn_hash name ++ "_" ++ output_layer ++ ".pkl")%string.

(** ** A sample world

    A file system that holds the JFnet weights and the weights of the two
    BCNNs, and a parameter store; every array is a scalar, which is all
    that [set_all_param_values] compares. *)

Module Sample.

Definition scalar : ndarray := zeros [].

Definition world0 : world :=
  {| files := fun name =>
       if String.eqb name ORIGINAL_WEIGHTS
       then Some (PklFile (PyArrays (repeat scalar 32)))
       else if String.eqb name "models/weights_bcnn1_392bea6.npz"
       then Some (NpzFile (name_arrays 0 (repeat scalar 28)))
       else if String.eqb name "models/weights_bcnn2_b69aadd.npz"
       then Some (NpzFile (name_arrays 0 (repeat scalar 28)))
       else None;
     params := fun _ => scalar;
     stdout := [] |}.

End Sample.

(** ** Successive passes *)

Section Passes.

Variable rng : Type.
Variable theano_call :
  compiled -> pstore -> list ndarray -> rng -> result (ndarray * rng).

(** The outputs of [T] calls of a compiled function, one after the other,
    each starting from the random state the one before left. *)
Fixpoint stoch_passes (c : compiled) (sigma : pstore) (xs : list ndarray)
  (T : nat) (r : rng) : result (list ndarray * rng) :=
  match T with
  | O => OK ([], r)
  | S T' =>
      (out <- theano_call c sigma xs r;;
       rest <- stoch_passes c sigma xs T' (snd out);;
       OK (fst out :: fst rest, snd rest))%result
  end.

End Passes.

(** ** Sample layers, parameters and a backend *)

Module Toy.

Definition features : layer := InputLayer [None; Some 3%Z] (Some "features").

Definition dense : layer :=
  DenseLayer features 2 linear GlorotUniform (Constant 0%Q) None.

Definition out : layer := NonlinearityLayer dense softmax.

(** A model with the two-dimensional output [(None, 2)]. *)
Definition model : Model :=
  set_input "X" (input_var features)
    (Model_init [("0", features); ("dense", dense); ("out", out)]).

(** [W] is a 3 by 2 matrix with the entries 0, 1, ..., 5 and [b] the
    vector (1/2, 1/2). *)
Definition sigma : pstore :=
  fun p =>
    if String.eqb (snd p) "W"
    then {| shape := [3; 2]%nat;
            at_ := fun idx =>
                     match idx with
                     | [i; j] => inject_Z (Z.of_nat (2 * i + j))
                     | _ => 0%Q
                     end |}
    else {| shape := [2]%nat; at_ := fun _ => (1 # 2)%Q |}.

Definition world1 : world :=
  {| files := fun _ => None; params := sigma; stdout := [] |}.

(** A world in which these parameters are all zero, and the file
    ['weights.pkl'] holds a dict with the values above. *)
Definition world_zero : world :=
  {| files := fun name =>
       if String.eqb name "weights.pkl"
       then Some (PklFile (PyDict [("param values",
                                     PyArrays [sigma (dense, "W");
                                               sigma (dense, "b")])]))
       else None;
     params := fun p => zeros (shape (sigma p));
     stdout := [] |}.

(** A backend that only gets the shapes right: the output has the length
    of the first input and the other dimensions of the output shape of
    the layer, and all its entries are the number of calls made before. *)
Definition backend (c : compiled) (_ : pstore) (xs : list ndarray) (r : nat)
  : result (ndarray * nat) :=
  (x0 <- item xs 0;;
   n <- len x0;;
   OK ({| shape := n :: map (fun d => match d with
                                      | Some z => Z.to_nat z
                                      | None => O
                                      end)
                            (tl (output_shape (c_output c)));
          at_ := fun _ => inject_Z (Z.of_nat r) |}, S r))%result.

End Toy.

(** ** Shapes and inputs of the graph *)

(** The output shape has at least two axes, the first of them unknown. *)
Definition batch_first (l : layer) : bool :=
  match output_shape l with
  | None :: _ :: _ => true
  | _ => false
  end.


(** The number of layers in the term of a layer. *)
Fixpoint size (l : layer) : nat :=
  match l with
  | InputLayer _ _ => 1
  | ConvLayer i _ _ _ _ _ _ _ _ => S (size i)
  | DropoutLayer i _ => S (size i)
  | MaxPool2DLayer i _ _ _ => S (size i)
  | DenseLayer i _ _ _ _ _ => S (size i)
  | FeaturePoolLayer i _ => S (size i)
  | ConcatLayer i1 i2 _ => S (size i1 + size i2)
  | ReshapeLayer i _ => S (size i)
  | NonlinearityLayer i _ => S (size i)
  | GlobalPoolLayer i _ => S (size i)
  end.

(** The parameters of a list of layers, layer by layer. *)
Definition params_of (ls : list layer) : list param :=
  flat_map (fun l' => map (pair l') (own_params l')) ls.

(** [l] is an input layer. *)
Definition is_input (l : layer) : bool :=
  match l with
  | InputLayer _ _ => true
  | _ => false
  end.

(** The two input layers of the JFnet network as [BCNN.__init__] builds
    it, and the keys declared before the second of them. *)
Definition images_input : layer :=
  InputLayer [None; Some 3%Z; Some 512%Z; Some 512%Z] (Some "images").

Definition imgdim_input : layer :=
  InputLayer [None; Some 2%Z] (Some "imgdim").

Definition keys_before_imgdim : list string :=
  ["0"; "1"; "1d"; "2"; "3"; "3d"; "4"; "4d"; "5"; "6"; "6d"; "7"; "7d";
   "8"; "9"; "9d"; "10"; "10d"; "11"; "11d"; "12"; "12d"; "13"; "14"; "14d";
   "15"; "15d"; "16"; "16d"; "17"; "17d"; "18"; "19"; "20"; "21"].

(** Every input layer that [l] reads from is the image input. *)
Definition reads_only_images (l : layer) : bool :=
  forallb (fun x => if is_input x
                    then if layer_eq_dec x images_input then true else false
                    else true)
          (postorder l).

(** [l] reads from the second input. *)
Definition reads_imgdim (l : layer) : bool :=
  existsb (fun x => if layer_eq_dec x imgdim_input then true else false)
          (postorder l).

(** * Properties *)

(** ** Tactics *)

Ltac destruct_match :=
  match goal with
  | |- context [match ?x with _ => _ end] => destruct x eqn:?
  end.

(** One statement [x = d[k]] whose lookup is known to succeed. *)
Ltac run_lift H :=
  unfold bind at 1; rewrite H; cbn [lift]; cbv beta iota.

Ltac in_list := simpl; repeat (first [left; reflexivity | right]).

(** ** Results and statements *)

Lemma rbind_OK {A B} (r : result A) (k : A -> result B) (b : B) :
  rbind r k = OK b -> exists a, r = OK a /\ k a = OK b.
Proof. destruct r as [a|e]; simpl; intros H; [eauto | discriminate]. Qed.

Lemma rbind_Raise {A B} (r : result A) (k : A -> result B) (e : exn) :
  rbind r k = Raise e ->
  r = Raise e \/ exists a, r = OK a /\ k a = Raise e.
Proof. destruct r as [a|e']; simpl; intros H; [eauto | left; congruence]. Qed.

Lemma bind_OK {A B} (m : M A) (k : A -> M B) (w : world) (r : B * world) :
  bind m k w = OK r -> exists a w', m w = OK (a, w') /\ k a w' = OK r.
Proof.
  unfold bind. destruct (m w) as [[a w']|e]; intros H; [eauto | discriminate].
Qed.

Lemma bind_Raise {A B} (m : M A) (k : A -> M B) (w : world) (e : exn) :
  bind m k w = Raise e ->
  m w = Raise e \/ exists a w', m w = OK (a, w') /\ k a w' = Raise e.
Proof.
  unfold bind. destruct (m w) as [[a w']|e']; intros H;
    [eauto | left; congruence].
Qed.

Lemma lift_OK {A} (r : result A) (w : world) (a : A) (w' : world) :
  lift r w = OK (a, w') -> r = OK a /\ w' = w.
Proof. destruct r; simpl; intros H; inversion H; auto. Qed.

Lemma lift_Raise {A} (r : result A) (w : world) (e : exn) :
  lift r w = Raise e -> r = Raise e.
Proof. destruct r; simpl; intros H; inversion H; auto. Qed.

(** ** Lists and ordered dicts *)

Lemma last_item_snoc {A} (l : list A) (x : A) : last_item (l ++ [x]) = OK x.
Proof. unfold last_item. rewrite rev_unit. reflexivity. Qed.

Lemma last_item_nil {A} : last_item (@nil A) = Raise IndexError.
Proof. reflexivity. Qed.

Lemma mem_In (k : string) (l : list string) : mem k l = true <-> In k l.
Proof.
  unfold mem. rewrite existsb_exists. split.
  - intros [x [Hin Heq]]. apply String.eqb_eq in Heq. now subst.
  - intros Hin. exists k. split; [assumption | apply String.eqb_refl].
Qed.

Lemma mem_not_In (k : string) (l : list string) : mem k l = false <-> ~ In k l.
Proof.
  rewrite <- mem_In. destruct (mem k l); split; intros H; congruence.
Qed.

Lemma popitem_snoc {V} (d : OD.t V) (x : string * V) :
  OD.popitem (d ++ [x]) = OK d.
Proof.
  unfold OD.popitem. rewrite removelast_last.
  destruct d; reflexivity.
Qed.

Lemma keys_app {V} (d1 d2 : OD.t V) :
  OD.keys (d1 ++ d2) = OD.keys d1 ++ OD.keys d2.
Proof. apply map_app. Qed.

Lemma set_new {V} (k : string) (v : V) (d : OD.t V) :
  ~ In k (OD.keys d) -> OD.set k v d = d ++ [(k, v)].
Proof.
  induction d as [|[k' v'] d IH]; simpl; intros Hn; [reflexivity|].
  destruct (String.eqb_spec k k') as [->|Hne].
  - exfalso. apply Hn. now left.
  - rewrite IH; [reflexivity | tauto].
Qed.

Lemma get_In {V} (k : string) (d : OD.t V) :
  In k (OD.keys d) -> exists v, OD.get k d = OK v.
Proof.
  induction d as [|[k' v'] d IH]; simpl; intros Hin; [contradiction|].
  destruct (String.eqb_spec k k') as [->|Hne]; [eauto|].
  destruct Hin as [Heq|Hin]; [congruence | auto].
Qed.

Lemma get_app_l {V} (k : string) (d1 d2 : OD.t V) (v : V) :
  OD.get k d1 = OK v -> OD.get k (d1 ++ d2) = OK v.
Proof.
  induction d1 as [|[k' v'] d1 IH]; simpl; [discriminate|].
  destruct (String.eqb k k'); auto.
Qed.

Lemma get_snoc {V} (k : string) (v : V) (d : OD.t V) :
  ~ In k (OD.keys d) -> OD.get k (d ++ [(k, v)]) = OK v.
Proof.
  induction d as [|[k' v'] d IH]; simpl; intros Hn.
  - now rewrite String.eqb_refl.
  - destruct (String.eqb_spec k k') as [->|Hne]; [tauto|].
    apply IH. tauto.
Qed.

(** ** The loop that removes the layers after [last_layer] *)

(** With [last_layer] among the keys, the loop stops at its last
    occurrence and keeps everything up to it. *)
Lemma pop_until_found (post pre : OD.t layer) (k : string) (v : layer)
  (fuel : nat) :
  ~ In k (OD.keys post) ->
  (length post < fuel)%nat ->
  pop_until fuel (pre ++ (k, v) :: post) k = OK (pre ++ [(k, v)]).
Proof.
  revert fuel. induction post as [|x post IH] using rev_ind; intros fuel Hn Hf.
  - destruct fuel as [|fuel]; [inversion Hf|]. simpl.
    unfold OD.keys. rewrite map_app. simpl map.
    rewrite last_item_snoc. simpl. now rewrite String.eqb_refl.
  - destruct fuel as [|fuel]; [inversion Hf|]. simpl.
    rewrite keys_app in Hn. rewrite in_app_iff in Hn. simpl in Hn.
    replace (pre ++ (k, v) :: post ++ [x])
      with ((pre ++ (k, v) :: post) ++ [x])
      by (rewrite <- app_assoc; reflexivity).
    rewrite keys_app. simpl OD.keys. rewrite last_item_snoc. simpl.
    destruct (String.eqb_spec (fst x) k) as [Heq|Hne]; [tauto|].
    rewrite popitem_snoc. simpl.
    apply IH; [tauto|]. rewrite length_app in Hf. simpl in Hf. lia.
Qed.

(** Without it, the loop pops every entry and then fails on
    [network.keys()[-1]]: the list of keys is empty. *)
Lemma pop_until_missing (network : OD.t layer) (k : string) (fuel : nat) :
  ~ In k (OD.keys network) ->
  (length network < fuel)%nat ->
  pop_until fuel network k = Raise IndexError.
Proof.
  revert fuel. induction network as [|x network IH] using rev_ind;
    intros fuel Hn Hf.
  - destruct fuel as [|fuel]; [inversion Hf|]. reflexivity.
  - destruct fuel as [|fuel]; [inversion Hf|]. simpl.
    rewrite keys_app in *. simpl OD.keys in *. rewrite last_item_snoc. simpl.
    rewrite in_app_iff in Hn. simpl in Hn.
    destruct (String.eqb_spec (fst x) k) as [Heq|Hne]; [tauto|].
    rewrite popitem_snoc. simpl.
    apply IH; [tauto|]. rewrite length_app in Hf. simpl in Hf. lia.
Qed.

(** Splitting a dict at the last occurrence of a key. *)
Lemma split_last_key {V} (d : OD.t V) (k : string) :
  In k (OD.keys d) ->
  exists pre v post, d = pre ++ (k, v) :: post /\ ~ In k (OD.keys post).
Proof.
  induction d as [|[k' v'] d IH]; simpl; [contradiction|].
  intros Hin.
  destruct (in_dec string_dec k (OD.keys d)) as [Hd|Hd].
  - destruct (IH Hd) as (pre & v & post & -> & Hn).
    exists ((k', v') :: pre), v, post. split; [reflexivity | assumption].
  - destruct Hin as [->|Hin]; [|contradiction].
    exists [], v', d. split; [reflexivity | assumption].
Qed.

Lemma remove_after_found (network pre post : OD.t layer) (k : string)
  (v : layer) :
  network = pre ++ (k, v) :: post ->
  ~ In k (OD.keys post) ->
  remove_after network k = OK (pre ++ [(k, v)]).
Proof.
  intros -> Hn. unfold remove_after. apply pop_until_found; [assumption|].
  rewrite length_app. simpl. lia.
Qed.

Lemma remove_after_missing (network : OD.t layer) (k : string) :
  ~ In k (OD.keys network) -> remove_after network k = Raise IndexError.
Proof. intros Hn. unfold remove_after. apply pop_until_missing; [assumption | lia]. Qed.

(** The fuel of [remove_after] is never used up. *)
Lemma remove_after_terminates (network : OD.t layer) (k : string) :
  remove_after network k <> Raise Diverged.
Proof.
  destruct (in_dec string_dec k (OD.keys network)) as [Hin|Hn].
  - destruct (split_last_key network k Hin) as (pre & v & post & Heq & Hp).
    rewrite (remove_after_found _ _ _ _ _ Heq Hp). discriminate.
  - rewrite (remove_after_missing _ _ Hn). discriminate.
Qed.

(** ** The JFnet layer graph *)

(** No lookup of [build_model_layers] fails, whatever the arguments. *)
Lemma build_model_layers_total width height n_classes batch_size p_conv :
  build_model_layers width height n_classes batch_size p_conv
  = OK (jfnet_layers width height n_classes batch_size p_conv).
Proof. unfold jfnet_layers. cbn. reflexivity. Qed.

Lemma jfnet_layers_keys width height n_classes batch_size p_conv :
  OD.keys (jfnet_layers width height n_classes batch_size p_conv)
  = jfnet_keys.
Proof. reflexivity. Qed.

Lemma jfnet_keys_NoDup : NoDup jfnet_keys.
Proof.
  unfold jfnet_keys.
  repeat (constructor; [simpl; intuition discriminate|]). constructor.
Qed.

(** The 45 layers are pairwise different values: comparing layers of the
    network by value is comparing the objects. *)
Lemma build_model_layers_distinct width height n_classes batch_size p_conv :
  NoDup (OD.values (jfnet_layers width height n_classes batch_size p_conv)).
Proof.
  apply (NoDup_map_inv rank). cbn.
  repeat (constructor; [simpl; intuition discriminate|]). constructor.
Qed.

Lemma chained_nth (exceptions : list string) (rest : OD.t layer)
  (prev : layer) (kp : string) (i : nat) (k k' : string) (l l' : layer) :
  chained prev rest exceptions ->
  nth_error ((kp, prev) :: rest) i = Some (k', l') ->
  nth_error ((kp, prev) :: rest) (S i) = Some (k, l) ->
  ~ In k exceptions ->
  input_layers l = [l'].
Proof.
  revert prev kp i. induction rest as [|[k0 l0] rest IH];
    intros prev kp i Hc Hi HSi Hex.
  - destruct i; simpl in HSi; [discriminate | destruct i; discriminate].
  - destruct Hc as [Hhead Hc]. destruct i as [|i].
    + simpl in Hi, HSi. inversion Hi; inversion HSi; subst.
      apply Hhead. now apply mem_not_In.
    + apply (IH l0 k0 i Hc); assumption.
Qed.

Lemma jfnet_layers_chained width height n_classes batch_size p_conv :
  match jfnet_layers width height n_classes batch_size p_conv with
  | [] => False
  | (_, l0) :: rest => chained l0 rest ["22"; "23"; "16"]
  end.
Proof. cbn. repeat split; intros H; first [reflexivity | discriminate H]. Qed.

Arguments jfnet_layers : simpl never.

(** [build_model] returns the layers of [build_model_layers]; without a
    file name it returns when the constructors accept their arguments,
    and raises what the first failing constructor raises. *)
Lemma build_model_None width height n_classes batch_size p_conv w :
  build_model width height None n_classes batch_size p_conv w
  = match check_all (OD.values (jfnet_layers width height n_classes
                                  batch_size p_conv)) with
    | OK _ => OK (jfnet_layers width height n_classes batch_size p_conv, w)
    | Raise e => Raise e
    end.
Proof.
  unfold build_model. unfold bind at 1.
  rewrite build_model_layers_total. cbn [lift]. unfold bind at 1.
  destruct (check_all (OD.values (jfnet_layers width height n_classes
                                    batch_size p_conv))); reflexivity.
Qed.

Lemma build_model_OK width height filename n_classes batch_size p_conv w
  network w' :
  build_model width height filename n_classes batch_size p_conv w
  = OK (network, w') ->
  network = jfnet_layers width height n_classes batch_size p_conv.
Proof.
  unfold build_model. intros H.
  apply bind_OK in H. destruct H as (net0 & w0 & Hl & H).
  apply lift_OK in Hl. destruct Hl as [Hl ->].
  rewrite build_model_layers_total in Hl. injection Hl as <-.
  apply bind_OK in H. destruct H as ([] & w0 & Hc & H).
  apply lift_OK in Hc. destruct Hc as [_ ->].
  destruct filename as [f|].
  - apply bind_OK in H. destruct H as (o & w1 & _ & H).
    apply bind_OK in H. destruct H as (l31 & w2 & _ & H).
    apply bind_OK in H. destruct H as (vs & w3 & _ & H).
    apply bind_OK in H. destruct H as (u & w4 & _ & H).
    unfold ret in H. now injection H.
  - unfold ret in H. now injection H.
Qed.

(** C1.  The layers of [JFnet.build_model] are chained, each reading from
    the layer declared just before it, with the exception of the inputs
    ['0'] and ['22'], the concatenation ['23'] and also of ['16']: the
    entry before ['16'] is the dropout layer ['15d'], but ['16'] is built
    on [net['15']], so ['15d'] feeds into nothing. *)
Theorem build_model_layer16_input width height n_classes batch_size p_conv :
  exists network l15 l15d l16,
    build_model_layers width height n_classes batch_size p_conv = OK network
    /\ (forall i k l k' l',
          nth_error network i = Some (k', l') ->
          nth_error network (S i) = Some (k, l) ->
          ~ In k ["22"; "23"; "16"] ->
          input_layers l = [l'])
    /\ nth_error network 25 = Some ("15", l15)
    /\ nth_error network 26 = Some ("15d", l15d)
    /\ nth_error network 27 = Some ("16", l16)
    /\ input_layers l16 = [l15]
    /\ input_layers l16 <> [l15d].
Proof.
  pose proof (jfnet_layers_chained width height n_classes batch_size p_conv)
    as Hc.
  pose proof (build_model_layers_total width height n_classes batch_size
                p_conv) as Ht.
  destruct (jfnet_layers width height n_classes batch_size p_conv)
    as [|[k0 l0] rest] eqn:Hnet; [contradiction|].
  unfold jfnet_layers in Hnet. cbn in Hnet.
  injection Hnet as Hk0 Hl0 Hrest.
  do 4 eexists. split; [exact Ht|]. split.
  - intros i k l k' l'. apply (chained_nth _ _ _ _ _ _ _ _ _ Hc).
  - subst rest. cbn. repeat split. discriminate.
Qed.

(** With the arguments [BCNN.__init__] passes on, the dropout layer
    ['15d'] is not among the layers below the output ['31']: the dropout
    after the convolution ['15'] is never applied. *)
Example layer_15d_unused :
  match OD.get "15d" (jfnet_layers 512 512 5 None (1 # 5)),
        OD.get "31" (jfnet_layers 512 512 5 None (1 # 5)) with
  | OK l15d, OK l31 =>
      length (get_all_layers l31) = 44%nat
      /\ ~ In l15d (get_all_layers l31)
  | _, _ => False
  end.
Proof.
  vm_compute. split; [reflexivity|].
  repeat (intros [H|H]; [discriminate H | revert H]). intros [].
Qed.

(** In the sample world [JFnet()] has the 45 layers and the two inputs
    ['X'] and ['img_dim']. *)
Example JFnet_init_sample :
  match JFnet_init 512 512 Sample.world0 with
  | OK (model, _) =>
      OD.keys (net model) = jfnet_keys
      /\ OD.keys (inputs model) = ["X"; "img_dim"]
  | Raise _ => False
  end.
Proof. vm_compute. split; reflexivity. Qed.

(** *** The arguments the constructors accept *)

Ltac pos_solver :=
  first [ lia
        | Z.to_euclidean_division_equations; lia
        | repeat apply Z.mul_pos_pos;
          first [lia | Z.to_euclidean_division_equations; lia]
        | ring ].

(** Decide one comparison of integers in the goal. *)
Ltac decide_one :=
  match goal with
  | |- context [Z.leb ?a ?b] =>
      first [ rewrite (proj2 (Z.leb_le a b)) by pos_solver
            | rewrite (proj2 (Z.leb_gt a b)) by pos_solver ]
  | |- context [Z.ltb ?a ?b] =>
      first [ rewrite (proj2 (Z.ltb_lt a b)) by pos_solver
            | rewrite (proj2 (Z.ltb_ge a b)) by pos_solver ]
  | |- context [Z.eqb ?a ?b] =>
      first [ rewrite (proj2 (Z.eqb_eq a b)) by pos_solver
            | rewrite (proj2 (Z.eqb_neq a b)) by pos_solver ]
  end.

(** Unfold the checks and the shapes, and leave the arithmetic. *)
Ltac run_checks :=
  cbv beta iota zeta delta
    [check_all check guard non_positive param_shape_ok existsb forallb
     output_shape nth conv_output_length pool_output_length String.eqb
     Ascii.eqb Bool.eqb rbind length skipn tl dim_prod fold_right set_nth
     zip_with dim_or dim_add reshape_output_shape reshape_spec_ok
     reshape_size_ok shapes_match filter map negb andb orb Nat.eqb Nat.leb
     firstn Z.even].

(** The constructors of the 45 layers accept their arguments when the
    images are at least 125 by 125 (the last of the five pooling layers
    then still has an output), [n_classes] is positive, and the batch
    size is left open or is positive and even (layer ['24'] puts the
    rows of two images into one). *)
Lemma check_all_jfnet (width height n_classes : Z) (batch_size : option Z)
  (p_conv : float) :
  (125 <= width)%Z -> (125 <= height)%Z -> (0 < n_classes)%Z ->
  batch_size = None
  \/ (exists k, (0 < k)%Z /\ batch_size = Some (2 * k)%Z) ->
  check_all (OD.values (jfnet_layers width height n_classes batch_size
                          p_conv))
  = OK tt.
Proof.
  intros Hw Hh Hn Hb.
  unfold jfnet_layers.
  cbn [build_model_layers OD.set OD.get OD.empty rbind OD.values map snd fst
       String.eqb Ascii.eqb Bool.eqb item nth_error times2 output_shape
       set_nth zip_with dim_or dim_add nth conv_output_length
       pool_output_length app].
  change (1024 / 2)%Z with 512%Z. change (512 + 2)%Z with 514%Z.
  change (514 * 2)%Z with 1028%Z.
  destruct Hb as [->|(k & Hk & ->)].
  - run_checks. rewrite !Z.div_1_r, !Z.add_simpl_r.
    repeat (progress (run_checks; repeat decide_one)).
    reflexivity.
  - run_checks. rewrite !Z.div_1_r, !Z.add_simpl_r.
    repeat (progress (run_checks; repeat decide_one)).
    change (1024 / 2 + 2)%Z with 514%Z. rewrite !Z.mul_1_r.
    assert (E1 : (2 * k * 514 / 1028 = k)%Z)
      by (Z.to_euclidean_division_equations; lia).
    rewrite !E1.
    assert (E2 : (k * (n_classes * 2) / n_classes = 2 * k)%Z).
    { replace (k * (n_classes * 2))%Z with (2 * k * n_classes)%Z by ring.
      apply Z.div_mul. lia. }
    rewrite !E2.
    repeat (progress (run_checks; repeat decide_one)).
    reflexivity.
Qed.



(** With the default arguments, and also with an even batch size,
    [build_model] returns. *)
Example build_model_returns :
  (exists network,
     build_model 512 512 None 5 None 0%Q Sample.world0
     = OK (network, Sample.world0))
  /\ exists network,
       build_model 512 512 None 5 (Some 64%Z) 0%Q Sample.world0
       = OK (network, Sample.world0).
Proof.
  split; eexists; rewrite build_model_None;
    (rewrite check_all_jfnet;
     [reflexivity | lia | lia | lia |]);
    [now left | right; exists 32%Z; split; [lia | reflexivity]].
Qed.

(** C9, as the code has it.  The loop of [BCNN.__init__] on the network of
    [JFnet.build_model] completes exactly when [last_layer] is one of the
    keys.  Otherwise it pops every entry, and the next test of the loop
    condition fails with [IndexError] on [network.keys()[-1]]; [popitem]
    is not called on the empty dict, and no [KeyError] is raised. *)
Theorem remove_after_completes_iff width height n_classes batch_size p_conv
  last_layer :
  build_model_layers width height n_classes batch_size p_conv
  = OK (jfnet_layers width height n_classes batch_size p_conv)
  /\ ((exists network',
         remove_after (jfnet_layers width height n_classes batch_size p_conv)
           last_layer = OK network')
      <-> In last_layer jfnet_keys)
  /\ (~ In last_layer jfnet_keys ->
      remove_after (jfnet_layers width height n_classes batch_size p_conv)
        last_layer = Raise IndexError).
Proof.
  split; [apply build_model_layers_total|].
  rewrite <- (jfnet_layers_keys width height n_classes batch_size p_conv).
  split; [split|].
  - intros [network' H].
    destruct (in_dec string_dec last_layer
                (OD.keys (jfnet_layers width height n_classes batch_size
                            p_conv))) as [Hin|Hn]; [assumption|].
    rewrite (remove_after_missing _ _ Hn) in H. discriminate.
  - intros Hin.
    destruct (split_last_key _ _ Hin) as (pre & v & post & Heq & Hp).
    eexists. apply (remove_after_found _ _ _ _ _ Heq Hp).
  - apply remove_after_missing.
Qed.

(** The constructor as a whole: once the JFnet weights are loaded, a
    [last_layer] that is no key makes [BCNN.__init__] raise
    [IndexError]. *)
Lemma BCNN_init_missing_layer p_conv last_layer weights n_classes w w1 :
  build_model 512 512 (Some ORIGINAL_WEIGHTS) 5 None p_conv w
  = OK (jfnet_layers 512 512 5 None p_conv, w1) ->
  ~ In last_layer jfnet_keys ->
  BCNN_init p_conv last_layer weights n_classes w = Raise IndexError.
Proof.
  intros Hbuild Hn. unfold BCNN_init.
  unfold bind at 1. rewrite Hbuild. cbv beta iota.
  unfold bind at 1. rewrite remove_after_missing; [reflexivity|].
  now rewrite jfnet_layers_keys.
Qed.

(** C9, as the claim has it, fails: for the name ['32'], which is no key,
    the loop ends in [IndexError], not in a [KeyError] of [popitem], and
    so does [BCNN(last_layer='32')] in the sample world. *)
Lemma remove_after_32_IndexError :
  remove_after (jfnet_layers 512 512 5 None (1 # 5)) "32" = Raise IndexError
  /\ ~ (exists key,
          remove_after (jfnet_layers 512 512 5 None (1 # 5)) "32"
          = Raise (KeyError key))
  /\ BCNN_init (1 # 5) "32" None 2 Sample.world0 = Raise IndexError.
Proof.
  assert (H : remove_after (jfnet_layers 512 512 5 None (1 # 5)) "32"
              = Raise IndexError) by (vm_compute; reflexivity).
  split; [exact H|]. split.
  - intros [key Hk]. rewrite H in Hk. discriminate.
  - vm_compute. reflexivity.
Qed.

(** ** BCNN *)

(** Splitting the JFnet layers at a key: the key occurs once. *)
Lemma jfnet_layers_split width height n_classes batch_size p_conv k :
  In k jfnet_keys ->
  exists pre l post,
    jfnet_layers width height n_classes batch_size p_conv
    = pre ++ (k, l) :: post
    /\ ~ In k (OD.keys pre) /\ ~ In k (OD.keys post)
    /\ jfnet_keys = OD.keys pre ++ k :: OD.keys post.
Proof.
  intros Hin.
  rewrite <- (jfnet_layers_keys width height n_classes batch_size p_conv)
    in Hin.
  destruct (split_last_key _ _ Hin) as (pre & l & post & Heq & Hpost).
  exists pre, l, post.
  assert (Hk : jfnet_keys = OD.keys pre ++ k :: OD.keys post).
  { rewrite <- (jfnet_layers_keys width height n_classes batch_size p_conv).
    rewrite Heq. rewrite keys_app. reflexivity. }
  repeat split; try assumption.
  pose proof jfnet_keys_NoDup as Hnd. rewrite Hk in Hnd.
  apply NoDup_remove_2 in Hnd. intros Hpre. apply Hnd.
  apply in_or_app. now left.
Qed.

Lemma not_jfnet_key (k : string) (pre post : list string) (x : string) :
  jfnet_keys = pre ++ k :: post ->
  ~ In x jfnet_keys ->
  ~ In x (pre ++ [k]).
Proof.
  intros Hk Hn Hin. apply Hn. rewrite Hk.
  apply in_app_or in Hin. apply in_or_app.
  destruct Hin as [Hin|[Hin|[]]]; [now left | right; now left].
Qed.

Lemma head_key_0 (pre post : OD.t layer) (k : string) (l : layer) :
  jfnet_keys = OD.keys pre ++ k :: OD.keys post ->
  In "0" (OD.keys (pre ++ [(k, l)])).
Proof.
  intros Hk. rewrite keys_app. simpl.
  destruct pre as [|[k0 v0] pre]; simpl in *.
  - left. unfold jfnet_keys in Hk. injection Hk as Hk _. now symmetry.
  - left. unfold jfnet_keys in Hk. injection Hk as Hk _. now symmetry.
Qed.

(** What [BCNN.__init__] does once the JFnet weights are loaded: it keeps
    the entries up to [last_layer], adds the three new layers, loads the
    weights if a file is given and wraps the network in a model. *)
Lemma BCNN_init_run p_conv last_layer weights n_classes w w1 pre l post :
  jfnet_layers 512 512 5 None p_conv = pre ++ (last_layer, l) :: post ->
  ~ In last_layer (OD.keys pre) ->
  ~ In last_layer (OD.keys post) ->
  jfnet_keys = OD.keys pre ++ last_layer :: OD.keys post ->
  build_model 512 512 (Some ORIGINAL_WEIGHTS) 5 None p_conv w
  = OK (jfnet_layers 512 512 5 None p_conv, w1) ->
  exists l0,
    OD.get "0" (jfnet_layers 512 512 5 None p_conv) = OK l0
    /\ BCNN_init p_conv last_layer weights n_classes w
       = match weights with
         | None =>
             OK (set_input "X" (input_var l0)
                   (Model_init (pre ++ (last_layer, l)
                                :: bcnn_head l n_classes)), w1)
         | Some f =>
             match load_weights (bcnn_logreg l n_classes) f w1 with
             | OK (_, w2) =>
                 OK (set_input "X" (input_var l0)
                       (Model_init (pre ++ (last_layer, l)
                                    :: bcnn_head l n_classes)), w2)
             | Raise e => Raise e
             end
         end.
Proof.
  intros Hsplit Hpre Hpost Hkeys Hbuild.
  assert (Hnew : forall x, ~ In x jfnet_keys ->
                           ~ In x (OD.keys (pre ++ [(last_layer, l)]))).
  { intros x Hx. rewrite keys_app. simpl.
    exact (not_jfnet_key _ _ _ _ Hkeys Hx). }
  assert (Hgp : ~ In "global_pool" jfnet_keys)
    by (unfold jfnet_keys; simpl; intuition discriminate).
  assert (Hsi : ~ In "softmax_input" jfnet_keys)
    by (unfold jfnet_keys; simpl; intuition discriminate).
  assert (Hlr : ~ In "logreg" jfnet_keys)
    by (unfold jfnet_keys; simpl; intuition discriminate).
  destruct (get_In "0" (pre ++ [(last_layer, l)])
              (head_key_0 pre post last_layer l Hkeys)) as [l0 Hl0].
  exists l0. split.
  { rewrite Hsplit.
    replace (pre ++ (last_layer, l) :: post)
      with ((pre ++ [(last_layer, l)]) ++ post)
      by (rewrite <- app_assoc; reflexivity).
    now apply get_app_l. }
  unfold BCNN_init.
  unfold bind at 1. rewrite Hbuild. cbv beta iota.
  run_lift (remove_after_found _ _ _ _ _ Hsplit Hpost).
  run_lift (get_snoc _ l _ Hpre).
  unfold bind at 1; cbn [lift]; cbv beta iota.
  rewrite (set_new "global_pool" _ _ (Hnew _ Hgp)).
  fold (bcnn_global_pool l).
  set (n1 := (pre ++ [(last_layer, l)])
             ++ [("global_pool", bcnn_global_pool l)]).
  assert (Hn1 : forall x, ~ In x jfnet_keys -> x <> "global_pool" ->
                          ~ In x (OD.keys n1)).
  { intros x Hx Hne. unfold n1. rewrite keys_app. simpl.
    intros Hin. apply in_app_or in Hin.
    destruct Hin as [Hin|[Hin|[]]]; [exact (Hnew x Hx Hin)|].
    now apply Hne. }
  assert (Hg1 : OD.get "global_pool" n1 = OK (bcnn_global_pool l))
    by (apply get_snoc, Hnew, Hgp).
  run_lift Hg1.
  rewrite (set_new "softmax_input" _ _ (Hn1 _ Hsi ltac:(discriminate))).
  fold (bcnn_softmax_input l n_classes).
  set (n2 := n1 ++ [("softmax_input", bcnn_softmax_input l n_classes)]).
  assert (Hn2 : ~ In "logreg" (OD.keys n2)).
  { unfold n2. rewrite keys_app. simpl. intros Hin. apply in_app_or in Hin.
    destruct Hin as [Hin|[Hin|[]]]; [|discriminate].
    exact (Hn1 _ Hlr ltac:(discriminate) Hin). }
  assert (Hg2 : OD.get "softmax_input" n2
                = OK (bcnn_softmax_input l n_classes))
    by (apply get_snoc, Hn1; [exact Hsi | discriminate]).
  run_lift Hg2.
  rewrite (set_new "logreg" _ _ Hn2). fold (bcnn_logreg l n_classes).
  assert (Hnet : n2 ++ [("logreg", bcnn_logreg l n_classes)]
                 = pre ++ (last_layer, l) :: bcnn_head l n_classes).
  { unfold n2, n1, bcnn_head. repeat rewrite <- app_assoc. reflexivity. }
  assert (Hget0 : OD.get "0" (n2 ++ [("logreg", bcnn_logreg l n_classes)])
                  = OK l0).
  { unfold n2, n1. do 3 apply get_app_l. exact Hl0. }
  assert (Hg3 : OD.get "logreg" (n2 ++ [("logreg", bcnn_logreg l n_classes)])
                = OK (bcnn_logreg l n_classes))
    by (apply get_snoc, Hn2).
  cbn [net Model_init]. rewrite Hnet in *.
  destruct weights as [f|].
  - unfold bind at 1. run_lift Hg3.
    destruct (load_weights (bcnn_logreg l n_classes) f w1) as [[[] w2]|e];
      [|reflexivity].
    run_lift Hget0. reflexivity.
  - unfold bind at 1. unfold ret at 1. cbv beta iota.
    run_lift Hget0. reflexivity.
Qed.

Lemma BCNN_init_build_Raise p_conv last_layer weights n_classes w e :
  build_model 512 512 (Some ORIGINAL_WEIGHTS) 5 None p_conv w = Raise e ->
  BCNN_init p_conv last_layer weights n_classes w = Raise e.
Proof. intros H. unfold BCNN_init. unfold bind at 1. now rewrite H. Qed.

(** The network of the model [BCNN.__init__] returns. *)
Lemma bcnn_model_net pre last_layer l n_classes l0 :
  net (set_input "X" (input_var l0)
         (Model_init (pre ++ (last_layer, l) :: bcnn_head l n_classes)))
  = pre ++ (last_layer, l) :: bcnn_head l n_classes
  /\ OD.keys (net (set_input "X" (input_var l0)
                     (Model_init (pre ++ (last_layer, l)
                                  :: bcnn_head l n_classes))))
     = OD.keys pre ++ [last_layer; "global_pool"; "softmax_input"; "logreg"]
  /\ get_output_layer
       (set_input "X" (input_var l0)
          (Model_init (pre ++ (last_layer, l) :: bcnn_head l n_classes)))
     = OK (bcnn_logreg l n_classes).
Proof.
  cbn [net set_input Model_init]. split; [reflexivity|]. split.
  - rewrite keys_app. reflexivity.
  - unfold get_output_layer. cbn [net set_input Model_init].
    unfold OD.values. rewrite map_app. simpl map.
    replace (map snd pre
             ++ [l; bcnn_global_pool l; bcnn_softmax_input l n_classes;
                 bcnn_logreg l n_classes])
      with ((map snd pre
             ++ [l; bcnn_global_pool l; bcnn_softmax_input l n_classes])
            ++ [bcnn_logreg l n_classes])
      by (rewrite <- app_assoc; reflexivity).
    apply last_item_snoc.
Qed.

(** The constructors of the layers [BCNN.__init__] adds accept their
    arguments, whatever layer of the JFnet network they are put on, when
    [n_classes] is positive. *)
Lemma bcnn_head_accepted p_conv n_classes l :
  In l (OD.values (jfnet_layers 512 512 5 None p_conv)) ->
  (0 < n_classes)%Z ->
  check_all [GlobalPoolLayer l T_mean; GlobalPoolLayer l T_max;
             bcnn_global_pool l; bcnn_softmax_input l n_classes;
             bcnn_logreg l n_classes]
  = OK tt.
Proof.
  intros Hin Hn.
  destruct n_classes as [|q|q]; try lia. clear Hn.
  assert (Hall :
            forallb (fun l =>
                       match check_all
                               [GlobalPoolLayer l T_mean;
                                GlobalPoolLayer l T_max;
                                bcnn_global_pool l;
                                bcnn_softmax_input l (Z.pos q);
                                bcnn_logreg l (Z.pos q)] with
                       | OK _ => true
                       | Raise _ => false
                       end)
              (OD.values (jfnet_layers 512 512 5 None p_conv)) = true)
    by (vm_compute; reflexivity).
  rewrite forallb_forall in Hall. specialize (Hall l Hin).
  clear Hin.
  destruct (check_all _) as [[]|e]; [reflexivity | discriminate Hall].
Qed.

(** C2.  For a [last_layer] among the keys of the JFnet network,
    [BCNN.__init__] keeps the entries up to and including [last_layer]
    unchanged, removes exactly the entries after it, and appends
    ['global_pool'], ['softmax_input'] and ['logreg'] in that order, so
    that ['logreg'] is the output layer.  The constructor can only fail
    while loading one of the two weights files. *)
Theorem BCNN_init_network p_conv last_layer weights n_classes w :
  In last_layer jfnet_keys ->
  exists pre l post,
    jfnet_layers 512 512 5 None p_conv = pre ++ (last_layer, l) :: post
    /\ jfnet_keys = OD.keys pre ++ last_layer :: OD.keys post
    /\ match BCNN_init p_conv last_layer weights n_classes w with
       | OK (model, _) =>
           net model = pre ++ (last_layer, l) :: bcnn_head l n_classes
           /\ OD.keys (net model)
              = OD.keys pre
                ++ [last_layer; "global_pool"; "softmax_input"; "logreg"]
           /\ get_output_layer model = OK (bcnn_logreg l n_classes)
       | Raise e =>
           build_model 512 512 (Some ORIGINAL_WEIGHTS) 5 None p_conv w
           = Raise e
           \/ exists f w1,
                weights = Some f
                /\ build_model 512 512 (Some ORIGINAL_WEIGHTS) 5 None p_conv w
                   = OK (jfnet_layers 512 512 5 None p_conv, w1)
                /\ load_weights (bcnn_logreg l n_classes) f w1 = Raise e
       end.
Proof.
  intros Hin.
  destruct (jfnet_layers_split 512 512 5 None p_conv last_layer Hin)
    as (pre & l & post & Hsplit & Hpre & Hpost & Hkeys).
  exists pre, l, post. split; [exact Hsplit|]. split; [exact Hkeys|].
  destruct (build_model 512 512 (Some ORIGINAL_WEIGHTS) 5 None p_conv w)
    as [[network w1]|e] eqn:Hbuild.
  - pose proof (build_model_OK _ _ _ _ _ _ _ _ _ Hbuild) as ->.
    destruct (BCNN_init_run p_conv last_layer weights n_classes w w1
                pre l post Hsplit Hpre Hpost Hkeys Hbuild) as (l0 & _ & Hrun).
    rewrite Hrun.
    destruct weights as [f|]; [|exact (bcnn_model_net pre last_layer l n_classes l0)].
    destruct (load_weights (bcnn_logreg l n_classes) f w1)
      as [[[] w2]|e] eqn:Hload;
      [exact (bcnn_model_net pre last_layer l n_classes l0)|].
    right. exists f, w1. auto.
  - rewrite (BCNN_init_build_Raise _ _ _ _ _ _ Hbuild). now left.
Qed.

(** ** weights2pickle *)

(** C8.  [weights2pickle] fails with an assertion error for every name
    other than ['bcnn1'] and ['bcnn2'].  For one of these names, once the
    BCNN is constructed, it fails with an assertion error for every
    [output_layer] that is no key of the model's network; and for a key it
    cuts the network after [output_layer], which becomes the last key,
    pickles the model to ['<name>_<hash>_<output_layer>.pkl'] and reports
    the file name. *)
Theorem weights2pickle_spec name output_layer w :
  (name <> "bcnn1" -> name <> "bcnn2" ->
   weights2pickle name output_layer w
   = Raise (AssertionError "Model name is invalid."))
  /\ (name = "bcnn1" \/ name = "bcnn2" ->
      forall model w1,
        BCNN_init (1 # 5) "17" (Some (bcnn_weights_file name)) 2 w
        = OK (model, w1) ->
        (~ In output_layer (OD.keys (net model)) ->
         weights2pickle name output_layer w
         = Raise (AssertionError
                    ("Invalid output_layer " ++ output_layer)%string))
        /\ (In output_layer (OD.keys (net model)) ->
            exists network post,
              net model = network ++ post
              /\ ~ In output_layer (OD.keys post)
              /\ last_item (OD.keys network) = OK output_layer
              /\ weights2pickle name output_layer w
                 = OK (tt,
                       print ("Saved model to "
                              ++ bcnn_outfile name output_layer)%string
                         (write_file (bcnn_outfile name output_layer)
                            (PklFile (PyModel (set_net network model)
                                        (params w1)))
                            w1)))).
Proof.
  split.
  - intros H1 H2. unfold weights2pickle.
    replace (mem name ["bcnn1"; "bcnn2"]) with false; [reflexivity|].
    symmetry. apply mem_not_In. simpl. intuition congruence.
  - intros Hname model w1 Hinit.
    assert (Hpre :
              weights2pickle name output_layer w
              = (if negb (mem output_layer (OD.keys (net model))) then
                   raise (AssertionError
                            ("Invalid output_layer " ++ output_layer)%string)
                 else
                   network <- lift (remove_after (net model) output_layer);;
                   let model := set_net network model in
                   k <- lift (last_item (OD.keys (net model)));;
                   if negb (String.eqb k output_layer)
                   then raise (AssertionError "")
                   else
                     save_model model (bcnn_outfile name output_layer);;;
                     fun w =>
                       OK (tt, print ("Saved model to "
                                      ++ bcnn_outfile name output_layer)%string
                                 w))%io w1).
    { destruct Hname as [-> | ->]; unfold weights2pickle;
        cbn [mem existsb String.eqb Ascii.eqb Bool.eqb orb negb];
        change (contains "bcnn1" "bcnn1") with true;
        change (contains "bcnn1" "bcnn2") with false;
        change (contains "bcnn2" "bcnn2") with true;
        cbv iota; unfold bind at 1; unfold ret at 1; cbv beta iota;
        unfold bind at 1;
        change "models/weights_bcnn1_392bea6.npz"
          with (bcnn_weights_file "bcnn1");
        change "models/weights_bcnn2_b69aadd.npz"
          with (bcnn_weights_file "bcnn2");
        rewrite Hinit; reflexivity. }
    split.
    + intros Hn. rewrite Hpre.
      apply mem_not_In in Hn. rewrite Hn. reflexivity.
    + intros Hin. rewrite Hpre.
      destruct (split_last_key _ _ Hin) as (pre & v & post & Heq & Hpost).
      exists (pre ++ [(output_layer, v)]), post.
      assert (Hlast : last_item (OD.keys (pre ++ [(output_layer, v)]))
                      = OK output_layer).
      { rewrite keys_app. apply last_item_snoc. }
      split; [rewrite Heq, <- app_assoc; reflexivity|].
      split; [exact Hpost|]. split; [exact Hlast|].
      apply mem_In in Hin. rewrite Hin. cbn [negb].
      run_lift (remove_after_found _ _ _ _ _ Heq Hpost).
      cbn [net set_net]. run_lift Hlast.
      rewrite String.eqb_refl. cbn [negb].
      reflexivity.
Qed.

(** In the sample world [BCNN()] with the default [last_layer='13'] keeps
    23 layers and adds its three. *)
Example BCNN_init_13_keys :
  match BCNN_init (1 # 5) "13" None 2 Sample.world0 with
  | OK (model, _) =>
      OD.keys (net model)
      = ["0"; "1"; "1d"; "2"; "3"; "3d"; "4"; "4d"; "5"; "6"; "6d"; "7";
         "7d"; "8"; "9"; "9d"; "10"; "10d"; "11"; "11d"; "12"; "12d"; "13";
         "global_pool"; "softmax_input"; "logreg"]
  | Raise _ => False
  end.
Proof. vm_compute. reflexivity. Qed.

(** C2 at [last_layer = '13'] in the sample world. *)
Lemma BCNN_init_network_witness :
  In "13" jfnet_keys
  /\ exists pre l post,
       jfnet_layers 512 512 5 None (1 # 5) = pre ++ ("13", l) :: post
       /\ jfnet_keys = OD.keys pre ++ "13" :: OD.keys post
       /\ match BCNN_init (1 # 5) "13" None 2 Sample.world0 with
          | OK (model, _) =>
              net model = pre ++ ("13", l) :: bcnn_head l 2
              /\ OD.keys (net model)
                 = OD.keys pre
                   ++ ["13"; "global_pool"; "softmax_input"; "logreg"]
              /\ get_output_layer model = OK (bcnn_logreg l 2)
          | Raise e =>
              build_model 512 512 (Some ORIGINAL_WEIGHTS) 5 None (1 # 5)
                Sample.world0 = Raise e
              \/ exists f w1,
                   None = Some f
                   /\ build_model 512 512 (Some ORIGINAL_WEIGHTS) 5 None
                        (1 # 5) Sample.world0
                      = OK (jfnet_layers 512 512 5 None (1 # 5), w1)
                   /\ load_weights (bcnn_logreg l 2) f w1 = Raise e
          end.
Proof.
  split; [in_list|].
  apply (BCNN_init_network (1 # 5) "13" None 2 Sample.world0). in_list.
Defined.

(** In the sample world [weights2pickle('bcnn1', 'global_pool')] writes
    the model cut after ['global_pool']. *)
Example weights2pickle_global_pool :
  match weights2pickle "bcnn1" "global_pool" Sample.world0 with
  | OK (_, w') =>
      stdout w' = ["Saved model to bcnn1_392bea6_global_pool.pkl"]
      /\ match files w' "bcnn1_392bea6_global_pool.pkl" with
         | Some (PklFile (PyModel model _)) =>
             last_item (OD.keys (net model)) = OK "global_pool"
             /\ length (net model) = 31%nat
         | _ => False
         end
  | Raise _ => False
  end.
Proof. vm_compute. repeat split. Qed.

(** C8 in the sample world: the name ['bcnn3'] and the layer ['17d'], which
    is no key of the BCNN cut at ['17'], fail; ['17'] is written. *)
Lemma weights2pickle_spec_witness :
  weights2pickle "bcnn3" "logreg" Sample.world0
  = Raise (AssertionError "Model name is invalid.")
  /\ exists model w1,
       BCNN_init (1 # 5) "17" (Some (bcnn_weights_file "bcnn1")) 2
         Sample.world0 = OK (model, w1)
       /\ weights2pickle "bcnn1" "17d" Sample.world0
          = Raise (AssertionError "Invalid output_layer 17d")
       /\ exists network post,
            net model = network ++ post
            /\ ~ In "17" (OD.keys post)
            /\ last_item (OD.keys network) = OK "17"
            /\ weights2pickle "bcnn1" "17" Sample.world0
               = OK (tt,
                     print "Saved model to bcnn1_392bea6_17.pkl"
                       (write_file "bcnn1_392bea6_17.pkl"
                          (PklFile (PyModel (set_net network model)
                                      (params w1)))
                          w1)).
Proof.
  destruct (weights2pickle_spec "bcnn3" "logreg" Sample.world0) as [H3 _].
  split; [apply H3; discriminate|].
  assert (Hkeys :
            match BCNN_init (1 # 5) "17" (Some (bcnn_weights_file "bcnn1")) 2
                    Sample.world0 with
            | OK (model, _) =>
                mem "17d" (OD.keys (net model)) = false
                /\ mem "17" (OD.keys (net model)) = true
            | Raise _ => False
            end) by (vm_compute; split; reflexivity).
  destruct (BCNN_init (1 # 5) "17" (Some (bcnn_weights_file "bcnn1")) 2
              Sample.world0) as [[model w1]|e] eqn:Hinit; [|contradiction].
  destruct Hkeys as [H17d H17].
  exists model, w1. split; [reflexivity|].
  destruct (weights2pickle_spec "bcnn1" "17d" Sample.world0) as [_ Hd].
  destruct (Hd (or_introl eq_refl) model w1 Hinit) as [Hd1 _].
  split; [apply Hd1; now apply mem_not_In|].
  destruct (weights2pickle_spec "bcnn1" "17" Sample.world0) as [_ Hk].
  destruct (Hk (or_introl eq_refl) model w1 Hinit) as [_ Hk2].
  apply Hk2. now apply mem_In.
Defined.

(** ** Names of archive entries *)

Lemma str_of_nat_inj (i j : nat) : str_of_nat i = str_of_nat j -> i = j.
Proof.
  unfold str_of_nat. intros H.
  apply (f_equal NilEmpty.uint_of_string) in H.
  rewrite !NilEmpty.usu in H. injection H as H.
  apply (f_equal Nat.of_uint) in H. now rewrite !Unsigned.of_to in H.
Qed.

Lemma arr_name_inj (i j : nat) : arr_name i = arr_name j -> i = j.
Proof.
  unfold arr_name. simpl. intros H. injection H as H.
  now apply str_of_nat_inj.
Qed.

(** Entry [k + i] of the archive [np.savez] writes is the array at
    position [i]. *)
Lemma get_name_arrays (arrays : list ndarray) :
  forall k i v,
    nth_error arrays i = Some v ->
    OD.get (arr_name (k + i)) (name_arrays k arrays) = OK v.
Proof.
  induction arrays as [|a arrays IH]; intros k i v Hi.
  - destruct i; discriminate.
  - destruct i as [|i]; cbn [nth_error] in Hi; cbn [name_arrays OD.get].
    + injection Hi as ->. now rewrite Nat.add_0_r, String.eqb_refl.
    + destruct (String.eqb_spec (arr_name (k + S i)) (arr_name k)) as [He|_].
      * apply arr_name_inj in He. lia.
      * rewrite <- Nat.add_succ_comm. now apply IH.
Qed.

Lemma length_name_arrays (arrays : list ndarray) (k : nat) :
  length (OD.keys (name_arrays k arrays)) = length arrays.
Proof.
  revert k. induction arrays as [|a arrays IH]; intros k; simpl;
    [reflexivity | now rewrite IH].
Qed.

Lemma comprehension_seq {B} (f : nat -> result B) (values : list B) :
  forall k,
    (forall i v, nth_error values i = Some v -> f (k + i)%nat = OK v) ->
    comprehension f (seq k (length values)) = OK values.
Proof.
  induction values as [|a values IH]; intros k Hf; [reflexivity|].
  simpl. rewrite <- (Nat.add_0_r k) at 1. rewrite (Hf 0%nat a eq_refl).
  simpl. rewrite (IH (S k)); [reflexivity|].
  intros i v Hi. rewrite Nat.add_succ_comm. now apply Hf.
Qed.

Lemma get_Raise {V} (k : string) (d : OD.t V) (e : exn) :
  OD.get k d = Raise e -> e = KeyError k.
Proof.
  induction d as [|[k' v] d IH]; simpl.
  - intros H; now injection H.
  - destruct (String.eqb k k'); [discriminate | exact IH].
Qed.

Lemma comprehension_get_Raise {V} (d : OD.t V) (name : nat -> string)
  (l : list nat) (e : exn) :
  comprehension (fun i => OD.get (name i) d) l = Raise e ->
  exists k, e = KeyError k.
Proof.
  induction l as [|i l IH]; simpl; [discriminate|].
  destruct (OD.get (name i) d) as [v|e'] eqn:Hg; simpl.
  - destruct (comprehension (fun i => OD.get (name i) d) l); simpl;
      [discriminate|].
    intros H. injection H as <-. now apply IH.
  - intros H. injection H as <-. exists (name i).
    exact (get_Raise _ _ _ Hg).
Qed.

(** ** File name endings *)

Lemma endswith_pkl_not_npz (s : string) :
  endswith s ".pkl" = true -> endswith s ".npz" = false.
Proof.
  unfold endswith. cbn [String.length]. intros H.
  apply andb_true_iff in H. destruct H as [_ H].
  apply String.eqb_eq in H. rewrite H.
  apply andb_false_iff. right. reflexivity.
Qed.

(** ** Setting parameter values *)

Lemma unique_from_spec {A} (eq_dec : forall x y : A, {x = y} + {x <> y})
  (l : list A) :
  forall seen,
    NoDup (unique_from eq_dec seen l)
    /\ forall x, In x (unique_from eq_dec seen l) -> ~ In x seen.
Proof.
  induction l as [|a l IH]; intros seen; simpl.
  - split; [constructor | intros x []].
  - destruct (in_dec eq_dec a seen) as [Hin|Hn]; [apply IH|].
    destruct (IH (a :: seen)) as [Hnd Hseen]. split.
    + constructor; [|exact Hnd].
      intros Ha. apply (Hseen a Ha). now left.
    + intros x [<-|Hx]; [exact Hn|].
      intros Hs. apply (Hseen x Hx). now right.
Qed.

Lemma get_all_params_NoDup (l : layer) : NoDup (get_all_params l).
Proof. unfold get_all_params, unique. apply unique_from_spec. Qed.

Lemma Forall2_In_impl {A B} (P Q : A -> B -> Prop) (l1 : list A)
  (l2 : list B) :
  Forall2 P l1 l2 ->
  (forall x y, In x l1 -> P x y -> Q x y) ->
  Forall2 Q l1 l2.
Proof.
  induction 1 as [|x y l1 l2 Hxy _ IH]; intros Himp; constructor.
  - apply Himp; [now left | assumption].
  - apply IH. intros x' y' Hin. apply Himp. now right.
Qed.

(** With one value of the right shape for every parameter, the loop sets
    them all and touches nothing else. *)
Lemma set_values_spec (ps : list param) :
  forall vs w,
    NoDup ps ->
    Forall2 (fun p v => shape (params w p) = shape v) ps vs ->
    exists w',
      set_values ps vs w = OK (tt, w')
      /\ files w' = files w
      /\ stdout w' = stdout w
      /\ map (params w') ps = vs
      /\ forall q, ~ In q ps -> params w' q = params w q.
Proof.
  induction ps as [|p ps IH]; intros vs w Hnd Hsh.
  - inversion Hsh; subst. exists w. simpl. unfold ret. auto.
  - inversion Hsh as [|p' v ps' vs' Hpv Hrest]; subst.
    inversion Hnd as [|p' ps' Hp Hnd']; subst.
    simpl. destruct (list_eq_dec Nat.eq_dec (shape (params w p)) (shape v))
      as [_|Hne]; [|contradiction].
    set (w1 := set_params (pstore_set (params w) p v) w).
    assert (Hother : forall q, q <> p -> params w1 q = params w q).
    { intros q Hq. unfold w1, set_params, pstore_set. simpl.
      destruct (param_eq_dec q p); [contradiction | reflexivity]. }
    destruct (IH vs' w1 Hnd') as (w' & Hset & Hf & Hs & Hmap & Hq).
    { apply (Forall2_In_impl _ _ _ _ Hrest). intros q y Hin Hy.
      rewrite Hother; [exact Hy|]. intros ->. contradiction. }
    exists w'. split; [exact Hset|]. split; [now rewrite Hf|].
    split; [now rewrite Hs|]. split.
    + simpl. rewrite Hmap. f_equal. rewrite (Hq p Hp).
      unfold w1, set_params, pstore_set. simpl.
      destruct (param_eq_dec p p); [reflexivity | contradiction].
    + intros q Hn. rewrite Hq; [|intros Hin; apply Hn; now right].
      apply Hother. intros ->. apply Hn. now left.
Qed.

Lemma set_all_param_values_spec (l : layer) (values : list ndarray)
  (w : world) :
  Forall2 (fun p v => shape (params w p) = shape v) (get_all_params l) values ->
  exists w',
    set_all_param_values l values w = OK (tt, w')
    /\ files w' = files w
    /\ stdout w' = stdout w
    /\ map (params w') (get_all_params l) = values
    /\ forall q, ~ In q (get_all_params l) -> params w' q = params w q.
Proof.
  intros Hsh. unfold set_all_param_values.
  rewrite (Forall2_length Hsh), Nat.eqb_refl.
  apply set_values_spec; [apply get_all_params_NoDup | exact Hsh].
Qed.

Lemma set_values_Raise (ps : list param) :
  forall vs w e, set_values ps vs w = Raise e -> e = ValueError.
Proof.
  induction ps as [|p ps IH]; intros vs w e; simpl; [discriminate|].
  destruct vs as [|v vs]; [discriminate|].
  destruct (list_eq_dec Nat.eq_dec (shape (params w p)) (shape v)).
  - apply IH.
  - intros H. now injection H.
Qed.

Lemma set_all_param_values_Raise (l : layer) (values : list ndarray)
  (w : world) (e : exn) :
  set_all_param_values l values w = Raise e -> e = ValueError.
Proof.
  unfold set_all_param_values.
  destruct (Nat.eqb (length (get_all_params l)) (length values)).
  - apply set_values_Raise.
  - intros H. now injection H.
Qed.

Lemma same_shapes_as (sigma sigma' : pstore) (ps : list param) :
  Forall (fun p => shape (sigma' p) = shape (sigma p)) ps ->
  Forall2 (fun p v => shape (sigma' p) = shape v) ps (map sigma ps).
Proof. induction 1; simpl; constructor; auto. Qed.

(** ** load_weights and save_weights *)

Lemma load_weights_npz (l : layer) (filename : string) (w : world)
  (archive : list (string * ndarray)) (values : list ndarray) :
  endswith filename ".npz" = true ->
  files w filename = Some (NpzFile archive) ->
  length values = length archive ->
  (forall i v, nth_error values i = Some v ->
               OD.get (arr_name i) archive = OK v) ->
  load_weights l filename w = set_all_param_values l values w.
Proof.
  intros Hend Hfile Hlen Hget. unfold load_weights. rewrite Hend.
  unfold bind at 1. unfold np_load. rewrite Hfile. cbv beta iota.
  unfold bind at 1. cbn [lift enter]. cbv beta iota.
  unfold OD.keys. rewrite length_map, <- Hlen.
  run_lift (comprehension_seq (fun i => OD.get (arr_name i) archive) values
              0 Hget).
  reflexivity.
Qed.

Lemma load_weights_pkl (l : layer) (filename : string) (w : world)
  (d : list (string * pyobj)) (values : list ndarray) :
  endswith filename ".pkl" = true ->
  files w filename = Some (PklFile (PyDict d)) ->
  OD.get "param values" d = OK (PyArrays values) ->
  load_weights l filename w = set_all_param_values l values w.
Proof.
  intros Hend Hfile Hget. unfold load_weights.
  rewrite (endswith_pkl_not_npz _ Hend), Hend.
  unfold bind at 1. unfold pickle_load. rewrite Hfile. cbv beta iota.
  cbn [getitem]. run_lift Hget. cbn [as_arrays].
  unfold bind at 1. cbn [lift]. reflexivity.
Qed.

Lemma load_weights_not_NotImplemented (l : layer) (filename : string)
  (w : world) (msg : string) :
  load_weights l filename w = Raise (NotImplementedError msg) ->
  endswith filename ".npz" = false /\ endswith filename ".pkl" = false.
Proof.
  unfold load_weights.
  destruct (endswith filename ".npz") eqn:Hnpz.
  - intros H. exfalso.
    apply bind_Raise in H. destruct H as [H|(f & w1 & _ & H)].
    { unfold np_load in H. destruct (files w filename) as [[|]|];
        discriminate. }
    apply bind_Raise in H. destruct H as [H|(f' & w1' & _ & H)].
    { apply lift_Raise in H. destruct f; discriminate H. }
    apply bind_Raise in H. destruct H as [H|(vs & w2 & _ & H)].
    { apply lift_Raise, comprehension_get_Raise in H.
      destruct H as [k H]. discriminate. }
    apply set_all_param_values_Raise in H. discriminate.
  - destruct (endswith filename ".pkl") eqn:Hpkl; [|auto].
    intros H. exfalso.
    apply bind_Raise in H. destruct H as [H|(o & w1 & _ & H)].
    { unfold pickle_load in H. destruct (files w filename) as [[|]|];
        discriminate. }
    apply bind_Raise in H. destruct H as [H|(o' & w2 & _ & H)].
    { apply lift_Raise in H. destruct o; simpl in H; try discriminate.
      apply get_Raise in H. discriminate. }
    apply bind_Raise in H. destruct H as [H|(vs & w3 & _ & H)].
    { apply lift_Raise in H. destruct o'; discriminate. }
    apply set_all_param_values_Raise in H. discriminate.
Qed.

(** C5.  [load_weights] raises [NotImplementedError] exactly for a file
    name that ends with neither ['.npz'] nor ['.pkl'].  For ['.npz'] it
    reads the entries ['arr_0'], ..., ['arr_{n-1}'] of the archive in this
    order, [n] being the number of entries, and sets the parameters of the
    layer to them; for ['.pkl'] it sets them to the entry ['param values']
    of the pickled dict.  Setting succeeds when there is one value of the
    right shape for every parameter, and then these are the values of all
    the parameters. *)
Theorem load_weights_spec (l : layer) (filename : string) (w : world) :
  ((exists msg, load_weights l filename w = Raise (NotImplementedError msg))
   <-> endswith filename ".npz" = false /\ endswith filename ".pkl" = false)
  /\ (endswith filename ".npz" = true ->
      forall archive values,
        files w filename = Some (NpzFile archive) ->
        length values = length archive ->
        (forall i v, nth_error values i = Some v ->
                     OD.get (arr_name i) archive = OK v) ->
        load_weights l filename w = set_all_param_values l values w)
  /\ (endswith filename ".pkl" = true ->
      forall d values,
        files w filename = Some (PklFile (PyDict d)) ->
        OD.get "param values" d = OK (PyArrays values) ->
        load_weights l filename w = set_all_param_values l values w)
  /\ (forall values,
        Forall2 (fun p v => shape (params w p) = shape v)
          (get_all_params l) values ->
        exists w',
          set_all_param_values l values w = OK (tt, w')
          /\ map (params w') (get_all_params l) = values
          /\ files w' = files w).
Proof.
  split; [split|split; [|split]].
  - intros [msg H]. exact (load_weights_not_NotImplemented _ _ _ _ H).
  - intros [Hnpz Hpkl]. unfold load_weights. rewrite Hnpz, Hpkl.
    eexists. reflexivity.
  - intros Hend archive values. now apply load_weights_npz.
  - intros Hend d values. now apply load_weights_pkl.
  - intros values Hsh.
    destruct (set_all_param_values_spec l values w Hsh)
      as (w' & H & Hf & _ & Hm & _).
    exists w'. auto.
Qed.

Lemma save_weights_npz (l : layer) (filename : string) (w : world) :
  endswith filename ".npz" = true ->
  save_weights l filename w
  = OK (tt, write_file filename
              (NpzFile (name_arrays 0 (map (params w) (get_all_params l))))
              w).
Proof.
  intros Hend. unfold save_weights. rewrite Hend.
  unfold bind, get_all_param_values, np_savez_compressed.
  now rewrite Hend.
Qed.

Lemma files_write_same (filename : string) (f : file) (w : world) :
  files (write_file filename f w) filename = Some f.
Proof. simpl. now rewrite String.eqb_refl. Qed.

(** Loading what [save_weights] wrote, into parameters of the shapes that
    were saved. *)
Lemma load_saved_weights (l : layer) (filename : string) (w w' : world) :
  endswith filename ".npz" = true ->
  files w' filename
  = Some (NpzFile (name_arrays 0 (map (params w) (get_all_params l)))) ->
  Forall (fun p => shape (params w' p) = shape (params w p))
    (get_all_params l) ->
  exists w2,
    load_weights l filename w' = OK (tt, w2)
    /\ map (params w2) (get_all_params l)
       = map (params w) (get_all_params l)
    /\ forall q, ~ In q (get_all_params l) -> params w2 q = params w' q.
Proof.
  intros Hend Hfile Hsh.
  rewrite (load_weights_npz l filename w' _
             (map (params w) (get_all_params l)) Hend Hfile).
  - destruct (set_all_param_values_spec l
                (map (params w) (get_all_params l)) w')
      as (w2 & H & _ & _ & Hm & Hq).
    + apply same_shapes_as, Hsh.
    + exists w2. auto.
  - unfold OD.keys. rewrite <- (length_name_arrays _ 0).
    unfold OD.keys. now rewrite !length_map.
  - intros i v. apply (get_name_arrays _ 0 i v).
Qed.

(** C3.  For a file name ending in ['.npz'], [save_weights] succeeds, and
    [load_weights] of the same file on the same layer succeeds and leaves
    every parameter with the value that was saved.  The same holds after
    the parameters were changed in between, as long as the file and the
    shapes of the parameters are the same: the list of parameter arrays
    is the saved one again. *)
Theorem save_load_weights_roundtrip (l : layer) (filename : string)
  (w : world) :
  endswith filename ".npz" = true ->
  exists w1,
    save_weights l filename w = OK (tt, w1)
    /\ (exists w2,
          load_weights l filename w1 = OK (tt, w2)
          /\ (forall p, params w2 p = params w p)
          /\ get_all_param_values l w2
             = OK (map (params w) (get_all_params l), w2))
    /\ (forall w',
          files w' filename = files w1 filename ->
          Forall (fun p => shape (params w' p) = shape (params w p))
            (get_all_params l) ->
          exists w2,
            load_weights l filename w' = OK (tt, w2)
            /\ get_all_param_values l w2
               = OK (map (params w) (get_all_params l), w2)).
Proof.
  intros Hend. eexists. split; [apply (save_weights_npz _ _ _ Hend)|].
  set (w1 := write_file filename _ w).
  assert (Hfile : files w1 filename
                  = Some (NpzFile (name_arrays 0
                                     (map (params w) (get_all_params l)))))
    by apply files_write_same.
  split.
  - destruct (load_saved_weights l filename w w1 Hend Hfile)
      as (w2 & Hload & Hm & Hq).
    { apply Forall_forall. reflexivity. }
    exists w2. split; [exact Hload|]. split.
    + intros p. destruct (in_dec param_eq_dec p (get_all_params l))
        as [Hin|Hn].
      * exact (ext_in_map Hm p Hin).
      * rewrite (Hq p Hn). reflexivity.
    + unfold get_all_param_values. now rewrite Hm.
  - intros w' Hf Hsh. rewrite Hfile in Hf.
    destruct (load_saved_weights l filename w w' Hend Hf Hsh)
      as (w2 & Hload & Hm & _).
    exists w2. split; [exact Hload|].
    unfold get_all_param_values. now rewrite Hm.
Qed.

(** C4, as the code has it.  [save_weights] writes one format only: for a
    file name ending in ['.npz'] it writes the parameter values of the
    layer to that file, as the entries ['arr_0'], ['arr_1'], ... of an
    archive, without raising; for a file name ending in ['.pkl'] it raises
    [NotImplementedError]. *)
Theorem save_weights_npz_only (l : layer) (filename : string) (w : world) :
  (endswith filename ".npz" = true ->
   save_weights l filename w
   = OK (tt, write_file filename
               (NpzFile (name_arrays 0 (map (params w) (get_all_params l))))
               w))
  /\ (endswith filename ".pkl" = true ->
      save_weights l filename w
      = Raise (NotImplementedError
                 ("Format indicated by ending of " ++ filename
                  ++ " notimplemented")%string)).
Proof.
  split; [apply save_weights_npz|].
  intros Hend. unfold save_weights.
  now rewrite (endswith_pkl_not_npz _ Hend).
Qed.

(** ** Monte-Carlo sampling *)

Lemma setitem_last_exact (a v : ndarray) (n m T t : nat) :
  shape a = [n; m; T] ->
  shape v = [n; m] ->
  exists a',
    setitem_last a t v = OK a'
    /\ shape a' = [n; m; T]
    /\ (forall i j, (i < n)%nat -> (j < m)%nat ->
                    at_ a' [i; j; t] = at_ v [i; j])
    /\ (forall i j t', t' <> t -> at_ a' [i; j; t'] = at_ a [i; j; t']).
Proof.
  intros Ha Hv. unfold setitem_last, broadcast_to.
  rewrite Ha, Hv. cbn [removelast length Nat.sub strip_leading skipn forallb2].
  rewrite !Nat.eqb_refl, !orb_true_r. cbn [andb rbind].
  eexists. split; [reflexivity|]. split; [reflexivity|]. split.
  - intros i j Hi Hj. cbn [at_ length last removelast Nat.eqb].
    rewrite Nat.eqb_refl. cbn [andb repeat app zip_with].
    destruct (Nat.eqb_spec n 1) as [->|_], (Nat.eqb_spec m 1) as [->|_];
      repeat f_equal; lia.
  - intros i j t' Ht. cbn [at_ length last removelast Nat.eqb].
    destruct (Nat.eqb_spec t' t) as [->|_]; [contradiction | reflexivity].
Qed.

Section McSamples.

Variable rng : Type.
Variable theano_call :
  compiled -> pstore -> list ndarray -> rng -> result (ndarray * rng).

Lemma mc_loop_seq (c : compiled) (xs : list ndarray) (sigma : pstore)
  (n m T : nat) :
  (forall r0, exists v r1,
      theano_call c sigma xs r0 = OK (v, r1) /\ shape v = [n; m]) ->
  forall k a mc r,
    shape mc = [n; m; T] ->
    exists mc' r' vs,
      mc_loop rng theano_call c xs sigma (seq a k) mc r = OK (mc', r')
      /\ stoch_passes rng theano_call c sigma xs k r = OK (vs, r')
      /\ shape mc' = [n; m; T]
      /\ (forall i j t, (i < n)%nat -> (j < m)%nat ->
                        (a <= t < a + k)%nat ->
                        at_ mc' [i; j; t]
                        = at_ (nth (t - a) vs (zeros [])) [i; j])
      /\ (forall i j t, (t < a)%nat -> at_ mc' [i; j; t] = at_ mc [i; j; t]).
Proof.
  intros Hcall. induction k as [|k IH]; intros a mc r Hmc.
  - exists mc, r, []. simpl. repeat split; auto. intros; lia.
  - destruct (Hcall r) as (v & r1 & Hc & Hv).
    destruct (setitem_last_exact mc v n m T a Hmc Hv)
      as (mc1 & Hset & Hmc1 & Hnew & Hold).
    destruct (IH (S a) mc1 r1 Hmc1) as (mc' & r' & vs & Hl & Hp & Hs & Hin & Hout).
    exists mc', r', (v :: vs).
    cbn [seq mc_loop stoch_passes]. rewrite Hc. cbn [rbind fst snd].
    rewrite Hset. cbn [rbind]. rewrite Hl, Hp. cbn [rbind fst snd].
    split; [reflexivity|]. split; [reflexivity|]. split; [exact Hs|]. split.
    + intros i j t Hi Hj Ht. destruct (Nat.eq_dec t a) as [->|Hne].
      * rewrite Hout by lia. rewrite Nat.sub_diag. cbn [nth]. now apply Hnew.
      * rewrite (Hin i j t Hi Hj) by lia.
        replace (t - a)%nat with (S (t - S a)) by lia. reflexivity.
    + intros i j t Ht. rewrite Hout by lia. apply Hold. lia.
Qed.

Lemma pop_keeps_other {V} (k : string) (default : V) (d : OD.t V) :
  In k (OD.keys d) -> k <> "T" ->
  snd (OD.pop "T" default d) <> [].
Proof.
  induction d as [|[k' v] d IH]; [contradiction|].
  cbn [OD.pop OD.keys map fst In].
  intros Hin Hk. destruct (String.eqb_spec "T" k') as [<-|Hne].
  - destruct Hin as [Heq|Hin]; [congruence|].
    cbn [snd]. destruct d; [contradiction | discriminate].
  - destruct (OD.pop "T" default d). cbn [snd]. discriminate.
Qed.

(** C10, as the code has it.  A keyword argument other than ['T'] makes
    [Model.mc_samples] raise the [TypeError] on unexpected keyword
    arguments, before anything else is done. *)
Theorem mc_samples_unexpected_kwargs (self : Model) (xs : list ndarray)
  (kwargs : OD.t pyval) (sigma : pstore) (r : rng) (k : string) :
  In k (OD.keys kwargs) ->
  k <> "T" ->
  mc_samples rng theano_call self xs kwargs sigma r
  = Raise (TypeError
             (UnexpectedKwargs (snd (OD.pop "T" (PInt 100) kwargs)))).
Proof.
  intros Hin Hk. unfold mc_samples.
  pose proof (pop_keeps_other k (PInt 100) kwargs Hin Hk) as Hne.
  destruct (OD.pop "T" (PInt 100) kwargs) as [T rest]. cbn [snd] in *.
  destruct rest; [contradiction | reflexivity].
Qed.

(** C6, as the code has it.  Take a model with a non-empty layer dict
    whose last layer has the output shape [(_, n_out, ...)], inputs whose
    first element has length [n], and a positive [T] (100 when it is not
    given).  If every stochastic forward pass returns an array of shape
    [(n, n_out)], then [mc_samples] returns an array of shape
    [(n, n_out, T)] whose slice [[:, :, t]] is the output of pass [t] of
    the function compiled with [deterministic=False]. *)
Theorem mc_samples_shape (self : Model) (xs : list ndarray)
  (kwargs : OD.t pyval) (T : nat) (sigma : pstore) (r : rng)
  (x0 : ndarray) (n n_out : nat) (out : layer) :
  (kwargs = [] /\ T = 100%nat) \/ kwargs = [("T", PInt (Z.of_nat T))] ->
  (0 < T)%nat ->
  last_item (OD.values (net self)) = OK out ->
  nth_error (output_shape out) 1 = Some (Some (Z.of_nat n_out)) ->
  nth_error xs 0 = Some x0 ->
  len x0 = OK n ->
  _predict_stoch self = None
  \/ _predict_stoch self
     = Some (mk_compiled (OD.values (inputs self)) out false) ->
  (forall r0, exists v r1,
      theano_call (mk_compiled (OD.values (inputs self)) out false)
        sigma xs r0 = OK (v, r1)
      /\ shape v = [n; n_out]) ->
  exists mc self' r' vs,
    mc_samples rng theano_call self xs kwargs sigma r = OK (mc, self', r')
    /\ shape mc = [n; n_out; T]
    /\ net self' = net self
    /\ _predict_stoch self'
       = Some (mk_compiled (OD.values (inputs self)) out false)
    /\ stoch_passes rng theano_call
         (mk_compiled (OD.values (inputs self)) out false) sigma xs T r
       = OK (vs, r')
    /\ forall t i j, (t < T)%nat -> (i < n)%nat -> (j < n_out)%nat ->
                     at_ mc [i; j; t] = at_ (nth t vs (zeros [])) [i; j].
Proof.
  intros Hkw HT Hout Hshape Hx0 Hlen Hcache Hcall.
  set (c := mk_compiled (OD.values (inputs self)) out false) in *.
  assert (Hpop : OD.pop "T" (PInt 100) kwargs = (PInt (Z.of_nat T), [])).
  { destruct Hkw as [[-> ->]| ->]; reflexivity. }
  destruct (mc_loop_seq c xs sigma n n_out T Hcall T 0%nat
              (zeros [n; n_out; T]) r eq_refl)
    as (mc & r' & vs & Hloop & Hpass & Hsh & Hin & _).
  exists mc.
  exists (match _predict_stoch self with
          | None => set_predict_stoch c self
          | Some _ => self
          end).
  exists r', vs.
  assert (Hrun :
            mc_samples rng theano_call self xs kwargs sigma r
            = OK (mc, match _predict_stoch self with
                      | None => set_predict_stoch c self
                      | Some _ => self
                      end, r')).
  { unfold mc_samples. rewrite Hpop.
    assert (Hself :
              (match _predict_stoch self with
               | None =>
                   c0 <- theano_function self false;;
                   OK (set_predict_stoch c0 self)
               | Some _ => OK self
               end)%result
              = OK (match _predict_stoch self with
                    | None => set_predict_stoch c self
                    | Some _ => self
                    end)).
    { destruct (_predict_stoch self); [reflexivity|].
      unfold theano_function. rewrite Hout. reflexivity. }
    rewrite Hself. cbn [rbind].
    assert (Hnet : net (match _predict_stoch self with
                        | None => set_predict_stoch c self
                        | Some _ => self
                        end) = net self)
      by (destruct (_predict_stoch self); reflexivity).
    assert (Hps : _predict_stoch (match _predict_stoch self with
                                  | None => set_predict_stoch c self
                                  | Some _ => self
                                  end) = Some c).
    { destruct Hcache as [Hc|Hc]; rewrite Hc; [reflexivity | exact Hc]. }
    unfold item. rewrite Hx0. cbn [rbind]. rewrite Hlen. cbn [rbind].
    rewrite Hnet, Hout. cbn [rbind]. rewrite Hshape. cbn [rbind].
    unfold np_zeros. cbn [comprehension as_dim].
    assert (Hneg : forall k, (Z.of_nat k <? 0)%Z = false)
      by (intros k; apply Z.ltb_ge; lia).
    rewrite !Hneg. cbn [rbind]. rewrite !Nat2Z.id.
    cbn [range]. rewrite Nat2Z.id. rewrite Hps.
    cbn [rbind]. rewrite Hloop. reflexivity. }
  split; [exact Hrun|]. split; [exact Hsh|].
  split; [destruct (_predict_stoch self); reflexivity|].
  split.
  { destruct Hcache as [Hc|Hc]; rewrite Hc; [reflexivity | exact Hc]. }
  split; [exact Hpass|].
  intros t i j Ht Hi Hj. rewrite (Hin i j t Hi Hj) by lia.
  now rewrite Nat.sub_0_r.
Qed.

End McSamples.

(** C3 for the dense layer of the toy network and the file
    ['weights.npz']. *)
Lemma save_load_weights_roundtrip_witness :
  endswith "weights.npz" ".npz" = true
  /\ exists w1,
       save_weights Toy.dense "weights.npz" Toy.world1 = OK (tt, w1)
       /\ (exists w2,
             load_weights Toy.dense "weights.npz" w1 = OK (tt, w2)
             /\ (forall p, params w2 p = params Toy.world1 p)
             /\ get_all_param_values Toy.dense w2
                = OK (map (params Toy.world1)
                        (get_all_params Toy.dense), w2))
       /\ (forall w',
             files w' "weights.npz" = files w1 "weights.npz" ->
             Forall (fun p => shape (params w' p)
                              = shape (params Toy.world1 p))
               (get_all_params Toy.dense) ->
             exists w2,
               load_weights Toy.dense "weights.npz" w' = OK (tt, w2)
               /\ get_all_param_values Toy.dense w2
                  = OK (map (params Toy.world1)
                          (get_all_params Toy.dense), w2)).
Proof.
  split; [reflexivity|].
  apply (save_load_weights_roundtrip Toy.dense "weights.npz"
           Toy.world1).
  reflexivity.
Defined.

(** The layer of the sample has the two parameters of its dense layer. *)
Example sample_params :
  get_all_params Toy.dense
  = [(Toy.dense, "W"); (Toy.dense, "b")].
Proof. vm_compute. reflexivity. Qed.

(** C4, as the claim has it, fails: a file name ending in ['.pkl'] makes
    [save_weights] raise. *)
Lemma save_weights_pkl_raises :
  save_weights Toy.dense "weights.pkl" Toy.world1
  = Raise (NotImplementedError
             "Format indicated by ending of weights.pkl notimplemented").
Proof. reflexivity. Qed.

(** C5 for the toy network: an unknown ending, and a pickled dict whose
    ['param values'] are loaded. *)
Lemma load_weights_spec_witness :
  load_weights Toy.dense "weights.txt" Toy.world_zero
  = Raise (NotImplementedError "Format of weights.txt not known")
  /\ exists w',
       load_weights Toy.dense "weights.pkl" Toy.world_zero
       = OK (tt, w')
       /\ map (params w') (get_all_params Toy.dense)
          = [Toy.sigma (Toy.dense, "W");
             Toy.sigma (Toy.dense, "b")].
Proof.
  split; [reflexivity|].
  destruct (load_weights_spec Toy.dense "weights.pkl" Toy.world_zero)
    as (_ & _ & Hpkl & Hset).
  rewrite (Hpkl eq_refl _ _ eq_refl eq_refl).
  destruct (Hset [Toy.sigma (Toy.dense, "W");
                  Toy.sigma (Toy.dense, "b")])
    as (w' & H & Hm & _).
  - rewrite sample_params. repeat constructor.
  - exists w'. split; [exact H | exact Hm].
Defined.

(** C6, as the code has it, for the toy model: five samples, two outputs,
    three passes. *)
Lemma mc_samples_shape_witness :
  ([("T", PInt 3)] = [("T", PInt (Z.of_nat 3))]
   /\ (0 < 3)%nat
   /\ last_item (OD.values (net Toy.model)) = OK Toy.out
   /\ nth_error (output_shape Toy.out) 1 = Some (Some (Z.of_nat 2))
   /\ nth_error [zeros [5; 3]%nat] 0 = Some (zeros [5; 3]%nat)
   /\ len (zeros [5; 3]%nat) = OK 5%nat
   /\ _predict_stoch Toy.model = None)
  /\ exists mc self' r' vs,
       mc_samples nat Toy.backend Toy.model [zeros [5; 3]%nat]
         [("T", PInt 3)] Toy.sigma 0%nat = OK (mc, self', r')
       /\ shape mc = [5; 2; 3]%nat
       /\ net self' = net Toy.model
       /\ _predict_stoch self'
          = Some (mk_compiled (OD.values (inputs Toy.model))
                    Toy.out false)
       /\ stoch_passes nat Toy.backend
            (mk_compiled (OD.values (inputs Toy.model))
               Toy.out false)
            Toy.sigma [zeros [5; 3]%nat] 3 0%nat = OK (vs, r')
       /\ forall t i j, (t < 3)%nat -> (i < 5)%nat -> (j < 2)%nat ->
                        at_ mc [i; j; t] = at_ (nth t vs (zeros [])) [i; j].
Proof.
  split; [repeat split; lia|].
  apply (mc_samples_shape nat Toy.backend Toy.model
           [zeros [5; 3]%nat] [("T", PInt 3)] 3 Toy.sigma 0%nat
           (zeros [5; 3]%nat) 5 2 Toy.out).
  - right. reflexivity.
  - lia.
  - reflexivity.
  - reflexivity.
  - reflexivity.
  - reflexivity.
  - left. reflexivity.
  - intros r0. eexists _, _. split; reflexivity.
Defined.

(** The three slices of the sample hold the outputs of the passes 0, 1
    and 2. *)
Example mc_samples_slices :
  match mc_samples nat Toy.backend Toy.model [zeros [5; 3]%nat]
          [("T", PInt 3)] Toy.sigma 0%nat with
  | OK (mc, _, r') =>
      shape mc = [5; 2; 3]%nat
      /\ map (fun t => at_ mc [4; 1; t]%nat) [0; 1; 2]%nat
         = [0%Q; 1%Q; 2%Q]
      /\ r' = 3%nat
  | Raise _ => False
  end.
Proof. vm_compute. repeat split. Qed.

(** C6, as the claim has it, fails for a model whose last layer has an
    output with more than two axes.  The model that
    [weights2pickle('bcnn1', '17')] pickles ends with the convolution
    ['17'], of output shape [(None, 256, 15, 15)]: a pass on one image
    returns an array of shape [(1, 256, 15, 15)], which cannot be assigned
    to the slice of shape [(1, 256)], and [mc_samples] raises
    [ValueError]. *)
Lemma mc_samples_conv_output_ValueError :
  match weights2pickle "bcnn1" "17" Sample.world0 with
  | OK (_, w') =>
      match files w' "bcnn1_392bea6_17.pkl" with
      | Some (PklFile (PyModel model sigma)) =>
          length (net model) = 30%nat
          /\ rbind (get_output_layer model) (fun l => OK (output_shape l))
             = OK [None; Some 256%Z; Some 15%Z; Some 15%Z]
          /\ mc_samples nat Toy.backend model
               [zeros [1; 3; 512; 512]%nat] [("T", PInt 100)] sigma 0%nat
             = Raise ValueError
      | _ => False
      end
  | Raise _ => False
  end.
Proof. vm_compute. repeat split. Qed.

(** C10, as the code has it, for the keyword arguments [T=10, n=3]. *)
Lemma mc_samples_unexpected_kwargs_witness :
  In "n" (OD.keys [("T", PInt 10); ("n", PInt 3)])
  /\ "n" <> "T"
  /\ mc_samples nat Toy.backend Toy.model [zeros [5; 3]%nat]
       [("T", PInt 10); ("n", PInt 3)] Toy.sigma 0%nat
     = Raise (TypeError (UnexpectedKwargs [("n", PInt 3)])).
Proof.
  split; [in_list|]. split; [discriminate|].
  apply (mc_samples_unexpected_kwargs nat Toy.backend Toy.model
           [zeros [5; 3]%nat] [("T", PInt 10); ("n", PInt 3)] Toy.sigma
           0%nat "n"); [in_list | discriminate].
Defined.

(** C10, as the claim has it, fails: with ['T'] as the only keyword
    argument, [mc_samples(X, T=None)] raises [TypeError] all the same, from
    [np.zeros]. *)
Lemma mc_samples_T_None_TypeError :
  OD.keys [("T", PNone)] = ["T"]
  /\ mc_samples nat Toy.backend Toy.model [zeros [5; 3]%nat]
       [("T", PNone)] Toy.sigma 0%nat
     = Raise (TypeError NotAnInteger).
Proof. split; reflexivity. Qed.

(** * Further properties *)

(** ** Setting parameter values, both ways *)

Lemma set_values_OK_shapes (ps : list param) :
  forall vs w w',
    length ps = length vs ->
    NoDup ps ->
    set_values ps vs w = OK (tt, w') ->
    Forall2 (fun p v => shape (params w p) = shape v) ps vs.
Proof.
  induction ps as [|p ps IH]; intros vs w w' Hlen Hnd Hset.
  - destruct vs; [constructor | discriminate].
  - destruct vs as [|v vs]; [discriminate|].
    inversion Hnd as [|p' ps' Hp Hnd']; subst.
    simpl in Hset.
    destruct (list_eq_dec Nat.eq_dec (shape (params w p)) (shape v))
      as [Hsh|]; [|discriminate].
    constructor; [exact Hsh|].
    apply (Forall2_In_impl
             (fun q y =>
                shape (params (set_params (pstore_set (params w) p v) w) q)
                = shape y)).
    + apply (IH vs _ w'); [simpl in Hlen; lia | exact Hnd' | exact Hset].
    + intros q y Hin Hq. unfold set_params, pstore_set in Hq. simpl in Hq.
      destruct (param_eq_dec q p) as [->|_]; [contradiction | exact Hq].
Qed.

Lemma set_all_param_values_OK_shapes (l : layer) (values : list ndarray)
  (w w' : world) :
  set_all_param_values l values w = OK (tt, w') ->
  Forall2 (fun p v => shape (params w p) = shape v) (get_all_params l) values.
Proof.
  unfold set_all_param_values.
  destruct (Nat.eqb_spec (length (get_all_params l)) (length values))
    as [Hlen|_]; [|discriminate].
  apply set_values_OK_shapes; [exact Hlen | apply get_all_params_NoDup].
Qed.

(** What a successful [set_all_param_values] leaves behind. *)
Lemma set_all_param_values_OK (l : layer) (values : list ndarray)
  (w w' : world) :
  set_all_param_values l values w = OK (tt, w') ->
  files w' = files w
  /\ stdout w' = stdout w
  /\ map (params w') (get_all_params l) = values
  /\ (forall q, ~ In q (get_all_params l) -> params w' q = params w q)
  /\ (forall q, shape (params w' q) = shape (params w q)).
Proof.
  intros Hset.
  pose proof (set_all_param_values_OK_shapes _ _ _ _ Hset) as Hsh.
  destruct (set_all_param_values_spec l values w Hsh)
    as (w2 & Hset2 & Hf & Hs & Hm & Hq).
  rewrite Hset in Hset2. injection Hset2 as <-.
  repeat split; try assumption.
  intros q. destruct (in_dec param_eq_dec q (get_all_params l)) as [Hin|Hn];
    [|now rewrite Hq].
  clear Hset Hq. revert Hm Hsh Hin.
  generalize (get_all_params l) as ps. intros ps. revert values.
  induction ps as [|p ps IH]; intros values Hm Hsh Hin; [contradiction|].
  destruct values as [|v vs]; [discriminate|].
  injection Hm as Hv Hm. inversion Hsh; subst.
  destruct Hin as [->|Hin]; [congruence|].
  now apply (IH (map (params w') ps)).
Qed.

(** The statements of [load_weights] before [set_all_param_values] leave
    the world as it is. *)
Lemma load_weights_OK_inv (l : layer) (filename : string) (w w' : world) :
  load_weights l filename w = OK (tt, w') ->
  exists values, set_all_param_values l values w = OK (tt, w').
Proof.
  unfold load_weights.
  destruct (endswith filename ".npz").
  - intros H. apply bind_OK in H. destruct H as (f & w1 & Hf & H).
    assert (w1 = w) as ->.
    { unfold np_load in Hf. destruct (files w filename) as [[|]|];
        inversion Hf; reflexivity. }
    apply bind_OK in H. destruct H as (f' & w1' & Hf' & H).
    apply lift_OK in Hf'. destruct Hf' as [_ ->].
    apply bind_OK in H. destruct H as (vs & w2 & Hc & H).
    apply lift_OK in Hc. destruct Hc as [_ ->]. eauto.
  - destruct (endswith filename ".pkl"); [|discriminate].
    intros H. apply bind_OK in H. destruct H as (o & w1 & Hf & H).
    assert (w1 = w) as ->.
    { unfold pickle_load in Hf. destruct (files w filename) as [[|]|];
        inversion Hf; reflexivity. }
    apply bind_OK in H. destruct H as (o' & w2 & Hc & H).
    apply lift_OK in Hc. destruct Hc as [_ ->].
    apply bind_OK in H. destruct H as (vs & w3 & Hc & H).
    apply lift_OK in Hc. destruct Hc as [_ ->]. eauto.
Qed.

(** X1.  A successful [load_weights] writes no file and prints nothing;
    it changes no parameter outside the layers below [layer], and it
    never changes the shape of a parameter. *)
Theorem load_weights_frame (l : layer) (filename : string) (w w' : world) :
  load_weights l filename w = OK (tt, w') ->
  files w' = files w
  /\ stdout w' = stdout w
  /\ (forall q, ~ In q (get_all_params l) -> params w' q = params w q)
  /\ (forall q, shape (params w' q) = shape (params w q)).
Proof.
  intros H. apply load_weights_OK_inv in H. destruct H as [values H].
  apply set_all_param_values_OK in H. tauto.
Qed.

(** X1 for the toy network and its pickled parameters. *)
Lemma load_weights_frame_witness :
  exists w',
    load_weights Toy.dense "weights.pkl" Toy.world_zero = OK (tt, w')
    /\ files w' = files Toy.world_zero
    /\ stdout w' = stdout Toy.world_zero
    /\ (forall q, ~ In q (get_all_params Toy.dense) ->
                  params w' q = params Toy.world_zero q)
    /\ (forall q, shape (params w' q) = shape (params Toy.world_zero q)).
Proof.
  destruct (load_weights Toy.dense "weights.pkl" Toy.world_zero)
    as [[[] w']|e] eqn:H; [|vm_compute in H; discriminate H].
  exists w'. split; [reflexivity|].
  exact (load_weights_frame Toy.dense "weights.pkl" Toy.world_zero w' H).
Defined.



(** ** Archives with other names *)

Lemma get_not_In {V} (k : string) (d : OD.t V) :
  ~ In k (OD.keys d) -> OD.get k d = Raise (KeyError k).
Proof.
  induction d as [|[k' v] d IH]; cbn [OD.get OD.keys map fst In];
    intros Hn; [reflexivity|].
  destruct (String.eqb_spec k k') as [->|_]; [tauto|].
  apply IH. tauto.
Qed.

Lemma comprehension_first_Raise {B} (f : nat -> result B) (e : exn) :
  forall n i k,
    (i < n)%nat ->
    (forall j, (j < i)%nat -> exists v, f (k + j)%nat = OK v) ->
    f (k + i)%nat = Raise e ->
    comprehension f (seq k n) = Raise e.
Proof.
  induction n as [|n IH]; intros i k Hi Hbefore He; [lia|].
  cbn [seq comprehension]. destruct i as [|i].
  - rewrite Nat.add_0_r in He. now rewrite He.
  - destruct (Hbefore 0%nat ltac:(lia)) as [v Hv].
    rewrite Nat.add_0_r in Hv. rewrite Hv. cbn [rbind].
    rewrite (IH i (S k)); [reflexivity | lia | |].
    + intros j Hj. rewrite Nat.add_succ_comm. apply Hbefore. lia.
    + now rewrite Nat.add_succ_comm.
Qed.

(** X3.  [load_weights] reads an [.npz] archive by the names ['arr_0'],
    ['arr_1'], ... up to the number of its entries.  When the archive has
    no entry of the name ['arr_i'] for some [i] below that number, while
    all the names before are there, it raises [KeyError] for ['arr_i']:
    an archive whose arrays were saved under other names is not read. *)
Theorem load_weights_missing_entry (l : layer) (filename : string)
  (w : world) (archive : list (string * ndarray)) (i : nat) :
  endswith filename ".npz" = true ->
  files w filename = Some (NpzFile archive) ->
  (i < length archive)%nat ->
  (forall j, (j < i)%nat -> In (arr_name j) (OD.keys archive)) ->
  ~ In (arr_name i) (OD.keys archive) ->
  load_weights l filename w = Raise (KeyError (arr_name i)).
Proof.
  intros Hend Hfile Hi Hbefore Hmiss. unfold load_weights. rewrite Hend.
  unfold bind at 1. unfold np_load. rewrite Hfile. cbv beta iota.
  unfold bind at 1. cbn [lift enter]. cbv beta iota.
  unfold bind at 1.
  rewrite (comprehension_first_Raise
             (fun i => OD.get (arr_name i) archive)
             (KeyError (arr_name i)) (length (OD.keys archive)) i 0).
  - reflexivity.
  - unfold OD.keys. now rewrite length_map.
  - intros j Hj. apply get_In. now apply Hbefore.
  - now apply get_not_In.
Qed.

(** X3 for an archive written with the names [W] and [b]. *)
Lemma load_weights_missing_entry_witness :
  load_weights Toy.dense "named.npz"
    {| files := fun _ =>
         Some (NpzFile [("W", Toy.sigma (Toy.dense, "W"));
                        ("b", Toy.sigma (Toy.dense, "b"))]);
       params := Toy.sigma;
       stdout := [] |}
  = Raise (KeyError "arr_0").
Proof.
  apply (load_weights_missing_entry Toy.dense "named.npz" _
           [("W", Toy.sigma (Toy.dense, "W"));
            ("b", Toy.sigma (Toy.dense, "b"))] 0).
  - reflexivity.
  - reflexivity.
  - simpl. lia.
  - intros j Hj. lia.
  - simpl. intros [H|[H|[]]]; discriminate H.
Defined.

(** ** Pickled models *)

(** X5.  The pickle file [save_model] writes holds a model, not a dict:
    [load_weights] on that file raises [TypeError] at
    [model['param values']], whatever the layer. *)
Theorem load_weights_of_saved_model (model : Model) (l : layer)
  (filename : string) (w : world) :
  endswith filename ".pkl" = true ->
  exists w1,
    save_model model filename w = OK (tt, w1)
    /\ load_weights l filename w1 = Raise (TypeError NotSubscriptable).
Proof.
  intros Hend. eexists. split; [reflexivity|].
  unfold load_weights. rewrite (endswith_pkl_not_npz _ Hend), Hend.
  unfold bind at 1. unfold pickle_load. rewrite files_write_same.
  reflexivity.
Qed.

(** X5 for the toy model. *)
Lemma load_weights_of_saved_model_witness :
  endswith "model.pkl" ".pkl" = true
  /\ exists w1,
       save_model Toy.model "model.pkl" Toy.world1 = OK (tt, w1)
       /\ load_weights Toy.out "model.pkl" w1
          = Raise (TypeError NotSubscriptable).
Proof.
  split; [reflexivity|].
  apply (load_weights_of_saved_model Toy.model Toy.out "model.pkl"
           Toy.world1).
  reflexivity.
Defined.

(** ** The JFnet weights *)

Lemma OK_inj {A} (a b : A) : OK a = OK b -> a = b.
Proof. intros H. now injection H. Qed.

Lemma Raise_inj {A} (e e' : exn) : @Raise A e = Raise e' -> e = e'.
Proof. intros H. now injection H. Qed.


Lemma jfnet_get_31 width height n_classes batch_size p_conv :
  exists l31,
    OD.get "31" (jfnet_layers width height n_classes batch_size p_conv)
    = OK l31.
Proof.
  apply get_In. rewrite jfnet_layers_keys. unfold jfnet_keys.
  do 44 right. now left.
Qed.

(** What [build_model] does with a file name. *)
Lemma build_model_Some_OK width height filename n_classes batch_size p_conv
  w network w' :
  build_model width height (Some filename) n_classes batch_size p_conv w
  = OK (network, w') ->
  exists weights l31,
    files w filename = Some (PklFile (PyArrays weights))
    /\ OD.get "31" (jfnet_layers width height n_classes batch_size p_conv)
       = OK l31
    /\ set_all_param_values l31 weights w = OK (tt, w').
Proof.
  unfold build_model. intros H.
  apply bind_OK in H. destruct H as (net0 & w0 & Hl & H).
  apply lift_OK in Hl. destruct Hl as [Hl ->].
  rewrite build_model_layers_total in Hl. apply OK_inj in Hl. subst net0.
  generalize dependent (jfnet_layers width height n_classes batch_size
                          p_conv).
  intros jf H.
  apply bind_OK in H. destruct H as ([] & w0 & Hc & H).
  apply lift_OK in Hc. destruct Hc as [_ ->].
  apply bind_OK in H. destruct H as (o & w1 & Ho & H).
  apply bind_OK in H. destruct H as (l31 & w2 & Hg & H).
  apply lift_OK in Hg. destruct Hg as [Hg ->].
  apply bind_OK in H. destruct H as (vs & w3 & Hv & H).
  apply lift_OK in Hv. destruct Hv as [Hv ->].
  apply bind_OK in H. destruct H as ([] & w4 & Hset & H).
  unfold ret in H. apply OK_inj in H. injection H as _ <-.
  unfold pickle_load in Ho.
  destruct (files w filename) as [[a|o']|]; try discriminate Ho.
  apply OK_inj in Ho. injection Ho as Ho1 Ho2. subst o' w1.
  destruct o as [arrays| | |]; try discriminate Hv.
  apply OK_inj in Hv. subst vs. exists arrays, l31. auto.
Qed.

(** X6.  When [build_model] returns with a file name, the file is a
    pickled list of arrays and the parameters of the layers below
    ['31'] hold exactly these arrays, in the order of
    [get_all_params]; every other parameter, the shapes of all
    parameters and the files are as before. *)
Theorem build_model_loads_weights width height filename n_classes batch_size
  p_conv w network w' :
  build_model width height (Some filename) n_classes batch_size p_conv w
  = OK (network, w') ->
  exists weights l31,
    files w filename = Some (PklFile (PyArrays weights))
    /\ OD.get "31" network = OK l31
    /\ map (params w') (get_all_params l31) = weights
    /\ (forall q, ~ In q (get_all_params l31) -> params w' q = params w q)
    /\ (forall q, shape (params w' q) = shape (params w q))
    /\ files w' = files w.
Proof.
  intros H. pose proof (build_model_OK _ _ _ _ _ _ _ _ _ H) as ->.
  apply build_model_Some_OK in H.
  destruct H as (weights & l31 & Hfile & Hget & Hset).
  apply set_all_param_values_OK in Hset.
  exists weights, l31. tauto.
Qed.

(** X6 in the sample world. *)
Lemma build_model_loads_weights_witness :
  exists network w' weights l31,
    build_model 512 512 (Some ORIGINAL_WEIGHTS) 5 None (1 # 5) Sample.world0
    = OK (network, w')
    /\ files Sample.world0 ORIGINAL_WEIGHTS = Some (PklFile (PyArrays weights))
    /\ OD.get "31" network = OK l31
    /\ map (params w') (get_all_params l31) = weights
    /\ (forall q, ~ In q (get_all_params l31) ->
                  params w' q = params Sample.world0 q)
    /\ (forall q, shape (params w' q) = shape (params Sample.world0 q))
    /\ files w' = files Sample.world0.
Proof.
  destruct (build_model 512 512 (Some ORIGINAL_WEIGHTS) 5 None (1 # 5)
              Sample.world0) as [[network w']|e] eqn:H.
  - destruct (build_model_loads_weights _ _ _ _ _ _ _ _ _ H)
      as (weights & l31 & Hrest).
    exists network, w', weights, l31. split; [reflexivity | exact Hrest].
  - exfalso.
    assert (Hok : match build_model 512 512 (Some ORIGINAL_WEIGHTS) 5 None
                          (1 # 5) Sample.world0 with
                  | OK _ => True
                  | Raise _ => False
                  end) by (vm_compute; exact I).
    now rewrite H in Hok.
Defined.


(** X7.  The file [build_model] loaded the JFnet weights from is never a
    file [load_weights] can read: on the same file name [load_weights]
    always raises.  For a name ending in ['.pkl'], as [ORIGINAL_WEIGHTS]
    does, it raises [TypeError] (a list has no ['param values']), and for
    a name ending in neither ['.pkl'] nor ['.npz'] it raises
    [NotImplementedError].  For a name ending in ['.npz'] the file holds
    no archive, and which exception ends the call is up to numpy. *)
Theorem load_weights_of_jfnet_weights width height filename n_classes
  batch_size p_conv w network w' (l : layer) :
  build_model width height (Some filename) n_classes batch_size p_conv w
  = OK (network, w') ->
  (exists e, load_weights l filename w' = Raise e)
  /\ (endswith filename ".npz" = false ->
      load_weights l filename w'
      = Raise (if endswith filename ".pkl" then TypeError NotSubscriptable
               else NotImplementedError
                      ("Format of " ++ filename ++ " not known")%string)).
Proof.
  intros H. apply build_model_Some_OK in H.
  destruct H as (weights & l31 & Hfile & _ & Hset).
  apply set_all_param_values_OK in Hset. destruct Hset as [Hf _].
  assert (Hnpz : endswith filename ".npz" = true ->
                 load_weights l filename w'
                 = Raise (AttributeError "__exit__")).
  { intros Hend. unfold load_weights. rewrite Hend.
    unfold bind at 1. unfold np_load. rewrite Hf, Hfile. reflexivity. }
  assert (Hother : endswith filename ".npz" = false ->
                   load_weights l filename w'
                   = Raise (if endswith filename ".pkl"
                            then TypeError NotSubscriptable
                            else NotImplementedError
                                   ("Format of " ++ filename
                                    ++ " not known")%string)).
  { intros Hend. unfold load_weights. rewrite Hend.
    destruct (endswith filename ".pkl"); [|reflexivity].
    unfold bind at 1. unfold pickle_load. now rewrite Hf, Hfile. }
  split; [|exact Hother].
  destruct (endswith filename ".npz") eqn:Hend; eauto.
Qed.

(** X7 in the sample world, for [ORIGINAL_WEIGHTS]. *)
Lemma load_weights_of_jfnet_weights_witness :
  exists network w',
    build_model 512 512 (Some ORIGINAL_WEIGHTS) 5 None (1 # 5) Sample.world0
    = OK (network, w')
    /\ load_weights Toy.dense ORIGINAL_WEIGHTS w'
       = Raise (TypeError NotSubscriptable).
Proof.
  destruct (build_model 512 512 (Some ORIGINAL_WEIGHTS) 5 None (1 # 5)
              Sample.world0) as [[network w']|e] eqn:H.
  - exists network, w'. split; [reflexivity|].
    exact (proj2 (load_weights_of_jfnet_weights _ _ _ _ _ _ _ _ _
                    Toy.dense H) eq_refl).
  - exfalso.
    assert (Hok : match build_model 512 512 (Some ORIGINAL_WEIGHTS) 5 None
                          (1 # 5) Sample.world0 with
                  | OK _ => True
                  | Raise _ => False
                  end) by (vm_compute; exact I).
    now rewrite H in Hok.
Defined.

(** ** weights2pickle: the ways it fails *)


(** [weights2pickle] for one of the two names, up to the construction of
    the BCNN. *)
Lemma weights2pickle_named (name output_layer : string) (w : world) :
  name = "bcnn1" \/ name = "bcnn2" ->
  weights2pickle name output_layer w
  = match BCNN_init (1 # 5) "17" (Some (bcnn_weights_file name)) 2 w with
    | OK (model, w1) =>
        (if negb (mem output_layer (OD.keys (net model))) then
           raise (AssertionError
                    ("Invalid output_layer " ++ output_layer)%string)
         else
           network <- lift (remove_after (net model) output_layer);;
           let model := set_net network model in
           k <- lift (last_item (OD.keys (net model)));;
           if negb (String.eqb k output_layer)
           then raise (AssertionError "")
           else
             save_model model (bcnn_outfile name output_layer);;;
             fun w =>
               OK (tt, print ("Saved model to "
                              ++ bcnn_outfile name output_layer)%string
                         w))%io w1
    | Raise e => Raise e
    end.
Proof.
  intros [-> | ->]; unfold weights2pickle;
    cbn [mem existsb String.eqb Ascii.eqb Bool.eqb orb negb];
    change (contains "bcnn1" "bcnn1") with true;
    change (contains "bcnn1" "bcnn2") with false;
    change (contains "bcnn2" "bcnn2") with true;
    cbv iota; unfold bind at 1; unfold ret at 1; cbv beta iota;
    unfold bind at 1;
    change "models/weights_bcnn1_392bea6.npz"
      with (bcnn_weights_file "bcnn1");
    change "models/weights_bcnn2_b69aadd.npz"
      with (bcnn_weights_file "bcnn2");
    destruct (BCNN_init _ _ _ _ w) as [[model w1]|e]; reflexivity.
Qed.

(** X8.  [weights2pickle] fails in three ways only: with the assertion on
    the name, with whatever the construction of the BCNN raises, or with
    the assertion that [output_layer] is a key.  The loop that cuts the
    network never fails after that assertion, and the assertion after the
    loop never does either. *)
Theorem weights2pickle_failures (name output_layer : string) (w : world)
  (e : exn) :
  weights2pickle name output_layer w = Raise e ->
  (name <> "bcnn1" /\ name <> "bcnn2"
   /\ e = AssertionError "Model name is invalid.")
  \/ ((name = "bcnn1" \/ name = "bcnn2")
      /\ BCNN_init (1 # 5) "17" (Some (bcnn_weights_file name)) 2 w
         = Raise e)
  \/ (exists model w1,
        BCNN_init (1 # 5) "17" (Some (bcnn_weights_file name)) 2 w
        = OK (model, w1)
        /\ ~ In output_layer (OD.keys (net model))
        /\ e = AssertionError
                 ("Invalid output_layer " ++ output_layer)%string).
Proof.
  intros H.
  destruct (string_dec name "bcnn1") as [H1|H1];
    [|destruct (string_dec name "bcnn2") as [H2|H2]].
  3:{ left. split; [exact H1|]. split; [exact H2|].
      unfold weights2pickle in H.
      replace (mem name ["bcnn1"; "bcnn2"]) with false in H.
      - simpl in H. apply Raise_inj in H. now symmetry.
      - symmetry. apply mem_not_In. simpl. intuition congruence. }
  all: right.
  all: assert (Hname : name = "bcnn1" \/ name = "bcnn2") by tauto.
  all: rewrite (weights2pickle_named name output_layer w Hname) in H.
  all: destruct (BCNN_init (1 # 5) "17" (Some (bcnn_weights_file name)) 2 w)
         as [[model w1]|e'];
         [|left; split; [exact Hname | apply Raise_inj in H; now subst e']].
  all: right; exists model, w1; split; [reflexivity|].
  all: destruct (mem output_layer (OD.keys (net model))) eqn:Hmem;
         cbn [negb] in H.
  all: try (split; [now apply mem_not_In
                   | apply Raise_inj in H; now symmetry]).
  all: exfalso; apply mem_In in Hmem.
  all: destruct (split_last_key _ _ Hmem) as (pre & v & post & Heq & Hpost).
  all: revert H.
  all: run_lift (remove_after_found _ _ _ _ _ Heq Hpost).
  all: cbn [net set_net].
  all: assert (Hlast : last_item (OD.keys (pre ++ [(output_layer, v)]))
                       = OK output_layer)
         by (rewrite keys_app; apply last_item_snoc).
  all: run_lift Hlast.
  all: rewrite String.eqb_refl; cbn [negb].
  all: intros H; discriminate H.
Qed.

(** X8 for the name ['bcnn3']. *)
Lemma weights2pickle_failures_witness :
  weights2pickle "bcnn3" "logreg" Sample.world0
  = Raise (AssertionError "Model name is invalid.")
  /\ (("bcnn3" <> "bcnn1" /\ "bcnn3" <> "bcnn2"
       /\ AssertionError "Model name is invalid."
          = AssertionError "Model name is invalid.")
      \/ (("bcnn3" = "bcnn1" \/ "bcnn3" = "bcnn2")
          /\ BCNN_init (1 # 5) "17" (Some (bcnn_weights_file "bcnn3")) 2
               Sample.world0
             = Raise (AssertionError "Model name is invalid."))
      \/ (exists model w1,
            BCNN_init (1 # 5) "17" (Some (bcnn_weights_file "bcnn3")) 2
              Sample.world0 = OK (model, w1)
            /\ ~ In "logreg" (OD.keys (net model))
            /\ AssertionError "Model name is invalid."
               = AssertionError "Invalid output_layer logreg")).
Proof.
  split; [reflexivity|].
  apply (weights2pickle_failures "bcnn3" "logreg" Sample.world0).
  reflexivity.
Defined.

(** ** The models [BCNN.__init__] returns *)

(** Reading a successful [BCNN.__init__] backwards. *)
Lemma BCNN_init_OK_inv p_conv last_layer weights n_classes w model w' :
  BCNN_init p_conv last_layer weights n_classes w = OK (model, w') ->
  exists pre l post l0 w1,
    jfnet_layers 512 512 5 None p_conv = pre ++ (last_layer, l) :: post
    /\ ~ In last_layer (OD.keys pre)
    /\ ~ In last_layer (OD.keys post)
    /\ OD.get "0" (jfnet_layers 512 512 5 None p_conv) = OK l0
    /\ build_model 512 512 (Some ORIGINAL_WEIGHTS) 5 None p_conv w
       = OK (jfnet_layers 512 512 5 None p_conv, w1)
    /\ model = set_input "X" (input_var l0)
                 (Model_init (pre ++ (last_layer, l)
                              :: bcnn_head l n_classes))
    /\ match weights with
       | None => w' = w1
       | Some f => load_weights (bcnn_logreg l n_classes) f w1 = OK (tt, w')
       end.
Proof.
  intros H.
  destruct (build_model 512 512 (Some ORIGINAL_WEIGHTS) 5 None p_conv w)
    as [[network w1]|e] eqn:Hbuild.
  2:{ rewrite (BCNN_init_build_Raise _ _ _ _ _ _ Hbuild) in H.
      discriminate H. }
  pose proof (build_model_OK _ _ _ _ _ _ _ _ _ Hbuild) as ->.
  destruct (in_dec string_dec last_layer jfnet_keys) as [Hin|Hn].
  2:{ rewrite (BCNN_init_missing_layer _ _ _ _ _ _ Hbuild Hn) in H.
      discriminate H. }
  destruct (jfnet_layers_split 512 512 5 None p_conv last_layer Hin)
    as (pre & l & post & Hsplit & Hpre & Hpost & Hkeys).
  destruct (BCNN_init_run p_conv last_layer weights n_classes w w1
              pre l post Hsplit Hpre Hpost Hkeys Hbuild) as (l0 & Hl0 & Hrun).
  rewrite Hrun in H. clear Hrun.
  exists pre, l, post, l0, w1.
  split; [exact Hsplit|]. split; [exact Hpre|]. split; [exact Hpost|].
  split; [exact Hl0|]. split; [reflexivity|].
  clear Hbuild Hsplit Hl0.
  destruct weights as [f|].
  - destruct (load_weights (bcnn_logreg l n_classes) f w1)
      as [[[] w2]|e]; [|discriminate H].
    apply OK_inj in H. injection H as <- <-. split; reflexivity.
  - apply OK_inj in H. injection H as <- <-. split; reflexivity.
Qed.

(** With [batch_size=None] every layer of the JFnet network has an output
    shape of at least two axes, the first of them unknown. *)
Lemma jfnet_layers_batch_first p_conv :
  forallb batch_first (OD.values (jfnet_layers 512 512 5 None p_conv)) = true.
Proof. vm_compute. reflexivity. Qed.

Lemma bcnn_logreg_shape (l : layer) (n_classes : Z) :
  batch_first l = true ->
  output_shape (bcnn_logreg l n_classes) = [None; Some n_classes].
Proof.
  unfold batch_first. intros H.
  destruct (output_shape l) as [|[z|] [|d sh]] eqn:Hsh; try discriminate.
  cbn [bcnn_logreg bcnn_softmax_input bcnn_global_pool output_shape].
  rewrite Hsh. reflexivity.
Qed.

(** X9.  Whatever [last_layer] it is cut at, the output layer of a BCNN
    has the shape [(None, n_classes)]: the two global pools flatten the
    kept layer to two axes, and the dense layer has [n_classes] units.
    So [mc_samples] on a BCNN allocates [n_classes] columns. *)
Theorem BCNN_output_shape p_conv last_layer weights n_classes w model w' :
  BCNN_init p_conv last_layer weights n_classes w = OK (model, w') ->
  exists out,
    get_output_layer model = OK out
    /\ output_shape out = [None; Some n_classes]
    /\ item (output_shape out) 1 = OK (Some n_classes).
Proof.
  intros H. apply BCNN_init_OK_inv in H.
  destruct H as (pre & l & post & l0 & w1 & Hsplit & _ & _ & _ & _ & -> & _).
  exists (bcnn_logreg l n_classes).
  destruct (bcnn_model_net pre last_layer l n_classes l0) as (_ & _ & Hout).
  split; [exact Hout|].
  assert (Hb : batch_first l = true).
  { pose proof (jfnet_layers_batch_first p_conv) as Hall.
    rewrite forallb_forall in Hall. apply Hall.
    rewrite Hsplit. unfold OD.values. rewrite map_app. simpl.
    apply in_or_app. right. now left. }
  rewrite (bcnn_logreg_shape l n_classes Hb). split; reflexivity.
Qed.

(** X9 in the sample world, for the default [last_layer='13']. *)
Lemma BCNN_output_shape_witness :
  exists model w' out,
    BCNN_init (1 # 5) "13" None 2 Sample.world0 = OK (model, w')
    /\ get_output_layer model = OK out
    /\ output_shape out = [None; Some 2%Z]
    /\ item (output_shape out) 1 = OK (Some 2%Z).
Proof.
  destruct (BCNN_init (1 # 5) "13" None 2 Sample.world0)
    as [[model w']|e] eqn:H.
  - destruct (BCNN_output_shape _ _ _ _ _ _ _ H) as (out & Hout).
    exists model, w', out. split; [reflexivity | exact Hout].
  - exfalso. pose proof BCNN_init_13_keys as Hk. now rewrite H in Hk.
Defined.

(** ** Forward passes: caching, repeated calls and edge cases *)

Section Forward.

Variable rng : Type.
Variable theano_call :
  compiled -> pstore -> list ndarray -> rng -> result (ndarray * rng).

Lemma stoch_passes_length (c : compiled) (sigma : pstore)
  (xs : list ndarray) :
  forall T r vs r',
    stoch_passes rng theano_call c sigma xs T r = OK (vs, r') ->
    length vs = T.
Proof.
  induction T as [|T IH]; intros r vs r' H; cbn [stoch_passes] in H.
  - apply OK_inj in H. injection H as <- _. reflexivity.
  - apply rbind_OK in H. destruct H as ([v r1] & _ & H).
    apply rbind_OK in H. destruct H as ([vs' r2] & Hp & H).
    apply OK_inj in H. injection H as <- _. cbn [fst length].
    f_equal. exact (IH _ _ _ Hp).
Qed.

Lemma stoch_passes_app (c : compiled) (sigma : pstore) (xs : list ndarray) :
  forall T1 T2 r vs1 r1 vs2 r2,
    stoch_passes rng theano_call c sigma xs T1 r = OK (vs1, r1) ->
    stoch_passes rng theano_call c sigma xs T2 r1 = OK (vs2, r2) ->
    stoch_passes rng theano_call c sigma xs (T1 + T2) r
    = OK (vs1 ++ vs2, r2).
Proof.
  induction T1 as [|T1 IH]; intros T2 r vs1 r1 vs2 r2 H1 H2.
  - cbn [stoch_passes] in H1. apply OK_inj in H1. injection H1 as <- <-.
    exact H2.
  - cbn [stoch_passes Nat.add] in *.
    apply rbind_OK in H1. destruct H1 as ([v r'] & Hc & H1).
    apply rbind_OK in H1. destruct H1 as ([vs' r''] & Hp & H1).
    apply OK_inj in H1. cbn [fst snd] in *. injection H1 as <- <-.
    rewrite Hc. cbn [rbind fst snd].
    rewrite (IH T2 _ _ _ _ _ Hp H2). reflexivity.
Qed.

(** [mc_samples] with [T] given, on a model whose passes return arrays of
    the shape of a slice. *)
Lemma mc_samples_run (self : Model) (xs : list ndarray) (T : nat)
  (sigma : pstore) (r : rng) (x0 : ndarray) (n n_out : nat) (out : layer) :
  last_item (OD.values (net self)) = OK out ->
  nth_error (output_shape out) 1 = Some (Some (Z.of_nat n_out)) ->
  nth_error xs 0 = Some x0 ->
  len x0 = OK n ->
  _predict_stoch self = None
  \/ _predict_stoch self
     = Some (mk_compiled (OD.values (inputs self)) out false) ->
  (forall r0, exists v r1,
      theano_call (mk_compiled (OD.values (inputs self)) out false)
        sigma xs r0 = OK (v, r1)
      /\ shape v = [n; n_out]) ->
  exists mc self' r' vs,
    mc_samples rng theano_call self xs [("T", PInt (Z.of_nat T))] sigma r
    = OK (mc, self', r')
    /\ shape mc = [n; n_out; T]
    /\ net self' = net self
    /\ inputs self' = inputs self
    /\ _predict_stoch self'
       = Some (mk_compiled (OD.values (inputs self)) out false)
    /\ stoch_passes rng theano_call
         (mk_compiled (OD.values (inputs self)) out false) sigma xs T r
       = OK (vs, r')
    /\ forall t i j, (t < T)%nat -> (i < n)%nat -> (j < n_out)%nat ->
                     at_ mc [i; j; t] = at_ (nth t vs (zeros [])) [i; j].
Proof.
  intros Hout Hshape Hx0 Hlen Hcache Hcall.
  set (c := mk_compiled (OD.values (inputs self)) out false) in *.
  destruct (mc_loop_seq rng theano_call c xs sigma n n_out T Hcall T 0%nat
              (zeros [n; n_out; T]) r eq_refl)
    as (mc & r' & vs & Hloop & Hpass & Hsh & Hin & _).
  set (self' := match _predict_stoch self with
                | None => set_predict_stoch c self
                | Some _ => self
                end).
  assert (Hnet : net self' = net self)
    by (unfold self'; destruct (_predict_stoch self); reflexivity).
  assert (Hinp : inputs self' = inputs self)
    by (unfold self'; destruct (_predict_stoch self); reflexivity).
  assert (Hps : _predict_stoch self' = Some c).
  { unfold self'. destruct Hcache as [Hc|Hc]; rewrite Hc;
      [reflexivity | exact Hc]. }
  exists mc, self', r', vs.
  split.
  { unfold mc_samples. cbn [OD.pop String.eqb Ascii.eqb Bool.eqb].
    assert (Hself :
              (match _predict_stoch self with
               | None =>
                   c0 <- theano_function self false;;
                   OK (set_predict_stoch c0 self)
               | Some _ => OK self
               end)%result = OK self').
    { unfold self'. destruct (_predict_stoch self); [reflexivity|].
      unfold theano_function. rewrite Hout. reflexivity. }
    rewrite Hself. cbn [rbind].
    unfold item. rewrite Hx0. cbn [rbind]. rewrite Hlen. cbn [rbind].
    rewrite Hnet, Hout. cbn [rbind]. rewrite Hshape. cbn [rbind].
    unfold np_zeros. cbn [comprehension as_dim].
    assert (Hneg : forall k, (Z.of_nat k <? 0)%Z = false)
      by (intros k; apply Z.ltb_ge; lia).
    rewrite !Hneg. cbn [rbind]. rewrite !Nat2Z.id.
    cbn [range]. rewrite Nat2Z.id. rewrite Hps.
    cbn [rbind]. rewrite Hloop. reflexivity. }
  do 5 (split; [assumption|]).
  intros t i j Ht Hi Hj. rewrite (Hin i j t Hi Hj) by lia.
  now rewrite Nat.sub_0_r.
Qed.

(** X10.  Two calls of [mc_samples] one after the other, with [T1] and
    then [T2] passes, draw the same samples as one call with [T1 + T2]
    passes: the second call goes on with the cached function from the
    random state the first one left, and the slices of the two results,
    put one after the other, are the slices of the long one. *)
Theorem mc_samples_twice (self : Model) (xs : list ndarray) (T1 T2 : nat)
  (sigma : pstore) (r : rng) (x0 : ndarray) (n n_out : nat) (out : layer) :
  last_item (OD.values (net self)) = OK out ->
  nth_error (output_shape out) 1 = Some (Some (Z.of_nat n_out)) ->
  nth_error xs 0 = Some x0 ->
  len x0 = OK n ->
  _predict_stoch self = None ->
  (forall r0, exists v r1,
      theano_call (mk_compiled (OD.values (inputs self)) out false)
        sigma xs r0 = OK (v, r1)
      /\ shape v = [n; n_out]) ->
  exists mc1 self1 r1 mc2 self2 r2 mc12 self12,
    mc_samples rng theano_call self xs [("T", PInt (Z.of_nat T1))] sigma r
    = OK (mc1, self1, r1)
    /\ mc_samples rng theano_call self1 xs [("T", PInt (Z.of_nat T2))]
         sigma r1 = OK (mc2, self2, r2)
    /\ mc_samples rng theano_call self xs
         [("T", PInt (Z.of_nat (T1 + T2)))] sigma r
       = OK (mc12, self12, r2)
    /\ shape mc12 = [n; n_out; (T1 + T2)%nat]
    /\ (forall t i j, (t < T1)%nat -> (i < n)%nat -> (j < n_out)%nat ->
                      at_ mc12 [i; j; t] = at_ mc1 [i; j; t])
    /\ (forall t i j, (t < T2)%nat -> (i < n)%nat -> (j < n_out)%nat ->
                      at_ mc12 [i; j; (T1 + t)%nat] = at_ mc2 [i; j; t]).
Proof.
  intros Hout Hshape Hx0 Hlen Hcache Hcall.
  destruct (mc_samples_run self xs T1 sigma r x0 n n_out out Hout Hshape
              Hx0 Hlen (or_introl Hcache) Hcall)
    as (mc1 & self1 & r1 & vs1 & Hrun1 & Hsh1 & Hnet1 & Hinp1 & Hps1
        & Hpass1 & Hsl1).
  destruct (mc_samples_run self1 xs T2 sigma r1 x0 n n_out out)
    as (mc2 & self2 & r2 & vs2 & Hrun2 & Hsh2 & _ & _ & _ & Hpass2 & Hsl2);
    try assumption.
  { now rewrite Hnet1. }
  { right. now rewrite Hinp1. }
  { now rewrite Hinp1. }
  destruct (mc_samples_run self xs (T1 + T2) sigma r x0 n n_out out Hout
              Hshape Hx0 Hlen (or_introl Hcache) Hcall)
    as (mc12 & self12 & r12 & vs12 & Hrun12 & Hsh12 & _ & _ & _
        & Hpass12 & Hsl12).
  rewrite Hinp1 in Hpass2.
  rewrite (stoch_passes_app _ _ _ _ _ _ _ _ _ _ Hpass1 Hpass2) in Hpass12.
  apply OK_inj in Hpass12. injection Hpass12 as <- <-.
  pose proof (stoch_passes_length _ _ _ _ _ _ _ Hpass1) as Hl1.
  exists mc1, self1, r1, mc2, self2, r2, mc12, self12.
  do 4 (split; [assumption|]). split.
  - intros t i j Ht Hi Hj. rewrite (Hsl12 t i j) by lia.
    rewrite (Hsl1 t i j Ht Hi Hj). rewrite app_nth1 by lia. reflexivity.
  - intros t i j Ht Hi Hj. rewrite (Hsl12 (T1 + t)%nat i j) by lia.
    rewrite (Hsl2 t i j Ht Hi Hj). rewrite app_nth2 by lia.
    replace (T1 + t - length vs1)%nat with t by lia. reflexivity.
Qed.

(** X11.  [predict] compiles its function once, from the layer that is
    last at the first call, and caches it: the first call returns the
    output of that function, and every later call runs the same function,
    also after the network of the model was cut or replaced; the function
    is never compiled again. *)
Theorem predict_cached (self : Model) (xs : list ndarray) (sigma : pstore)
  (r : rng) (out : layer) :
  _predict self = None ->
  last_item (OD.values (net self)) = OK out ->
  predict rng theano_call self xs sigma r
  = match theano_call (mk_compiled (OD.values (inputs self)) out true)
            sigma xs r with
    | OK (y, r1) =>
        OK (y, set_predict (mk_compiled (OD.values (inputs self)) out true)
                 self, r1)
    | Raise e => Raise e
    end
  /\ forall network' xs' sigma' r1,
       predict rng theano_call
         (set_net network'
            (set_predict (mk_compiled (OD.values (inputs self)) out true)
               self)) xs' sigma' r1
       = match theano_call (mk_compiled (OD.values (inputs self)) out true)
               sigma' xs' r1 with
         | OK (y, r2) =>
             OK (y, set_net network'
                      (set_predict
                         (mk_compiled (OD.values (inputs self)) out true)
                         self), r2)
         | Raise e => Raise e
         end.
Proof.
  intros Hcache Hout. split.
  - unfold predict. rewrite Hcache. unfold theano_function. rewrite Hout.
    cbn [rbind _predict set_predict].
    destruct (theano_call _ sigma xs r) as [[y r1]|e]; reflexivity.
  - intros network' xs' sigma' r1. unfold predict.
    cbn [_predict set_net set_predict rbind].
    destruct (theano_call _ sigma' xs' r1) as [[y r2]|e]; reflexivity.
Qed.

(** X12.  Once the stochastic function is compiled, [mc_samples] with
    [T=0] returns an array of shape [(n, n_out, 0)] without running a
    pass: the model and the random state are the ones it was given,
    whatever the compiled function would do.  With a negative [T] it
    raises [ValueError], from [np.zeros]. *)
Theorem mc_samples_no_pass (self : Model) (c : compiled)
  (xs : list ndarray) (T : Z) (sigma : pstore) (r : rng) (x0 : ndarray)
  (n n_out : nat) (out : layer) :
  _predict_stoch self = Some c ->
  last_item (OD.values (net self)) = OK out ->
  nth_error (output_shape out) 1 = Some (Some (Z.of_nat n_out)) ->
  nth_error xs 0 = Some x0 ->
  len x0 = OK n ->
  (T <= 0)%Z ->
  (T = 0%Z ->
   mc_samples rng theano_call self xs [("T", PInt T)] sigma r
   = OK (zeros [n; n_out; 0%nat], self, r))
  /\ ((T < 0)%Z ->
      mc_samples rng theano_call self xs [("T", PInt T)] sigma r
      = Raise ValueError).
Proof.
  intros Hc Hout Hshape Hx0 Hlen HT.
  assert (Hneg : forall k, (Z.of_nat k <? 0)%Z = false)
    by (intros k; apply Z.ltb_ge; lia).
  assert (Hstart :
            mc_samples rng theano_call self xs [("T", PInt T)] sigma r
            = (mc <- (sh <- (d <- as_dim (PInt T);; OK [n; n_out; d]);;
                      OK (zeros sh));;
               ts <- range (PInt T);;
               res <- mc_loop rng theano_call c xs sigma ts mc r;;
               OK (fst res, self, snd res))%result).
  { unfold mc_samples. cbn [OD.pop String.eqb Ascii.eqb Bool.eqb].
    rewrite Hc. cbn [rbind].
    unfold item. rewrite Hx0. cbn [rbind]. rewrite Hlen. cbn [rbind].
    rewrite Hout. cbn [rbind]. rewrite Hshape. cbn [rbind].
    unfold np_zeros. cbn [comprehension].
    change (as_dim (PInt (Z.of_nat n)))
      with (if (Z.of_nat n <? 0)%Z then @Raise nat ValueError
            else OK (Z.to_nat (Z.of_nat n))).
    change (as_dim (PInt (Z.of_nat n_out)))
      with (if (Z.of_nat n_out <? 0)%Z then @Raise nat ValueError
            else OK (Z.to_nat (Z.of_nat n_out))).
    rewrite !Hneg. cbn [rbind]. rewrite !Nat2Z.id. rewrite Hc.
    destruct (as_dim (PInt T)); reflexivity. }
  split.
  - intros ->. rewrite Hstart. reflexivity.
  - intros Hlt. rewrite Hstart. cbn [as_dim].
    apply Z.ltb_lt in Hlt. rewrite Hlt. reflexivity.
Qed.

(** X13.  Called with no keyword argument but ['T'], [mc_samples] raises
    [IndexError] when the stochastic function is compiled and no input is
    given (at [inputs[0]]), and when no function is compiled yet and the
    network of the model is empty (at [self.net.values()[-1]], before
    anything is compiled). *)
Theorem mc_samples_IndexError (self : Model) (xs : list ndarray) (T : pyval)
  (sigma : pstore) (r : rng) :
  (xs = [] /\ exists c, _predict_stoch self = Some c)
  \/ (net self = [] /\ _predict_stoch self = None) ->
  mc_samples rng theano_call self xs [("T", T)] sigma r = Raise IndexError
  /\ mc_samples rng theano_call self xs [] sigma r = Raise IndexError.
Proof.
  intros H.
  assert (Hgen : forall T0,
             rbind (match _predict_stoch self with
                    | None =>
                        (c <- theano_function self false;;
                         OK (set_predict_stoch c self))%result
                    | Some _ => OK self
                    end)
               (fun self0 =>
                  (x0 <- item xs 0;;
                   n_samples <- len x0;;
                   out <- last_item (OD.values (net self0));;
                   n_out <- item (output_shape out) 1;;
                   mc <- np_zeros [PInt (Z.of_nat n_samples);
                                   match n_out with
                                   | Some z => PInt z
                                   | None => PNone
                                   end; T0];;
                   ts <- range T0;;
                   match _predict_stoch self0 with
                   | None => Raise (TypeError NotSubscriptable)
                   | Some c =>
                       res <- mc_loop rng theano_call c xs sigma ts mc r;;
                       OK (fst res, self0, snd res)
                   end)%result)
             = Raise IndexError).
  { intros T0. destruct H as [[-> [c Hc]]|[Hnet Hc]].
    - rewrite Hc. reflexivity.
    - rewrite Hc. unfold theano_function. rewrite Hnet. reflexivity. }
  split; unfold mc_samples; cbn [OD.pop String.eqb Ascii.eqb Bool.eqb];
    apply Hgen.
Qed.

End Forward.

(** X10 for the toy model: two and then three passes, and five at once. *)
Lemma mc_samples_twice_witness :
  exists mc1 self1 r1 mc2 self2 r2 mc12 self12,
    mc_samples nat Toy.backend Toy.model [zeros [5; 3]%nat]
      [("T", PInt 2)] Toy.sigma 0%nat = OK (mc1, self1, r1)
    /\ mc_samples nat Toy.backend self1 [zeros [5; 3]%nat]
         [("T", PInt 3)] Toy.sigma r1 = OK (mc2, self2, r2)
    /\ mc_samples nat Toy.backend Toy.model [zeros [5; 3]%nat]
         [("T", PInt 5)] Toy.sigma 0%nat = OK (mc12, self12, r2)
    /\ shape mc12 = [5; 2; 5]%nat
    /\ (forall t i j, (t < 2)%nat -> (i < 5)%nat -> (j < 2)%nat ->
                      at_ mc12 [i; j; t] = at_ mc1 [i; j; t])
    /\ (forall t i j, (t < 3)%nat -> (i < 5)%nat -> (j < 2)%nat ->
                      at_ mc12 [i; j; (2 + t)%nat] = at_ mc2 [i; j; t]).
Proof.
  apply (mc_samples_twice nat Toy.backend Toy.model [zeros [5; 3]%nat] 2 3
           Toy.sigma 0%nat (zeros [5; 3]%nat) 5 2 Toy.out).
  - reflexivity.
  - reflexivity.
  - reflexivity.
  - reflexivity.
  - reflexivity.
  - intros r0. eexists _, _. split; reflexivity.
Defined.

(** X11 for the toy model. *)
Lemma predict_cached_witness :
  _predict Toy.model = None
  /\ last_item (OD.values (net Toy.model)) = OK Toy.out
  /\ predict nat Toy.backend Toy.model [zeros [5; 3]%nat] Toy.sigma 0%nat
     = match Toy.backend
               (mk_compiled (OD.values (inputs Toy.model)) Toy.out true)
               Toy.sigma [zeros [5; 3]%nat] 0%nat with
       | OK (y, r1) =>
           OK (y, set_predict
                    (mk_compiled (OD.values (inputs Toy.model)) Toy.out true)
                    Toy.model, r1)
       | Raise e => Raise e
       end.
Proof.
  split; [reflexivity|]. split; [reflexivity|].
  apply (predict_cached nat Toy.backend Toy.model [zeros [5; 3]%nat]
           Toy.sigma 0%nat Toy.out); reflexivity.
Defined.

(** X12 for the toy model with its function compiled, and [T=0]. *)
Lemma mc_samples_no_pass_witness :
  mc_samples nat Toy.backend
    (set_predict_stoch
       (mk_compiled (OD.values (inputs Toy.model)) Toy.out false) Toy.model)
    [zeros [5; 3]%nat] [("T", PInt 0)] Toy.sigma 7%nat
  = OK (zeros [5; 2; 0]%nat,
        set_predict_stoch
          (mk_compiled (OD.values (inputs Toy.model)) Toy.out false)
          Toy.model,
        7%nat).
Proof.
  apply (mc_samples_no_pass nat Toy.backend
           (set_predict_stoch
              (mk_compiled (OD.values (inputs Toy.model)) Toy.out false)
              Toy.model)
           (mk_compiled (OD.values (inputs Toy.model)) Toy.out false)
           [zeros [5; 3]%nat] 0 Toy.sigma 7%nat (zeros [5; 3]%nat) 5 2
           Toy.out);
    first [reflexivity | lia].
Defined.

(** X13 for the toy model with its function compiled, called without
    inputs. *)
Lemma mc_samples_IndexError_witness :
  mc_samples nat Toy.backend
    (set_predict_stoch
       (mk_compiled (OD.values (inputs Toy.model)) Toy.out false) Toy.model)
    [] [("T", PInt 10)] Toy.sigma 0%nat
  = Raise IndexError
  /\ mc_samples nat Toy.backend
       (set_predict_stoch
          (mk_compiled (OD.values (inputs Toy.model)) Toy.out false)
          Toy.model)
       [] [] Toy.sigma 0%nat
     = Raise IndexError.
Proof.
  apply (mc_samples_IndexError nat Toy.backend
           (set_predict_stoch
              (mk_compiled (OD.values (inputs Toy.model)) Toy.out false)
              Toy.model)
           [] (PInt 10) Toy.sigma 0%nat).
  left. split; [reflexivity|]. eexists. reflexivity.
Defined.

(** ** Layers and parameters below the head of a BCNN *)

Lemma In_unique_from {A} (eq_dec : forall x y : A, {x = y} + {x <> y})
  (l : list A) :
  forall seen x,
    In x (unique_from eq_dec seen l) <-> In x l /\ ~ In x seen.
Proof.
  induction l as [|a l IH]; intros seen x; cbn [unique_from In].
  - tauto.
  - destruct (in_dec eq_dec a seen) as [Ha|Ha].
    + rewrite IH. split; [tauto|]. intros [[<-|Hx] Hn]; tauto.
    + cbn [In]. rewrite IH. cbn [In].
      destruct (eq_dec a x) as [<-|Hne]; tauto.
Qed.

Lemma In_unique {A} (eq_dec : forall x y : A, {x = y} + {x <> y})
  (l : list A) (x : A) :
  In x (unique eq_dec l) <-> In x l.
Proof. unfold unique. rewrite In_unique_from. cbn [In]. tauto. Qed.

Lemma unique_from_ext {A} (eq_dec : forall x y : A, {x = y} + {x <> y})
  (l : list A) :
  forall s1 s2,
    (forall x, In x s1 <-> In x s2) ->
    unique_from eq_dec s1 l = unique_from eq_dec s2 l.
Proof.
  induction l as [|a l IH]; intros s1 s2 Hs; cbn [unique_from];
    [reflexivity|].
  destruct (in_dec eq_dec a s1) as [H1|H1],
           (in_dec eq_dec a s2) as [H2|H2].
  - now apply IH.
  - exfalso. apply H2, Hs, H1.
  - exfalso. apply H1, Hs, H2.
  - f_equal. apply IH. intros x. cbn [In]. now rewrite Hs.
Qed.

Lemma unique_from_app {A} (eq_dec : forall x y : A, {x = y} + {x <> y})
  (l1 l2 : list A) :
  forall seen,
    unique_from eq_dec seen (l1 ++ l2)
    = unique_from eq_dec seen l1 ++ unique_from eq_dec (l1 ++ seen) l2.
Proof.
  induction l1 as [|a l1 IH]; intros seen; cbn [app unique_from];
    [reflexivity|].
  destruct (in_dec eq_dec a seen) as [Ha|Ha].
  - rewrite IH. f_equal. apply unique_from_ext.
    intros x. cbn [In]. rewrite !in_app_iff.
    split; [tauto|]. intros [<-|H]; tauto.
  - cbn [app]. f_equal. rewrite IH. f_equal. apply unique_from_ext.
    intros x. cbn [In]. rewrite !in_app_iff. cbn [In]. tauto.
Qed.

Lemma unique_from_seen {A} (eq_dec : forall x y : A, {x = y} + {x <> y})
  (l seen : list A) :
  (forall x, In x l -> In x seen) -> unique_from eq_dec seen l = [].
Proof.
  induction l as [|a l IH]; intros H; cbn [unique_from]; [reflexivity|].
  destruct (in_dec eq_dec a seen) as [Ha|Ha].
  - apply IH. intros x Hx. apply H. now right.
  - exfalso. apply Ha, H. now left.
Qed.

Lemma unique_from_fresh {A} (eq_dec : forall x y : A, {x = y} + {x <> y})
  (l : list A) :
  forall seen,
    NoDup l -> (forall x, In x l -> ~ In x seen) ->
    unique_from eq_dec seen l = l.
Proof.
  induction l as [|a l IH]; intros seen Hnd H; cbn [unique_from];
    [reflexivity|].
  inversion Hnd as [|a' l' Ha Hnd']; subst.
  destruct (in_dec eq_dec a seen) as [Hs|_].
  - exfalso. apply (H a); [now left | exact Hs].
  - f_equal. apply IH; [exact Hnd'|].
    intros x Hx [<-|Hs]; [contradiction|].
    apply (H x); [now right | exact Hs].
Qed.

Lemma postorder_size (l : layer) :
  forall x, In x (postorder l) -> (size x <= size l)%nat.
Proof.
  induction l; intros x Hx; cbn [postorder] in Hx;
    repeat (apply in_app_or in Hx; destruct Hx as [Hx|Hx]);
    try (destruct Hx as [<-|[]]; cbn [size]; lia);
    cbn [size];
    match goal with
    | IH : forall y, In y (postorder ?i) -> _, H : In x (postorder ?i) |- _ =>
        specialize (IH x H); lia
    end.
Qed.

(** The layers below the output of a BCNN: those below the layer [l] it
    keeps as the last one, then the two pools, their concatenation, the
    dense layer and the softmax. *)
Lemma get_all_layers_bcnn_logreg (l : layer) (n_classes : Z) :
  get_all_layers (bcnn_logreg l n_classes)
  = get_all_layers l
    ++ [GlobalPoolLayer l T_mean; GlobalPoolLayer l T_max;
        bcnn_global_pool l; bcnn_softmax_input l n_classes;
        bcnn_logreg l n_classes].
Proof.
  unfold get_all_layers, unique.
  cbn [postorder bcnn_logreg bcnn_softmax_input bcnn_global_pool].
  fold (bcnn_global_pool l). fold (bcnn_softmax_input l n_classes).
  fold (bcnn_logreg l n_classes).
  repeat rewrite <- app_assoc. cbn [app].
  rewrite unique_from_app. f_equal.
  change (GlobalPoolLayer l T_mean
          :: postorder l
             ++ [GlobalPoolLayer l T_max; bcnn_global_pool l;
                 bcnn_softmax_input l n_classes; bcnn_logreg l n_classes])
    with ([GlobalPoolLayer l T_mean]
          ++ postorder l
             ++ [GlobalPoolLayer l T_max; bcnn_global_pool l;
                 bcnn_softmax_input l n_classes; bcnn_logreg l n_classes]).
  assert (Hbig : forall x, (size l < size x)%nat -> ~ In x (postorder l)).
  { intros x Hx Hin. apply postorder_size in Hin. lia. }
  rewrite unique_from_app.
  rewrite (unique_from_fresh layer_eq_dec [GlobalPoolLayer l T_mean]).
  2:{ repeat constructor. intros []. }
  2:{ intros x [<-|[]]. rewrite app_nil_r. apply Hbig. cbn [size]. lia. }
  cbn [app]. f_equal.
  rewrite unique_from_app.
  rewrite unique_from_seen.
  2:{ intros x Hx. right. apply in_or_app. now left. }
  cbn [app].
  apply unique_from_fresh.
  - repeat constructor; cbn [In]; intros H;
      repeat (destruct H as [H|H]; [|]); try contradiction;
      apply (f_equal size) in H;
      cbn [size bcnn_logreg bcnn_softmax_input bcnn_global_pool] in H;
      try lia; discriminate.
  - intros x Hx Hin.
    apply in_app_or in Hin. destruct Hin as [Hin|Hin].
    + apply (Hbig x); [|exact Hin].
      cbn [In] in Hx.
      repeat (destruct Hx as [<-|Hx];
              [cbn [size bcnn_logreg bcnn_softmax_input bcnn_global_pool];
               lia|]).
      contradiction.
    + cbn [In app] in Hin. destruct Hin as [Hin|Hin].
      * subst x. cbn [In] in Hx.
        repeat (destruct Hx as [Hx|Hx]; [|]); try contradiction;
          try discriminate Hx;
          apply (f_equal size) in Hx;
          cbn [size bcnn_logreg bcnn_softmax_input bcnn_global_pool] in Hx;
          lia.
      * rewrite app_nil_r in Hin. apply (Hbig x); [|exact Hin].
        cbn [In] in Hx.
        repeat (destruct Hx as [<-|Hx];
                [cbn [size bcnn_logreg bcnn_softmax_input bcnn_global_pool];
                 lia|]).
        contradiction.
Qed.

Lemma params_of_no_new (l x : layer) (name : string) :
  (size l < size x)%nat ->
  ~ In (x, name) (params_of (get_all_layers l)).
Proof.
  intros Hx Hin. unfold params_of in Hin. apply in_flat_map in Hin.
  destruct Hin as (l' & Hl' & Hin). apply in_map_iff in Hin.
  destruct Hin as (n & Heq & _). injection Heq as -> _.
  apply In_unique, postorder_size in Hl'. lia.
Qed.

Lemma get_all_params_bcnn_logreg (l : layer) (n_classes : Z) :
  get_all_params (bcnn_logreg l n_classes)
  = get_all_params l
    ++ [(bcnn_softmax_input l n_classes, "W");
        (bcnn_softmax_input l n_classes, "b")].
Proof.
  unfold get_all_params. rewrite get_all_layers_bcnn_logreg.
  rewrite flat_map_app.
  cbn [flat_map own_params bcnn_global_pool bcnn_softmax_input bcnn_logreg
       map app].
  fold (bcnn_global_pool l). fold (bcnn_softmax_input l n_classes).
  unfold unique. rewrite unique_from_app. f_equal.
  apply unique_from_fresh.
  - repeat constructor; cbn [In]; intros H;
      repeat (destruct H as [H|H]; [|]); try contradiction; discriminate H.
  - intros x Hx Hin. rewrite app_nil_r in Hin.
    assert (Hbig : (size l < size (bcnn_softmax_input l n_classes))%nat)
      by (cbn [size bcnn_softmax_input bcnn_global_pool]; lia).
    destruct Hx as [<-|[<-|[]]];
      exact (params_of_no_new l _ _ Hbig Hin).
Qed.

Lemma get_after_prefix {V} (pre rest : OD.t V) (k : string) (v : V) :
  ~ In k (OD.keys pre) -> OD.get k (pre ++ (k, v) :: rest) = OK v.
Proof.
  intros Hn.
  replace (pre ++ (k, v) :: rest) with ((pre ++ [(k, v)]) ++ rest)
    by (rewrite <- app_assoc; reflexivity).
  apply get_app_l. now apply get_snoc.
Qed.

(** X14.  The parameters below the output of a BCNN are the parameters
    below the layer it keeps as the last one, in the same order, followed
    by [W] and [b] of the new dense layer: a weights file for the BCNN
    holds two arrays more than the kept layers have parameters, and the
    two pooling layers, which share their input, add none. *)
Theorem BCNN_params_layout p_conv last_layer weights n_classes w model w' :
  BCNN_init p_conv last_layer weights n_classes w = OK (model, w') ->
  exists l out,
    OD.get last_layer (net model) = OK l
    /\ get_output_layer model = OK out
    /\ get_all_params out
       = get_all_params l
         ++ [(bcnn_softmax_input l n_classes, "W");
             (bcnn_softmax_input l n_classes, "b")]
    /\ length (get_all_params out) = (length (get_all_params l) + 2)%nat.
Proof.
  intros H. apply BCNN_init_OK_inv in H.
  destruct H as (pre & l & post & l0 & w1 & _ & Hpre & _ & _ & _ & -> & _).
  exists l, (bcnn_logreg l n_classes).
  destruct (bcnn_model_net pre last_layer l n_classes l0) as (Hnet & _ & Hout).
  split; [rewrite Hnet; now apply get_after_prefix|].
  split; [exact Hout|].
  rewrite get_all_params_bcnn_logreg. split; [reflexivity|].
  rewrite length_app. reflexivity.
Qed.

(** X14 in the sample world, for the default [last_layer='13']. *)
Lemma BCNN_params_layout_witness :
  exists model w' l out,
    BCNN_init (1 # 5) "13" None 2 Sample.world0 = OK (model, w')
    /\ OD.get "13" (net model) = OK l
    /\ get_output_layer model = OK out
    /\ get_all_params out
       = get_all_params l
         ++ [(bcnn_softmax_input l 2, "W"); (bcnn_softmax_input l 2, "b")]
    /\ length (get_all_params out) = (length (get_all_params l) + 2)%nat.
Proof.
  destruct (BCNN_init (1 # 5) "13" None 2 Sample.world0)
    as [[model w']|e] eqn:H.
  - destruct (BCNN_params_layout _ _ _ _ _ _ _ H) as (l & out & Hrest).
    exists model, w', l, out. split; [reflexivity | exact Hrest].
  - exfalso. pose proof BCNN_init_13_keys as Hk. now rewrite H in Hk.
Defined.

(** ** The inputs of the graph *)

Lemma jfnet_before_imgdim p_conv :
  OD.keys (firstn 35 (jfnet_layers 512 512 5 None p_conv))
  = keys_before_imgdim
  /\ forallb reads_only_images
       (OD.values (firstn 35 (jfnet_layers 512 512 5 None p_conv))) = true
  /\ forallb reads_imgdim
       (OD.values (skipn 35 (jfnet_layers 512 512 5 None p_conv))) = true
  /\ OD.get "0" (jfnet_layers 512 512 5 None p_conv) = OK images_input.
Proof. repeat split; vm_compute; reflexivity. Qed.

Lemma NoDup_keys_value {V} (d : OD.t V) (k : string) (v v' : V) :
  NoDup (OD.keys d) -> In (k, v) d -> In (k, v') d -> v = v'.
Proof.
  induction d as [|[k0 v0] d IH]; cbn [OD.keys map fst In];
    intros Hnd H1 H2; [contradiction|].
  inversion Hnd as [|k1 ks Hk Hnd']; subst.
  assert (Hin : forall u, In (k0, u) d -> False).
  { intros u Hu. apply Hk. apply (in_map fst) in Hu. exact Hu. }
  destruct H1 as [H1|H1], H2 as [H2|H2].
  - congruence.
  - injection H1 as -> _. destruct (Hin _ H2).
  - injection H2 as -> _. destruct (Hin _ H1).
  - now apply IH.
Qed.

(** Where the entry of a key is, given where the key is. *)
Lemma entry_side {V} (d pre post : OD.t V) (k : string) (v : V) (n : nat) :
  NoDup (OD.keys d) ->
  d = pre ++ (k, v) :: post ->
  (In k (OD.keys (firstn n d)) -> In v (OD.values (firstn n d)))
  /\ (~ In k (OD.keys (firstn n d)) -> In v (OD.values (skipn n d))).
Proof.
  intros Hnd Hd.
  assert (Hkv : In (k, v) d)
    by (rewrite Hd; apply in_or_app; right; now left).
  split.
  - intros Hk. unfold OD.keys in Hk. apply in_map_iff in Hk.
    destruct Hk as ([k' v'] & Hfst & Hin). cbn [fst] in Hfst. subst k'.
    assert (Hd' : In (k, v') d).
    { rewrite <- (firstn_skipn n d). apply in_or_app. now left. }
    rewrite (NoDup_keys_value d k v v' Hnd Hkv Hd').
    unfold OD.values. apply in_map_iff. exists (k, v'). auto.
  - intros Hk. rewrite <- (firstn_skipn n d) in Hkv.
    apply in_app_or in Hkv. destruct Hkv as [Hin|Hin].
    + exfalso. apply Hk. unfold OD.keys. apply in_map_iff.
      exists (k, v). auto.
    + unfold OD.values. apply in_map_iff. exists (k, v). auto.
Qed.

(** X15.  The only input of a BCNN model is ['X'], the variable of the
    image input ['0'].  Cut at a [last_layer] declared before ['22'], the
    network reads from no other input layer; cut at ['22'] or later, it
    also reads from the input layer ['22'] ([imgdim]), whose variable is
    not among the inputs of the model. *)
Theorem BCNN_graph_inputs p_conv last_layer weights n_classes w model w' :
  BCNN_init p_conv last_layer weights n_classes w = OK (model, w') ->
  exists out,
    get_output_layer model = OK out
    /\ inputs model = [("X", input_var images_input)]
    /\ (In last_layer keys_before_imgdim ->
        forall x, In x (get_all_layers out) -> is_input x = true ->
                  x = images_input)
    /\ (~ In last_layer keys_before_imgdim ->
        In imgdim_input (get_all_layers out)
        /\ ~ In (input_var imgdim_input) (OD.values (inputs model))).
Proof.
  intros H. apply BCNN_init_OK_inv in H.
  destruct H as (pre & l & post & l0 & w1 & Hsplit & _ & _ & Hl0 & _ & ->
                 & _).
  destruct (jfnet_before_imgdim p_conv) as (Hkeys & Hbefore & Hafter & H0).
  rewrite H0 in Hl0. apply OK_inj in Hl0. subst l0.
  destruct (bcnn_model_net pre last_layer l n_classes images_input)
    as (_ & _ & Hout).
  assert (Hnd : NoDup (OD.keys (jfnet_layers 512 512 5 None p_conv)))
    by (rewrite jfnet_layers_keys; apply jfnet_keys_NoDup).
  destruct (entry_side _ pre post last_layer l 35 Hnd Hsplit)
    as [Hfirst Hlast].
  rewrite Hkeys in Hfirst, Hlast.
  clear Hsplit Hnd Hkeys H0.
  rewrite forallb_forall in Hbefore, Hafter.
  exists (bcnn_logreg l n_classes).
  split; [exact Hout|]. split; [reflexivity|]. split.
  - intros Hin x Hx Hinp.
    specialize (Hbefore l (Hfirst Hin)). clear Hfirst Hlast Hafter.
    rewrite get_all_layers_bcnn_logreg in Hx.
    apply in_app_or in Hx. destruct Hx as [Hx|Hx].
    + apply In_unique in Hx. unfold reads_only_images in Hbefore.
      rewrite forallb_forall in Hbefore. specialize (Hbefore x Hx).
      rewrite Hinp in Hbefore.
      destruct (layer_eq_dec x images_input) as [Heq|_];
        [exact Heq | discriminate Hbefore].
    + cbn [In] in Hx.
      repeat (destruct Hx as [<-|Hx]; [discriminate Hinp|]).
      contradiction.
  - intros Hn. specialize (Hafter l (Hlast Hn)). clear Hfirst Hlast Hbefore.
    split.
    + rewrite get_all_layers_bcnn_logreg. apply in_or_app. left.
      apply In_unique. unfold reads_imgdim in Hafter.
      apply existsb_exists in Hafter. destruct Hafter as (x & Hx & Heq).
      destruct (layer_eq_dec x imgdim_input) as [<-|_];
        [exact Hx | discriminate Heq].
    + cbn. intros [Heq|[]]. discriminate Heq.
Qed.

(** X15 in the sample world, for [last_layer='13'] and for
    [last_layer='24']. *)
Lemma BCNN_graph_inputs_witness :
  (exists model w' out,
     BCNN_init (1 # 5) "13" None 2 Sample.world0 = OK (model, w')
     /\ get_output_layer model = OK out
     /\ forall x, In x (get_all_layers out) -> is_input x = true ->
                  x = images_input)
  /\ (exists model w' out,
        BCNN_init (1 # 5) "24" None 2 Sample.world0 = OK (model, w')
        /\ get_output_layer model = OK out
        /\ In imgdim_input (get_all_layers out)
        /\ ~ In (input_var imgdim_input) (OD.values (inputs model))).
Proof.
  split.
  - destruct (BCNN_init (1 # 5) "13" None 2 Sample.world0)
      as [[model w']|e] eqn:H.
    + destruct (BCNN_graph_inputs _ _ _ _ _ _ _ H)
        as (out & Hout & _ & Hbefore & _).
      exists model, w', out. split; [reflexivity|]. split; [exact Hout|].
      apply Hbefore. unfold keys_before_imgdim. in_list.
    + exfalso. pose proof BCNN_init_13_keys as Hk. now rewrite H in Hk.
  - assert (Hok : match BCNN_init (1 # 5) "24" None 2 Sample.world0 with
                  | OK _ => True
                  | Raise _ => False
                  end) by (vm_compute; exact I).
    destruct (BCNN_init (1 # 5) "24" None 2 Sample.world0)
      as [[model w']|e] eqn:H; [|contradiction].
    destruct (BCNN_graph_inputs _ _ _ _ _ _ _ H)
      as (out & Hout & _ & _ & Hafter).
    exists model, w', out. split; [reflexivity|]. split; [exact Hout|].
    apply Hafter. unfold keys_before_imgdim. simpl.
    intuition discriminate.
Defined.

(** ** JFnet models *)

Lemma jfnet_inputs_output width height :
  OD.get "0" (jfnet_layers width height 5 None 0)
  = OK (InputLayer [None; Some 3%Z; Some width; Some height]
          (Some "images"))
  /\ OD.get "22" (jfnet_layers width height 5 None 0) = OK imgdim_input
  /\ exists out,
       last_item (OD.values (jfnet_layers width height 5 None 0)) = OK out
       /\ OD.get "31" (jfnet_layers width height 5 None 0) = OK out
       /\ output_shape out = [None; Some 5%Z].
Proof.
  split; [vm_compute; reflexivity|]. split; [vm_compute; reflexivity|].
  eexists. split; [vm_compute; reflexivity|].
  split; vm_compute; reflexivity.
Qed.

(** X16.  A model [JFnet(width, height)] has the 45 layers, the two inputs
    ['X'] and ['img_dim'], bound to the variables of the input layers
    ['0'], of shape [(None, 3, width, height)], and ['22'], and the output
    layer ['31'] of shape [(None, 5)], whatever the width and the
    height. *)
Theorem JFnet_init_model width height w model w' :
  JFnet_init width height w = OK (model, w') ->
  OD.keys (net model) = jfnet_keys
  /\ inputs model
     = [("X", input_var (InputLayer
                           [None; Some 3%Z; Some width; Some height]
                           (Some "images")));
        ("img_dim", input_var imgdim_input)]
  /\ exists out,
       get_output_layer model = OK out
       /\ OD.get "31" (net model) = OK out
       /\ output_shape out = [None; Some 5%Z].
Proof.
  unfold JFnet_init. intros H.
  apply bind_OK in H. destruct H as (network & w1 & Hbuild & H).
  apply build_model_OK in Hbuild. subst network.
  destruct (jfnet_inputs_output width height)
    as (H0 & H22 & out & Hlast & H31 & Hshape).
  pose proof (jfnet_layers_keys width height 5 None 0) as Hkeys.
  generalize dependent (jfnet_layers width height 5 None 0).
  intros jf H H0 H22 Hlast H31 Hkeys.
  cbn [net Model_init set_input] in H.
  revert H. run_lift H0. run_lift H22. unfold ret. intros H.
  apply OK_inj in H. injection H as <- _.
  cbn [net inputs set_input Model_init OD.set String.eqb Ascii.eqb Bool.eqb].
  split; [exact Hkeys|]. split; [reflexivity|].
  exists out. unfold get_output_layer. cbn [net]. auto.
Qed.

(** X16 in the sample world. *)
Lemma JFnet_init_model_witness :
  exists model w',
    JFnet_init 512 512 Sample.world0 = OK (model, w')
    /\ OD.keys (net model) = jfnet_keys
    /\ inputs model
       = [("X", input_var (InputLayer
                             [None; Some 3%Z; Some 512%Z; Some 512%Z]
                             (Some "images")));
          ("img_dim", input_var imgdim_input)]
    /\ exists out,
         get_output_layer model = OK out
         /\ OD.get "31" (net model) = OK out
         /\ output_shape out = [None; Some 5%Z].
Proof.
  destruct (JFnet_init 512 512 Sample.world0) as [[model w']|e] eqn:H.
  - exists model, w'. split; [reflexivity|].
    exact (JFnet_init_model 512 512 Sample.world0 model w' H).
  - exfalso. pose proof JFnet_init_sample as Hk. now rewrite H in Hk.
Defined.
